(** * Gesture command pipeline and whiteboard state engine

    A shallow embedding of the three gesture front ends of the repository

    - [App]        : class [WhiteboardApp]      (adaptive_microgesture/app.py)
    - [Whiteboard] : class [GestureWhiteboard]  (whiteboard_app.py)
    - [Backend]    : class [GestureRecognitionBackend] (scripts/gesture_backend.py)

    and of the rule-based recogniser

    - [Integration] : class [GestureWhiteboardIntegration]
                      (scripts/gesture_integration_example.py)

    followed by the properties of the window buffer, the debouncer, the
    bounded undo/redo history, the shape preview and the view transform,
    and by further properties of the loops, the palette, the pointer and
    the indexed history of the simpler whiteboard.

    Conventions.  Python floats (timestamps, confidences, landmark
    coordinates, zoom factor, offsets) are idealised as rationals [Q].
    numpy arrays are values: every array the source stores in an
    attribute, a deque or a list is fresh or a [.copy()], so no two of them
    alias, and a drawing call [cv2.f(img, ...)], which paints [img] in
    place, is rendered as a function returning the painted image, stored
    back in the attribute [img] was read from.  OpenCV's rasterisation and the TFLite interpreter are
    external: they are the type classes [Raster] and [Interpreter]. *)

From Stdlib Require Import String Ascii DecimalString Bool List Sorted ZArith QArith
  Qminmax Lia Lqa.
Import ListNotations.

Local Close Scope Q_scope.
Local Open Scope string_scope.
Local Open Scope list_scope.
Local Open Scope nat_scope.

Notation "a +s+ b" := (String.append a b) (at level 60, right associativity).

(** ** Shared data *)

Definition Time := Q.
Bind Scope Q_scope with Time.
Definition Point := (Z * Z)%type.
(** A colour is an OpenCV BGR triple. *)
Definition Color := (Z * Z * Z)%type.

(** One MediaPipe landmark ([lm.x], [lm.y], [lm.z]). *)
Record Landmark : Type := Build_Landmark { lm_x : Q; lm_y : Q; lm_z : Q }.

(** The array of shape (1, 1, 21, 3) built from one snapshot: its 21 rows. *)
Definition Frame := list (Q * Q * Q).

(** The drawing surface and the OpenCV primitives the whiteboards call. *)
Class Raster : Type := {
  Canvas : Type;
  (** [np.ones((height, width, 3), dtype=np.uint8) * 255] *)
  np_ones_255 : Z -> Z -> Canvas;
  (** [cv2.line(img, pt1, pt2, color, thickness)] *)
  cv2_line : Canvas -> Point -> Point -> Color -> Z -> Canvas;
  (** [cv2.rectangle(img, pt1, pt2, color, thickness)] *)
  cv2_rectangle : Canvas -> Point -> Point -> Color -> Z -> Canvas;
  (** [cv2.circle(img, center, radius, color, thickness)] *)
  cv2_circle : Canvas -> Point -> Z -> Color -> Z -> Canvas;
  (** [cv2.arrowedLine(img, pt1, pt2, color, thickness, tipLength=0.3)] *)
  cv2_arrowedLine : Canvas -> Point -> Point -> Color -> Z -> Canvas
}.

(** The TFLite interpreter: [set_tensor; invoke; get_tensor(...)[0]], the
    vector of class probabilities for a window of frames. *)
Class Interpreter : Type := {
  invoke : list Frame -> list Q
}.

(** Calls that leave the process: interpreter invocations and image files. *)
Inductive Effect `{Raster} : Type :=
| Invoke (input_data : list Frame)
| ImWrite (filename : string) (img : Canvas).

(** ** Python helpers *)

Definition Qlt_bool (a b : Q) : bool := negb (Qle_bool b a).

(** [int(q)]: truncation toward zero. *)
Definition py_int (q : Q) : Z := Z.quot (Qnum q) (Zpos (Qden q)).

(** [str(n)] for an integer. *)
Definition str_int (n : Z) : string := NilZero.string_of_int (Z.to_int n).

Definition upper (c : ascii) : ascii :=
  let n := nat_of_ascii c in
  if andb (97 <=? n) (n <=? 122) then ascii_of_nat (n - 32) else c.

Definition lower (c : ascii) : ascii :=
  let n := nat_of_ascii c in
  if andb (65 <=? n) (n <=? 90) then ascii_of_nat (n + 32) else c.

Fixpoint str_map (f : ascii -> ascii) (s : string) : string :=
  match s with
  | EmptyString => EmptyString
  | String c r => String (f c) (str_map f r)
  end.

(** [s.capitalize()] *)
Definition capitalize (s : string) : string :=
  match s with
  | EmptyString => EmptyString
  | String c r => String (upper c) (str_map lower r)
  end.

(** [d.get(key, default)] on a dict with integer keys; a [None] key is in
    no dict. *)
Fixpoint dict_get (d : list (nat * string)) (key : option nat) (default : string) : string :=
  match d with
  | [] => default
  | (k, v) :: r =>
      match key with
      | Some n => if Nat.eqb k n then v else dict_get r key default
      | None => default
      end
  end.

(** [a == b] for values that are a string or [None]. *)
Definition opt_str_eqb (a b : option string) : bool :=
  match a, b with
  | Some x, Some y => String.eqb x y
  | None, None => true
  | _, _ => false
  end.

(** Truth value of an attribute that is [None] or a (non-empty) tuple. *)
Definition truthy {A : Type} (o : option A) : bool :=
  match o with Some _ => true | None => false end.

(** [np.argmax]: the first position of the largest entry.  numpy raises on
    an empty vector; the position 0 stands for that case here. *)
Fixpoint argmax_from (best : nat) (bestv : Q) (i : nat) (l : list Q) : nat :=
  match l with
  | [] => best
  | v :: r => if Qlt_bool bestv v then argmax_from i v (S i) r
              else argmax_from best bestv (S i) r
  end.

Definition np_argmax (l : list Q) : nat :=
  match l with
  | [] => 0
  | v :: r => argmax_from 0 v 1 r
  end.

(** [collections.deque(maxlen=n)] as a list, left end first. *)
Module Deque.
(** [d.append(x)]: push on the right, dropping from the left what no
    longer fits. *)
Definition append {A : Type} (maxlen : nat) (d : list A) (x : A) : list A :=
  skipn (length (d ++ [x]) - maxlen) (d ++ [x]).
End Deque.

(** Class indices to gesture names ([GESTURE_MAP], the same in all three
    front ends). *)
Definition GESTURE_MAP : list (nat * string) :=
  [ (0, "write_start"); (1, "write_stop"); (2, "erase"); (3, "zoom_in");
    (4, "zoom_out"); (5, "draw_shapes"); (6, "undo"); (7, "redo");
    (8, "change_color"); (9, "save"); (10, "pan"); (11, "clear_all") ].

(** [preprocess_landmarks] / [process_landmarks]: [None] unless there are
    exactly 21 landmarks. *)
Definition process_landmarks (landmarks : list Landmark) : option Frame :=
  if negb (length landmarks =? 21) then None
  else Some (map (fun lm => (lm_x lm, lm_y lm, lm_z lm)) landmarks).

(** [predict_gesture]: the shape check on axis 1, then the interpreter.
    The third component lists the interpreter calls made. *)
Definition predict_gesture `{Raster} `{Interpreter} (sequence_length : nat)
    (input_data : list Frame) : option nat * Q * list Effect :=
  if negb (length input_data =? sequence_length) then (None, 0%Q, [])
  else
    let output := invoke input_data in
    let predicted_class := np_argmax output in
    let confidence := nth predicted_class output 0%Q in
    (Some predicted_class, confidence, [Invoke input_data]).

(** ** adaptive_microgesture/app.py: class WhiteboardApp *)

Module App.

Section Methods.
Context {R : Raster} {I : Interpreter}.

(** Attributes that [__init__] sets and nothing reassigns. *)
Definition canvas_width : Z := 1200.
Definition canvas_height : Z := 800.
Definition eraser_color : Color := (255, 255, 255)%Z.
Definition line_thickness : Z := 5.
Definition eraser_thickness : Z := 25.
Definition shapes : list string := ["rectangle"; "circle"; "line"; "arrow"].
Definition sequence_length : nat := 4.
Definition gesture_cooldown : Q := 1.
(** [deque(maxlen=50)], for [history] and [redo_stack] alike. *)
Definition maxlen : nat := 50.

(** The attributes that change.  [prev_x] and [prev_y] are created by
    [start_drawing] and read only while [drawing] holds, which only
    [start_drawing] sets; they are given the value 0 before that. *)
Record WhiteboardApp : Type := Build_WhiteboardApp {
  drawing : bool;
  erasing : bool;
  drawing_color : Color;
  canvas : Canvas;
  temp_canvas : Canvas;
  history : list Canvas;
  redo_stack : list Canvas;
  zoom_factor : Q;
  offset_x : Q;
  offset_y : Q;
  pan_mode : bool;
  prev_pan_x : Z;
  prev_pan_y : Z;
  shape_drawing : bool;
  shape_start_point : option Point;
  current_shape : string;
  shape_index : nat;
  frame_buffer : list Frame;
  last_gesture_time : Time;
  last_gesture : option string;
  prev_x : Z;
  prev_y : Z;
  status_message : string;
  status_expire : Time
}.

Definition set_drawing (v : bool) (s : WhiteboardApp) : WhiteboardApp :=
  Build_WhiteboardApp
    v (erasing s) (drawing_color s) (canvas s) (temp_canvas s) (history s)
    (redo_stack s) (zoom_factor s) (offset_x s) (offset_y s) (pan_mode s)
    (prev_pan_x s) (prev_pan_y s) (shape_drawing s) (shape_start_point s)
    (current_shape s) (shape_index s) (frame_buffer s) (last_gesture_time s)
    (last_gesture s) (prev_x s) (prev_y s) (status_message s)
    (status_expire s).
Definition set_erasing (v : bool) (s : WhiteboardApp) : WhiteboardApp :=
  Build_WhiteboardApp
    (drawing s) v (drawing_color s) (canvas s) (temp_canvas s) (history s)
    (redo_stack s) (zoom_factor s) (offset_x s) (offset_y s) (pan_mode s)
    (prev_pan_x s) (prev_pan_y s) (shape_drawing s) (shape_start_point s)
    (current_shape s) (shape_index s) (frame_buffer s) (last_gesture_time s)
    (last_gesture s) (prev_x s) (prev_y s) (status_message s)
    (status_expire s).
Definition set_drawing_color (v : Color) (s : WhiteboardApp) : WhiteboardApp :=
  Build_WhiteboardApp
    (drawing s) (erasing s) v (canvas s) (temp_canvas s) (history s)
    (redo_stack s) (zoom_factor s) (offset_x s) (offset_y s) (pan_mode s)
    (prev_pan_x s) (prev_pan_y s) (shape_drawing s) (shape_start_point s)
    (current_shape s) (shape_index s) (frame_buffer s) (last_gesture_time s)
    (last_gesture s) (prev_x s) (prev_y s) (status_message s)
    (status_expire s).
Definition set_canvas (v : Canvas) (s : WhiteboardApp) : WhiteboardApp :=
  Build_WhiteboardApp
    (drawing s) (erasing s) (drawing_color s) v (temp_canvas s) (history s)
    (redo_stack s) (zoom_factor s) (offset_x s) (offset_y s) (pan_mode s)
    (prev_pan_x s) (prev_pan_y s) (shape_drawing s) (shape_start_point s)
    (current_shape s) (shape_index s) (frame_buffer s) (last_gesture_time s)
    (last_gesture s) (prev_x s) (prev_y s) (status_message s)
    (status_expire s).
Definition set_temp_canvas (v : Canvas) (s : WhiteboardApp) : WhiteboardApp :=
  Build_WhiteboardApp
    (drawing s) (erasing s) (drawing_color s) (canvas s) v (history s)
    (redo_stack s) (zoom_factor s) (offset_x s) (offset_y s) (pan_mode s)
    (prev_pan_x s) (prev_pan_y s) (shape_drawing s) (shape_start_point s)
    (current_shape s) (shape_index s) (frame_buffer s) (last_gesture_time s)
    (last_gesture s) (prev_x s) (prev_y s) (status_message s)
    (status_expire s).
Definition set_history (v : list Canvas) (s : WhiteboardApp) : WhiteboardApp :=
  Build_WhiteboardApp
    (drawing s) (erasing s) (drawing_color s) (canvas s) (temp_canvas s) v
    (redo_stack s) (zoom_factor s) (offset_x s) (offset_y s) (pan_mode s)
    (prev_pan_x s) (prev_pan_y s) (shape_drawing s) (shape_start_point s)
    (current_shape s) (shape_index s) (frame_buffer s) (last_gesture_time s)
    (last_gesture s) (prev_x s) (prev_y s) (status_message s)
    (status_expire s).
Definition set_redo_stack (v : list Canvas) (s : WhiteboardApp) : WhiteboardApp :=
  Build_WhiteboardApp
    (drawing s) (erasing s) (drawing_color s) (canvas s) (temp_canvas s)
    (history s) v (zoom_factor s) (offset_x s) (offset_y s) (pan_mode s)
    (prev_pan_x s) (prev_pan_y s) (shape_drawing s) (shape_start_point s)
    (current_shape s) (shape_index s) (frame_buffer s) (last_gesture_time s)
    (last_gesture s) (prev_x s) (prev_y s) (status_message s)
    (status_expire s).
Definition set_zoom_factor (v : Q) (s : WhiteboardApp) : WhiteboardApp :=
  Build_WhiteboardApp
    (drawing s) (erasing s) (drawing_color s) (canvas s) (temp_canvas s)
    (history s) (redo_stack s) v (offset_x s) (offset_y s) (pan_mode s)
    (prev_pan_x s) (prev_pan_y s) (shape_drawing s) (shape_start_point s)
    (current_shape s) (shape_index s) (frame_buffer s) (last_gesture_time s)
    (last_gesture s) (prev_x s) (prev_y s) (status_message s)
    (status_expire s).
Definition set_offset_x (v : Q) (s : WhiteboardApp) : WhiteboardApp :=
  Build_WhiteboardApp
    (drawing s) (erasing s) (drawing_color s) (canvas s) (temp_canvas s)
    (history s) (redo_stack s) (zoom_factor s) v (offset_y s) (pan_mode s)
    (prev_pan_x s) (prev_pan_y s) (shape_drawing s) (shape_start_point s)
    (current_shape s) (shape_index s) (frame_buffer s) (last_gesture_time s)
    (last_gesture s) (prev_x s) (prev_y s) (status_message s)
    (status_expire s).
Definition set_offset_y (v : Q) (s : WhiteboardApp) : WhiteboardApp :=
  Build_WhiteboardApp
    (drawing s) (erasing s) (drawing_color s) (canvas s) (temp_canvas s)
    (history s) (redo_stack s) (zoom_factor s) (offset_x s) v (pan_mode s)
    (prev_pan_x s) (prev_pan_y s) (shape_drawing s) (shape_start_point s)
    (current_shape s) (shape_index s) (frame_buffer s) (last_gesture_time s)
    (last_gesture s) (prev_x s) (prev_y s) (status_message s)
    (status_expire s).
Definition set_pan_mode (v : bool) (s : WhiteboardApp) : WhiteboardApp :=
  Build_WhiteboardApp
    (drawing s) (erasing s) (drawing_color s) (canvas s) (temp_canvas s)
    (history s) (redo_stack s) (zoom_factor s) (offset_x s) (offset_y s) v
    (prev_pan_x s) (prev_pan_y s) (shape_drawing s) (shape_start_point s)
    (current_shape s) (shape_index s) (frame_buffer s) (last_gesture_time s)
    (last_gesture s) (prev_x s) (prev_y s) (status_message s)
    (status_expire s).
Definition set_prev_pan_x (v : Z) (s : WhiteboardApp) : WhiteboardApp :=
  Build_WhiteboardApp
    (drawing s) (erasing s) (drawing_color s) (canvas s) (temp_canvas s)
    (history s) (redo_stack s) (zoom_factor s) (offset_x s) (offset_y s)
    (pan_mode s) v (prev_pan_y s) (shape_drawing s) (shape_start_point s)
    (current_shape s) (shape_index s) (frame_buffer s) (last_gesture_time s)
    (last_gesture s) (prev_x s) (prev_y s) (status_message s)
    (status_expire s).
Definition set_prev_pan_y (v : Z) (s : WhiteboardApp) : WhiteboardApp :=
  Build_WhiteboardApp
    (drawing s) (erasing s) (drawing_color s) (canvas s) (temp_canvas s)
    (history s) (redo_stack s) (zoom_factor s) (offset_x s) (offset_y s)
    (pan_mode s) (prev_pan_x s) v (shape_drawing s) (shape_start_point s)
    (current_shape s) (shape_index s) (frame_buffer s) (last_gesture_time s)
    (last_gesture s) (prev_x s) (prev_y s) (status_message s)
    (status_expire s).
Definition set_shape_drawing (v : bool) (s : WhiteboardApp) : WhiteboardApp :=
  Build_WhiteboardApp
    (drawing s) (erasing s) (drawing_color s) (canvas s) (temp_canvas s)
    (history s) (redo_stack s) (zoom_factor s) (offset_x s) (offset_y s)
    (pan_mode s) (prev_pan_x s) (prev_pan_y s) v (shape_start_point s)
    (current_shape s) (shape_index s) (frame_buffer s) (last_gesture_time s)
    (last_gesture s) (prev_x s) (prev_y s) (status_message s)
    (status_expire s).
Definition set_shape_start_point (v : option Point) (s : WhiteboardApp) : WhiteboardApp :=
  Build_WhiteboardApp
    (drawing s) (erasing s) (drawing_color s) (canvas s) (temp_canvas s)
    (history s) (redo_stack s) (zoom_factor s) (offset_x s) (offset_y s)
    (pan_mode s) (prev_pan_x s) (prev_pan_y s) (shape_drawing s) v
    (current_shape s) (shape_index s) (frame_buffer s) (last_gesture_time s)
    (last_gesture s) (prev_x s) (prev_y s) (status_message s)
    (status_expire s).
Definition set_current_shape (v : string) (s : WhiteboardApp) : WhiteboardApp :=
  Build_WhiteboardApp
    (drawing s) (erasing s) (drawing_color s) (canvas s) (temp_canvas s)
    (history s) (redo_stack s) (zoom_factor s) (offset_x s) (offset_y s)
    (pan_mode s) (prev_pan_x s) (prev_pan_y s) (shape_drawing s)
    (shape_start_point s) v (shape_index s) (frame_buffer s)
    (last_gesture_time s) (last_gesture s) (prev_x s) (prev_y s)
    (status_message s) (status_expire s).
Definition set_shape_index (v : nat) (s : WhiteboardApp) : WhiteboardApp :=
  Build_WhiteboardApp
    (drawing s) (erasing s) (drawing_color s) (canvas s) (temp_canvas s)
    (history s) (redo_stack s) (zoom_factor s) (offset_x s) (offset_y s)
    (pan_mode s) (prev_pan_x s) (prev_pan_y s) (shape_drawing s)
    (shape_start_point s) (current_shape s) v (frame_buffer s)
    (last_gesture_time s) (last_gesture s) (prev_x s) (prev_y s)
    (status_message s) (status_expire s).
Definition set_frame_buffer (v : list Frame) (s : WhiteboardApp) : WhiteboardApp :=
  Build_WhiteboardApp
    (drawing s) (erasing s) (drawing_color s) (canvas s) (temp_canvas s)
    (history s) (redo_stack s) (zoom_factor s) (offset_x s) (offset_y s)
    (pan_mode s) (prev_pan_x s) (prev_pan_y s) (shape_drawing s)
    (shape_start_point s) (current_shape s) (shape_index s) v
    (last_gesture_time s) (last_gesture s) (prev_x s) (prev_y s)
    (status_message s) (status_expire s).
Definition set_last_gesture_time (v : Time) (s : WhiteboardApp) : WhiteboardApp :=
  Build_WhiteboardApp
    (drawing s) (erasing s) (drawing_color s) (canvas s) (temp_canvas s)
    (history s) (redo_stack s) (zoom_factor s) (offset_x s) (offset_y s)
    (pan_mode s) (prev_pan_x s) (prev_pan_y s) (shape_drawing s)
    (shape_start_point s) (current_shape s) (shape_index s) (frame_buffer s) v
    (last_gesture s) (prev_x s) (prev_y s) (status_message s)
    (status_expire s).
Definition set_last_gesture (v : option string) (s : WhiteboardApp) : WhiteboardApp :=
  Build_WhiteboardApp
    (drawing s) (erasing s) (drawing_color s) (canvas s) (temp_canvas s)
    (history s) (redo_stack s) (zoom_factor s) (offset_x s) (offset_y s)
    (pan_mode s) (prev_pan_x s) (prev_pan_y s) (shape_drawing s)
    (shape_start_point s) (current_shape s) (shape_index s) (frame_buffer s)
    (last_gesture_time s) v (prev_x s) (prev_y s) (status_message s)
    (status_expire s).
Definition set_prev_x (v : Z) (s : WhiteboardApp) : WhiteboardApp :=
  Build_WhiteboardApp
    (drawing s) (erasing s) (drawing_color s) (canvas s) (temp_canvas s)
    (history s) (redo_stack s) (zoom_factor s) (offset_x s) (offset_y s)
    (pan_mode s) (prev_pan_x s) (prev_pan_y s) (shape_drawing s)
    (shape_start_point s) (current_shape s) (shape_index s) (frame_buffer s)
    (last_gesture_time s) (last_gesture s) v (prev_y s) (status_message s)
    (status_expire s).
Definition set_prev_y (v : Z) (s : WhiteboardApp) : WhiteboardApp :=
  Build_WhiteboardApp
    (drawing s) (erasing s) (drawing_color s) (canvas s) (temp_canvas s)
    (history s) (redo_stack s) (zoom_factor s) (offset_x s) (offset_y s)
    (pan_mode s) (prev_pan_x s) (prev_pan_y s) (shape_drawing s)
    (shape_start_point s) (current_shape s) (shape_index s) (frame_buffer s)
    (last_gesture_time s) (last_gesture s) (prev_x s) v (status_message s)
    (status_expire s).
Definition set_status_message (v : string) (s : WhiteboardApp) : WhiteboardApp :=
  Build_WhiteboardApp
    (drawing s) (erasing s) (drawing_color s) (canvas s) (temp_canvas s)
    (history s) (redo_stack s) (zoom_factor s) (offset_x s) (offset_y s)
    (pan_mode s) (prev_pan_x s) (prev_pan_y s) (shape_drawing s)
    (shape_start_point s) (current_shape s) (shape_index s) (frame_buffer s)
    (last_gesture_time s) (last_gesture s) (prev_x s) (prev_y s) v
    (status_expire s).
Definition set_status_expire (v : Time) (s : WhiteboardApp) : WhiteboardApp :=
  Build_WhiteboardApp
    (drawing s) (erasing s) (drawing_color s) (canvas s) (temp_canvas s)
    (history s) (redo_stack s) (zoom_factor s) (offset_x s) (offset_y s)
    (pan_mode s) (prev_pan_x s) (prev_pan_y s) (shape_drawing s)
    (shape_start_point s) (current_shape s) (shape_index s) (frame_buffer s)
    (last_gesture_time s) (last_gesture s) (prev_x s) (prev_y s)
    (status_message s) v.

Definition blank : Canvas := np_ones_255 canvas_height canvas_width.

(** [status]: [now] is the clock reading taken inside the method. *)
Definition status (now : Time) (message : string) (s : WhiteboardApp) : WhiteboardApp :=
  set_status_expire (now + 3)%Q (set_status_message message s).

Definition save_history (s : WhiteboardApp) : WhiteboardApp :=
  set_redo_stack [] (set_history (Deque.append maxlen (history s) (canvas s)) s).

(** [__init__]: [now] is the reading stored in [last_gesture_time]. *)
Definition __init__ (now : Time) : WhiteboardApp :=
  save_history
    {| drawing := false; erasing := false; drawing_color := (0, 0, 255)%Z;
       canvas := blank; temp_canvas := blank;
       history := []; redo_stack := [];
       zoom_factor := 1%Q; offset_x := 0%Q; offset_y := 0%Q;
       pan_mode := false; prev_pan_x := 0%Z; prev_pan_y := 0%Z;
       shape_drawing := false; shape_start_point := None;
       current_shape := "rectangle"; shape_index := 0;
       frame_buffer := []; last_gesture_time := now; last_gesture := None;
       prev_x := 0%Z; prev_y := 0%Z;
       status_message := EmptyString; status_expire := 0%Q |}.

(** [undo]: [history.pop()] goes to [redo_stack], the canvas becomes a copy
    of the new [history[-1]].  The two newest entries are matched on the
    reversed deque; fewer than two is [len(self.history) <= 1]. *)
Definition undo (now : Time) (s : WhiteboardApp) : WhiteboardApp :=
  match rev (history s) with
  | top :: below :: older =>
      let s1 := set_history (rev (below :: older)) s in
      let s2 := set_redo_stack (Deque.append maxlen (redo_stack s1) top) s1 in
      let s3 := set_canvas below s2 in
      let s4 := set_temp_canvas (canvas s3) s3 in
      status now "Undo performed" s4
  | _ => s
  end.

(** [redo]: an empty [redo_stack] is falsy. *)
Definition redo (now : Time) (s : WhiteboardApp) : WhiteboardApp :=
  match rev (redo_stack s) with
  | top :: older =>
      let s1 := set_redo_stack (rev older) s in
      let s2 := set_canvas top s1 in
      let s3 := set_history (Deque.append maxlen (history s2) (canvas s2)) s2 in
      let s4 := set_temp_canvas (canvas s3) s3 in
      status now "Redo performed" s4
  | [] => s
  end.

Definition clear_canvas (now : Time) (s : WhiteboardApp) : WhiteboardApp :=
  status now "Canvas cleared" (save_history (set_canvas blank s)).

Definition colors : list Color :=
  [ (0, 0, 255); (0, 255, 0); (255, 0, 0);
    (0, 255, 255); (255, 0, 255); (255, 255, 0) ]%Z.

Definition color_names : list string :=
  ["Red"; "Green"; "Blue"; "Yellow"; "Magenta"; "Cyan"].

Definition color_eqb (a b : Color) : bool :=
  let '(a1, a2, a3) := a in
  let '(b1, b2, b3) := b in
  (Z.eqb a1 b1 && Z.eqb a2 b2 && Z.eqb a3 b3)%bool.

(** [colors.index(c) if c in colors else 0] *)
Fixpoint color_index (c : Color) (l : list Color) : nat :=
  match l with
  | [] => 0
  | d :: r =>
      if color_eqb d c then 0
      else if existsb (color_eqb c) r then S (color_index c r) else 0
  end.

Definition change_color (now : Time) (s : WhiteboardApp) : WhiteboardApp :=
  let current_idx := color_index (drawing_color s) colors in
  let next_idx := (current_idx + 1) mod (length colors) in
  status now ("Color changed: " +s+ nth next_idx color_names EmptyString)
    (set_drawing_color (nth next_idx colors (0, 0, 255)%Z) s).

Definition change_shape (now : Time) (s : WhiteboardApp) : WhiteboardApp :=
  let s1 := set_shape_index ((shape_index s + 1) mod (length shapes)) s in
  let s2 := set_current_shape (nth (shape_index s1) shapes EmptyString) s1 in
  status now ("Shape changed: " +s+ capitalize (current_shape s2)) s2.

(** [zoom]: steps of 0.2 between 1.0 and 3.0. *)
Definition zoom (now : Time) (direction : string) (s : WhiteboardApp) : WhiteboardApp :=
  let s1 :=
    if String.eqb direction "in"
    then set_zoom_factor (Qmin 3 (zoom_factor s + (2 # 10))) s
    else set_zoom_factor (Qmax 1 (zoom_factor s - (2 # 10))) s in
  status now ("Zoom: " +s+ str_int (py_int (zoom_factor s1 * 100)) +s+ "%") s1.

Definition toggle_erasing (now : Time) (s : WhiteboardApp) : WhiteboardApp :=
  let s1 := set_erasing (negb (erasing s)) s in
  if erasing s1 then status now "Eraser activated" s1
  else status now "Drawing mode" s1.

(** [save_canvas]: [stamp] is [time.strftime('%Y%m%d_%H%M%S')]. *)
Definition save_canvas (now : Time) (stamp : string) (s : WhiteboardApp)
  : WhiteboardApp * list Effect :=
  let filename := "whiteboard_" +s+ stamp +s+ ".png" in
  (status now ("Saved as " +s+ filename) s, [ImWrite filename (canvas s)]).

Definition start_pan (now : Time) (x y : Z) (s : WhiteboardApp) : WhiteboardApp :=
  let s1 := set_pan_mode true s in
  let s2 := set_prev_pan_y y (set_prev_pan_x x s1) in
  status now "Pan mode activated" s2.

(** [pan]: the offsets move by twice the pointer's displacement and are
    clamped against the current zoom factor. *)
Definition pan (x y : Z) (s : WhiteboardApp) : WhiteboardApp :=
  if pan_mode s then
    let dx := ((x - prev_pan_x s) * 2)%Z in
    let dy := ((y - prev_pan_y s) * 2)%Z in
    let s1 := set_offset_x (offset_x s + inject_Z dx)%Q s in
    let s2 := set_offset_y (offset_y s1 + inject_Z dy)%Q s1 in
    let s3 := set_offset_x
                (Qmax (inject_Z (- canvas_width) * (zoom_factor s2 - 1))
                      (Qmin 0 (offset_x s2))) s2 in
    let s4 := set_offset_y
                (Qmax (inject_Z (- canvas_height) * (zoom_factor s3 - 1))
                      (Qmin 0 (offset_y s3))) s3 in
    set_prev_pan_y y (set_prev_pan_x x s4)
  else s.

Definition end_pan (now : Time) (s : WhiteboardApp) : WhiteboardApp :=
  status now "Pan mode deactivated" (set_pan_mode false s).

Definition start_drawing (x y : Z) (s : WhiteboardApp) : WhiteboardApp :=
  let s1 := set_drawing true s in
  let s2 := set_prev_y y (set_prev_x x s1) in
  if shape_drawing s2 then set_shape_start_point (Some (x, y)) s2 else s2.

(** [draw]: a segment from the previous pointer position, on [temp_canvas]
    in shape mode and on [canvas] otherwise. *)
Definition draw (x y : Z) (s : WhiteboardApp) : WhiteboardApp :=
  if drawing s then
    let color := if erasing s then eraser_color else drawing_color s in
    let thickness := if erasing s then eraser_thickness else line_thickness in
    let s1 :=
      if shape_drawing s
      then set_temp_canvas
             (cv2_line (temp_canvas s) (prev_x s, prev_y s) (x, y) color thickness) s
      else set_canvas
             (cv2_line (canvas s) (prev_x s, prev_y s) (x, y) color thickness) s in
    set_prev_y y (set_prev_x x s1)
  else s.

Definition end_drawing (s : WhiteboardApp) : WhiteboardApp :=
  let s1 :=
    if drawing s then
      let s' := set_drawing false s in
      if shape_drawing s' then
        set_shape_drawing false (save_history (set_canvas (temp_canvas s') s'))
      else if negb (erasing s') then save_history s'
      else s'
    else s in
  set_shape_start_point None (set_temp_canvas (canvas s1) s1).

(** [draw_shape]: the preview is redrawn from a fresh copy of [canvas]. *)
Definition draw_shape (end_x end_y : Z) (s : WhiteboardApp) : WhiteboardApp :=
  match shape_start_point s with
  | Some (start_x, start_y) =>
      let s1 := set_temp_canvas (canvas s) s in
      let color := if erasing s1 then eraser_color else drawing_color s1 in
      let thickness := if erasing s1 then eraser_thickness else line_thickness in
      if String.eqb (current_shape s1) "rectangle" then
        set_temp_canvas
          (cv2_rectangle (temp_canvas s1) (start_x, start_y) (end_x, end_y)
             color thickness) s1
      else if String.eqb (current_shape s1) "circle" then
        let center_x := ((start_x + end_x) / 2)%Z in
        let center_y := ((start_y + end_y) / 2)%Z in
        let radius :=
          (Z.sqrt ((end_x - start_x) ^ 2 + (end_y - start_y) ^ 2) / 2)%Z in
        set_temp_canvas
          (cv2_circle (temp_canvas s1) (center_x, center_y) radius
             color thickness) s1
      else if String.eqb (current_shape s1) "line" then
        set_temp_canvas
          (cv2_line (temp_canvas s1) (start_x, start_y) (end_x, end_y)
             color thickness) s1
      else if String.eqb (current_shape s1) "arrow" then
        set_temp_canvas
          (cv2_arrowedLine (temp_canvas s1) (start_x, start_y) (end_x, end_y)
             color thickness) s1
      else s1
  | None => s
  end.

(** The [if]/[elif] chain of [handle_gesture], entered once the gesture
    has been accepted.  [now] is the clock reading of the [status] call,
    [stamp] the [strftime] string of [save_canvas]. *)
Definition dispatch (now : Time) (stamp : string) (gesture_name : string)
    (s : WhiteboardApp) : WhiteboardApp * list Effect :=
  if String.eqb gesture_name "write_start" then
    (status now "Drawing started" s, [])
  else if String.eqb gesture_name "write_stop" then
    (status now "Drawing stopped" (end_drawing s), [])
  else if String.eqb gesture_name "erase" then
    (toggle_erasing now s, [])
  else if String.eqb gesture_name "zoom_in" then
    (zoom now "in" s, [])
  else if String.eqb gesture_name "zoom_out" then
    (zoom now "out" s, [])
  else if String.eqb gesture_name "draw_shapes" then
    let s1 := set_shape_drawing true s in
    (status now ("Shape mode: " +s+ current_shape s1) s1, [])
  else if String.eqb gesture_name "undo" then
    (undo now s, [])
  else if String.eqb gesture_name "redo" then
    (redo now s, [])
  else if String.eqb gesture_name "change_color" then
    (change_color now s, [])
  else if String.eqb gesture_name "save" then
    save_canvas now stamp s
  else if String.eqb gesture_name "pan" then
    (status now "Pan mode - move hand to pan" s, [])
  else if String.eqb gesture_name "clear_all" then
    (clear_canvas now s, [])
  else (s, []).

(** [handle_gesture]: [current_time] is the reading taken on entry. *)
Definition handle_gesture (current_time now : Time) (stamp : string)
    (gesture_id : option nat) (s : WhiteboardApp) : WhiteboardApp * list Effect :=
  if Qlt_bool (current_time - last_gesture_time s) gesture_cooldown then (s, [])
  else
    let gesture_name := dict_get GESTURE_MAP gesture_id "Unknown" in
    if negb (opt_str_eqb (Some gesture_name) (last_gesture s)) then
      let s1 := set_last_gesture (Some gesture_name) s in
      let s2 := set_last_gesture_time current_time s1 in
      dispatch now stamp gesture_name s2
    else (s, []).

(** [get_index_finger_position]: landmark 8 scaled to the canvas. *)
Definition get_index_finger_position (landmarks : list Landmark) : option Point :=
  match landmarks with
  | [] => None
  | _ :: _ =>
      if 9 <=? length landmarks then
        match nth_error landmarks 8 with
        | Some index_finger =>
            Some (py_int (lm_x index_finger * inject_Z canvas_width),
                  py_int (lm_y index_finger * inject_Z canvas_height))
        | None => None
        end
      else None
  end.

(** The clock as one iteration of [run] reads it. *)
Record Clock : Type := Build_Clock {
  t_gesture : Time;        (* [time.time()] on entry to [handle_gesture] *)
  t_handler : Time;        (* [time.time()] in the handler's [status] *)
  stamp_handler : string;  (* [time.strftime] in the handler's [save_canvas] *)
  t_pan : Time;            (* [time.time()] in [start_pan] / [end_pan] *)
  t_key : Time;            (* [time.time()] in the key handler's [status] *)
  stamp_key : string       (* [time.strftime] for the key [s] *)
}.

(** What one iteration of [run] receives: the list [landmarks] built from
    the tracked hand ([None] when MediaPipe reports no hand;
    [max_num_hands=1]), the clock, and [cv2.waitKey(1) & 0xFF]. *)
Record FrameInput : Type := Build_FrameInput {
  landmarks : option (list Landmark);
  clock : Clock;
  key : Z
}.

(** The body of the hand loop after [landmarks] is built: buffer the
    snapshot and, on a full window, classify and hand over. *)
Definition recognise (c : Clock) (lms : list Landmark) (s : WhiteboardApp)
  : WhiteboardApp * list Effect :=
  match process_landmarks lms with
  | Some processed_landmarks =>
      let s1 := set_frame_buffer
                  (Deque.append sequence_length (frame_buffer s) processed_landmarks) s in
      if length (frame_buffer s1) =? sequence_length then
        let input_data := frame_buffer s1 in
        let '(gesture_id, confidence, calls) :=
          predict_gesture sequence_length input_data in
        if Qlt_bool (7 # 10) confidence then
          let '(s2, out) :=
            handle_gesture (t_gesture c) (t_handler c) (stamp_handler c) gesture_id s1 in
          (s2, calls ++ out)
        else (s1, calls)
      else (s1, [])
  | None => (s, [])
  end.

(** The pan block of [run]. *)
Definition handle_pan (c : Clock) (finger_pos : option Point) (s : WhiteboardApp)
  : WhiteboardApp :=
  match finger_pos with
  | Some (x, y) =>
      if opt_str_eqb (last_gesture s) (Some "pan") then
        if pan_mode s then pan x y s else start_pan (t_pan c) x y s
      else if pan_mode s then end_pan (t_pan c) s
      else s
  | None => if pan_mode s then end_pan (t_pan c) s else s
  end.

(** The drawing block of [run]. *)
Definition handle_drawing (finger_pos : option Point) (s : WhiteboardApp)
  : WhiteboardApp :=
  match finger_pos with
  | Some (x, y) =>
      let s1 :=
        if opt_str_eqb (last_gesture s) (Some "write_start") && negb (drawing s)
        then start_drawing x y s else s in
      if drawing s1 then
        if shape_drawing s1 && truthy (shape_start_point s1)
        then draw_shape x y s1
        else draw x y s1
      else s1
  | None => s
  end.

Definition ord (c : ascii) : Z := Z.of_nat (nat_of_ascii c).

(** The key block of [run]; the flag is [false] on [q] ([break]). *)
Definition handle_key (c : Clock) (k : Z) (s : WhiteboardApp)
  : WhiteboardApp * list Effect * bool :=
  if Z.eqb k (ord "q") then (s, [], false)
  else if Z.eqb k (ord "c") then (clear_canvas (t_key c) s, [], true)
  else if Z.eqb k (ord "u") then (undo (t_key c) s, [], true)
  else if Z.eqb k (ord "r") then (redo (t_key c) s, [], true)
  else if Z.eqb k (ord "s") then
    let '(s1, out) := save_canvas (t_key c) (stamp_key c) s in (s1, out, true)
  else if Z.eqb k (ord "e") then (toggle_erasing (t_key c) s, [], true)
  else if Z.eqb k (ord "z") then (zoom (t_key c) "in" s, [], true)
  else if Z.eqb k (ord "x") then (zoom (t_key c) "out" s, [], true)
  else (s, [], true).

(** One iteration of the [while] loop of [run].  Building and showing the
    UI reads the state without changing it and is left out. *)
Definition tick (inp : FrameInput) (s : WhiteboardApp)
  : WhiteboardApp * list Effect * bool :=
  let c := clock inp in
  let '(s1, out1) :=
    match landmarks inp with
    | Some lms => recognise c lms s
    | None => (s, [])
    end in
  let finger_pos :=
    match landmarks inp with
    | Some lms => get_index_finger_position lms
    | None => None
    end in
  let s2 := handle_pan c finger_pos s1 in
  let s3 := handle_drawing finger_pos s2 in
  let '(s4, out2, continue) := handle_key c (key inp) s3 in
  (s4, out1 ++ out2, continue).

(** [run]: the loop over the frames the camera delivers, until [q]. *)
Fixpoint run (frames : list FrameInput) (s : WhiteboardApp)
  : WhiteboardApp * list Effect :=
  match frames with
  | [] => (s, [])
  | inp :: rest =>
      let '(s1, out, continue) := tick inp s in
      if continue then
        let '(s2, out') := run rest s1 in (s2, out ++ out')
      else (s1, out)
  end.

(** States the application can be in: [__init__] followed by iterations
    of the loop. *)
Inductive reachable : WhiteboardApp -> Prop :=
| reachable_init (now : Time) : reachable (__init__ now)
| reachable_tick (inp : FrameInput) (s : WhiteboardApp) :
    reachable s -> reachable (fst (fst (tick inp s))).

End Methods.
End App.

(** ** whiteboard_app.py: class GestureWhiteboard *)

Module Whiteboard.

Section Methods.
Context {R : Raster} {I : Interpreter}.

Definition canvas_width : Z := 1200.
Definition canvas_height : Z := 800.
Definition brush_thickness : Z := 5.
Definition eraser_thickness : Z := 25.
Definition sequence_length : nat := 4.
Definition gesture_cooldown : Q := 1.

Definition COLOURS : list Color :=
  [ (0, 0, 255); (0, 255, 0); (255, 0, 0); (0, 255, 255);
    (255, 0, 255); (255, 255, 0); (0, 0, 0) ]%Z.

(** [history] is a plain list here, [history_index] the position of the
    current canvas in it (-1 while the list is empty). *)
Record GestureWhiteboard : Type := Build_GestureWhiteboard {
  canvas : Canvas;
  temp_canvas : Canvas;
  drawing : bool;
  erasing : bool;
  current_colour_idx : nat;
  prev_x : Z;
  prev_y : Z;
  frame_buffer : list Frame;
  last_gesture : option string;
  last_gesture_time : Time;
  history : list Canvas;
  history_index : Z
}.

Definition set_canvas (v : Canvas) (s : GestureWhiteboard) : GestureWhiteboard :=
  Build_GestureWhiteboard
    v (temp_canvas s) (drawing s) (erasing s) (current_colour_idx s)
    (prev_x s) (prev_y s) (frame_buffer s) (last_gesture s)
    (last_gesture_time s) (history s) (history_index s).
Definition set_temp_canvas (v : Canvas) (s : GestureWhiteboard) : GestureWhiteboard :=
  Build_GestureWhiteboard
    (canvas s) v (drawing s) (erasing s) (current_colour_idx s) (prev_x s)
    (prev_y s) (frame_buffer s) (last_gesture s) (last_gesture_time s)
    (history s) (history_index s).
Definition set_drawing (v : bool) (s : GestureWhiteboard) : GestureWhiteboard :=
  Build_GestureWhiteboard
    (canvas s) (temp_canvas s) v (erasing s) (current_colour_idx s) (prev_x s)
    (prev_y s) (frame_buffer s) (last_gesture s) (last_gesture_time s)
    (history s) (history_index s).
Definition set_erasing (v : bool) (s : GestureWhiteboard) : GestureWhiteboard :=
  Build_GestureWhiteboard
    (canvas s) (temp_canvas s) (drawing s) v (current_colour_idx s) (prev_x s)
    (prev_y s) (frame_buffer s) (last_gesture s) (last_gesture_time s)
    (history s) (history_index s).
Definition set_current_colour_idx (v : nat) (s : GestureWhiteboard) : GestureWhiteboard :=
  Build_GestureWhiteboard
    (canvas s) (temp_canvas s) (drawing s) (erasing s) v (prev_x s) (prev_y s)
    (frame_buffer s) (last_gesture s) (last_gesture_time s) (history s)
    (history_index s).
Definition set_prev_x (v : Z) (s : GestureWhiteboard) : GestureWhiteboard :=
  Build_GestureWhiteboard
    (canvas s) (temp_canvas s) (drawing s) (erasing s) (current_colour_idx s)
    v (prev_y s) (frame_buffer s) (last_gesture s) (last_gesture_time s)
    (history s) (history_index s).
Definition set_prev_y (v : Z) (s : GestureWhiteboard) : GestureWhiteboard :=
  Build_GestureWhiteboard
    (canvas s) (temp_canvas s) (drawing s) (erasing s) (current_colour_idx s)
    (prev_x s) v (frame_buffer s) (last_gesture s) (last_gesture_time s)
    (history s) (history_index s).
Definition set_frame_buffer (v : list Frame) (s : GestureWhiteboard) : GestureWhiteboard :=
  Build_GestureWhiteboard
    (canvas s) (temp_canvas s) (drawing s) (erasing s) (current_colour_idx s)
    (prev_x s) (prev_y s) v (last_gesture s) (last_gesture_time s) (history s)
    (history_index s).
Definition set_last_gesture (v : option string) (s : GestureWhiteboard) : GestureWhiteboard :=
  Build_GestureWhiteboard
    (canvas s) (temp_canvas s) (drawing s) (erasing s) (current_colour_idx s)
    (prev_x s) (prev_y s) (frame_buffer s) v (last_gesture_time s) (history s)
    (history_index s).
Definition set_last_gesture_time (v : Time) (s : GestureWhiteboard) : GestureWhiteboard :=
  Build_GestureWhiteboard
    (canvas s) (temp_canvas s) (drawing s) (erasing s) (current_colour_idx s)
    (prev_x s) (prev_y s) (frame_buffer s) (last_gesture s) v (history s)
    (history_index s).
Definition set_history (v : list Canvas) (s : GestureWhiteboard) : GestureWhiteboard :=
  Build_GestureWhiteboard
    (canvas s) (temp_canvas s) (drawing s) (erasing s) (current_colour_idx s)
    (prev_x s) (prev_y s) (frame_buffer s) (last_gesture s)
    (last_gesture_time s) v (history_index s).
Definition set_history_index (v : Z) (s : GestureWhiteboard) : GestureWhiteboard :=
  Build_GestureWhiteboard
    (canvas s) (temp_canvas s) (drawing s) (erasing s) (current_colour_idx s)
    (prev_x s) (prev_y s) (frame_buffer s) (last_gesture s)
    (last_gesture_time s) (history s) v.

Definition blank : Canvas := np_ones_255 canvas_height canvas_width.

Definition __init__ : GestureWhiteboard :=
  {| canvas := blank; temp_canvas := blank;
     drawing := false; erasing := false; current_colour_idx := 0;
     prev_x := 0%Z; prev_y := 0%Z;
     frame_buffer := [];
     last_gesture := None; last_gesture_time := 0%Q;
     history := []; history_index := (-1)%Z |}.

(** [handle_gesture]: [now] is the clock reading used for the file name of
    [save].  [history_index] never goes below -1, so the slice
    [history[: history_index + 1]] is a prefix, and the index read by
    [undo] and [redo] is in range; the default of [nth] is not reached. *)
Definition handle_gesture (now : Time) (gesture_name : string)
    (s : GestureWhiteboard) : GestureWhiteboard * list Effect :=
  if String.eqb gesture_name "write_start" then
    (set_drawing true s, [])
  else if String.eqb gesture_name "write_stop" then
    let s1 :=
      if drawing s then
        let s' := set_history (firstn (Z.to_nat (history_index s + 1)) (history s)) s in
        let s'' := set_history (history s' ++ [canvas s']) s' in
        set_history_index (Z.of_nat (length (history s'')) - 1)%Z s''
      else s in
    (set_drawing false s1, [])
  else if String.eqb gesture_name "erase" then
    (set_erasing (negb (erasing s)) s, [])
  else if String.eqb gesture_name "change_color" then
    (set_current_colour_idx ((current_colour_idx s + 1) mod (length COLOURS)) s, [])
  else if String.eqb gesture_name "save" then
    let filename := "whiteboard_" +s+ str_int (py_int now) +s+ ".png" in
    (s, [ImWrite filename (canvas s)])
  else if String.eqb gesture_name "clear_all" then
    (set_canvas blank s, [])
  else if String.eqb gesture_name "undo" then
    if (0 <? history_index s)%Z then
      let s1 := set_history_index (history_index s - 1)%Z s in
      (set_canvas (nth (Z.to_nat (history_index s1)) (history s1) (canvas s1)) s1, [])
    else (s, [])
  else if String.eqb gesture_name "redo" then
    if (history_index s <? Z.of_nat (length (history s)) - 1)%Z then
      let s1 := set_history_index (history_index s + 1)%Z s in
      (set_canvas (nth (Z.to_nat (history_index s1)) (history s1) (canvas s1)) s1, [])
    else (s, [])
  else (s, []).

(** The cooldown test of [run] and what it guards.  [current_time] is the
    clock reading of the test, [now] the later one inside [handle_gesture]. *)
Definition debounce (current_time now : Time) (gesture_name : string)
    (s : GestureWhiteboard) : GestureWhiteboard * list Effect :=
  if negb (opt_str_eqb (Some gesture_name) (last_gesture s))
     || Qlt_bool gesture_cooldown (current_time - last_gesture_time s)
  then
    let s1 := set_last_gesture (Some gesture_name) s in
    let s2 := set_last_gesture_time current_time s1 in
    handle_gesture now gesture_name s2
  else (s, []).

(** The body of the hand loop of [run] after [landmarks] is built.  The
    length test of the buffer is outside the test on [processed]. *)
Definition recognise (current_time now : Time) (lms : list Landmark)
    (s : GestureWhiteboard) : GestureWhiteboard * list Effect :=
  let s1 :=
    match process_landmarks lms with
    | Some processed =>
        set_frame_buffer (Deque.append sequence_length (frame_buffer s) processed) s
    | None => s
    end in
  if length (frame_buffer s1) =? sequence_length then
    let input_data := frame_buffer s1 in
    let '(predicted_class, confidence, calls) :=
      predict_gesture sequence_length input_data in
    match predicted_class with
    | Some _ =>
        if Qlt_bool (7 # 10) confidence then
          let gesture_name := dict_get GESTURE_MAP predicted_class "unknown" in
          let '(s2, out) := debounce current_time now gesture_name s1 in
          (s2, calls ++ out)
        else (s1, calls)
    | None => (s1, calls)
    end
  else (s1, []).

(** The drawing block of [run].  [landmarks[8]] exists: the list has 21
    entries whenever a hand is tracked. *)
Definition handle_drawing (lms : list Landmark) (s : GestureWhiteboard)
  : GestureWhiteboard :=
  match nth_error lms 8 with
  | Some index_tip =>
      let x := py_int (lm_x index_tip * inject_Z canvas_width) in
      let y := py_int (lm_y index_tip * inject_Z canvas_height) in
      let s1 :=
        if drawing s then
          let colour :=
            if erasing s then (255, 255, 255)%Z
            else nth (current_colour_idx s) COLOURS (0, 0, 0)%Z in
          let thickness := if erasing s then eraser_thickness else brush_thickness in
          set_canvas (cv2_line (canvas s) (prev_x s, prev_y s) (x, y) colour thickness) s
        else s in
      set_prev_y y (set_prev_x x s1)
  | None => s
  end.

(** One iteration of the loop of [run], for the list [landmarks] of the
    tracked hand ([None] without a hand) and the two clock readings of a
    gesture that passes the confidence gate. *)
Definition tick (lms : option (list Landmark)) (current_time now : Time)
    (s : GestureWhiteboard) : GestureWhiteboard * list Effect :=
  match lms with
  | Some l =>
      let '(s1, out) := recognise current_time now l s in
      (handle_drawing l s1, out)
  | None => (s, [])
  end.

(** [run]: the loop over the frames the camera delivers, each with the
    clock readings of its iteration. *)
Fixpoint run (frames : list (option (list Landmark) * (Time * Time)))
    (s : GestureWhiteboard) : GestureWhiteboard * list Effect :=
  match frames with
  | [] => (s, [])
  | (lms, (current_time, now)) :: rest =>
      let '(s1, out) := tick lms current_time now s in
      let '(s2, out') := run rest s1 in
      (s2, out ++ out')
  end.

(** States the simpler whiteboard can be in. *)
Inductive reachable : GestureWhiteboard -> Prop :=
| reachable_init : reachable __init__
| reachable_tick (lms : option (list Landmark)) (current_time now : Time)
    (s : GestureWhiteboard) :
    reachable s -> reachable (fst (tick lms current_time now s)).

End Methods.
End Whiteboard.

(** ** scripts/gesture_backend.py: class GestureRecognitionBackend *)

Module Backend.

Section Methods.
Context {R : Raster} {I : Interpreter}.

Definition sequence_length : nat := 4.
Definition gesture_cooldown : Q := 5 # 10.

(** The message handed to the connected clients. *)
Record GestureData : Type := Build_GestureData {
  gesture : string;
  confidence : Q;
  coordinates : Q * Q;
  timestamp : Time
}.

Record GestureRecognitionBackend : Type := Build_GestureRecognitionBackend {
  frame_buffer : list Frame;
  current_gesture : option string;
  gesture_confidence : Q;
  last_gesture_time : Time
}.

Definition set_frame_buffer (v : list Frame) (s : GestureRecognitionBackend) : GestureRecognitionBackend :=
  Build_GestureRecognitionBackend
    v (current_gesture s) (gesture_confidence s) (last_gesture_time s).
Definition set_current_gesture (v : option string) (s : GestureRecognitionBackend) : GestureRecognitionBackend :=
  Build_GestureRecognitionBackend
    (frame_buffer s) v (gesture_confidence s) (last_gesture_time s).
Definition set_gesture_confidence (v : Q) (s : GestureRecognitionBackend) : GestureRecognitionBackend :=
  Build_GestureRecognitionBackend
    (frame_buffer s) (current_gesture s) v (last_gesture_time s).
Definition set_last_gesture_time (v : Time) (s : GestureRecognitionBackend) : GestureRecognitionBackend :=
  Build_GestureRecognitionBackend
    (frame_buffer s) (current_gesture s) (gesture_confidence s) v.

Definition __init__ : GestureRecognitionBackend :=
  {| frame_buffer := []; current_gesture := None;
     gesture_confidence := 0%Q; last_gesture_time := 0%Q |}.

(** The cooldown test of [process_frame] and what it guards; the second
    component is [gesture_data]. *)
Definition debounce (current_time : Time) (gesture_name : string) (conf : Q)
    (index_tip : Landmark) (s : GestureRecognitionBackend)
  : GestureRecognitionBackend * option GestureData :=
  if Qlt_bool gesture_cooldown (current_time - last_gesture_time s) then
    let s1 := set_current_gesture (Some gesture_name) s in
    let s2 := set_gesture_confidence conf s1 in
    let s3 := set_last_gesture_time current_time s2 in
    (s3,
     Some {| gesture := gesture_name; confidence := conf;
             coordinates := (lm_x index_tip, lm_y index_tip);
             timestamp := current_time |})
  else (s, None).

(** [process_frame] for the list [landmarks] of the tracked hand ([None]
    without a hand).  The interpreter of the model does not raise, so the
    [except] branch of [predict_gesture] is not entered. *)
Definition process_frame (lms : option (list Landmark)) (current_time : Time)
    (s : GestureRecognitionBackend)
  : GestureRecognitionBackend * option GestureData * list Effect :=
  match lms with
  | None => (s, None, [])
  | Some l =>
      match process_landmarks l with
      | None => (s, None, [])
      | Some processed_landmarks =>
          let s1 := set_frame_buffer
                      (Deque.append 4 (frame_buffer s) processed_landmarks) s in
          if length (frame_buffer s1) =? sequence_length then
            let input_data := frame_buffer s1 in
            let '(predicted_class, conf, calls) :=
              predict_gesture sequence_length input_data in
            match predicted_class with
            | Some _ =>
                if Qlt_bool (7 # 10) conf then
                  let gesture_name := dict_get GESTURE_MAP predicted_class "Unknown" in
                  let index_tip := nth 8 l (Build_Landmark 0 0 0) in
                  let '(s2, gesture_data) :=
                    debounce current_time gesture_name conf index_tip s1 in
                  (s2, gesture_data, calls)
                else (s1, None, calls)
            | None => (s1, None, calls)
            end
          else (s1, None, [])
      end
  end.

(** What one iteration of [camera_loop] receives: the flag [ret] of
    [cap.read()], the list [landmarks] of the tracked hand, the clock
    reading of the cooldown test, whether [connected_clients] (which the
    connection handler changes) is non-empty when it is tested, and
    [cv2.waitKey(1) & 0xFF]. *)
Record CameraFrame : Type := Build_CameraFrame {
  ret : bool;
  cam_landmarks : option (list Landmark);
  cam_time : Time;
  has_clients : bool;
  cam_key : Z
}.

(** [camera_loop], for the frames read until the loop is stopped: the
    messages handed to [broadcast_gesture], in order. *)
Fixpoint camera_loop (frames : list CameraFrame) (s : GestureRecognitionBackend)
  : GestureRecognitionBackend * list GestureData :=
  match frames with
  | [] => (s, [])
  | fr :: rest =>
      if negb (ret fr) then camera_loop rest s
      else
        let '(s1, gesture_data, _) :=
          process_frame (cam_landmarks fr) (cam_time fr) s in
        let sent :=
          match gesture_data with
          | Some g => if has_clients fr then [g] else []
          | None => []
          end in
        if Z.eqb (cam_key fr) 113 then (s1, sent)
        else
          let '(s2, out) := camera_loop rest s1 in
          (s2, sent ++ out)
  end.

End Methods.
End Backend.

(** ** scripts/gesture_integration_example.py: class GestureWhiteboardIntegration *)

Module Integration.

(** [detect_gesture]: the rule-based recogniser.  [None] stands for the
    [IndexError] of a list with fewer than 21 landmarks. *)
Definition detect_gesture (landmarks : list Landmark) : option string :=
  match nth_error landmarks 4, nth_error landmarks 8, nth_error landmarks 12,
        nth_error landmarks 16, nth_error landmarks 20,
        nth_error landmarks 5, nth_error landmarks 9, nth_error landmarks 13,
        nth_error landmarks 17, nth_error landmarks 3 with
  | Some thumb_tip, Some index_tip, Some middle_tip, Some ring_tip,
    Some pinky_tip, Some index_mcp, Some middle_mcp, Some ring_mcp,
    Some pinky_mcp, Some thumb_ip =>
      let thumb := if Qlt_bool (lm_x thumb_ip) (lm_x thumb_tip) then 1 else 0 in
      let others :=
        map (fun tm : Landmark * Landmark =>
               if Qlt_bool (lm_y (fst tm)) (lm_y (snd tm)) then 1 else 0)
            [ (index_tip, index_mcp); (middle_tip, middle_mcp);
              (ring_tip, ring_mcp); (pinky_tip, pinky_mcp) ] in
      let fingers_up := thumb :: others in
      if list_eq_dec Nat.eq_dec fingers_up [0; 1; 0; 0; 0] then Some "draw"
      else if list_eq_dec Nat.eq_dec fingers_up [0; 1; 1; 0; 0] then Some "erase"
      else if list_sum fingers_up =? 0 then Some "clear"
      else if list_sum fingers_up =? 5 then Some "undo"
      else Some "none"
  | _, _, _, _, _, _, _, _, _, _ => None
  end.

(** The body of the hand loop of [run_gesture_recognition]: what is sent
    to the whiteboard for one hand, if anything (gesture, canvas
    coordinates, confidence). *)
Definition gesture_message (landmarks : list Landmark)
  : option (string * (Z * Z) * Q) :=
  match detect_gesture landmarks with
  | Some gesture =>
      if negb (String.eqb gesture "none") then
        match nth_error landmarks 8 with
        | Some index_tip =>
            Some (gesture,
                  (py_int (lm_x index_tip * 1200)%Q,
                   py_int (lm_y index_tip * 800)%Q),
                  (9 # 10)%Q)
        | None => None
        end
      else None
  | None => None
  end.

End Integration.

(** ** Stand-ins for the external collaborators

    Used to run the front ends on concrete frames.  The raster keeps, of
    every primitive, pixels that OpenCV paints for any thickness of at least
    one: the two end points of a segment or arrow, two opposite corners of
    a rectangle, the rightmost point of a circle.  The classifier reads the
    class off the newest frame of the window: the [z] coordinate of its
    first landmark. *)

Module Fake.

Definition Image : Type := Point -> Color.

Definition white : Color := (255, 255, 255)%Z.

Definition point_eqb (p q : Point) : bool :=
  (Z.eqb (fst p) (fst q) && Z.eqb (snd p) (snd q))%bool.

Definition paint (img : Image) (p : Point) (c : Color) : Image :=
  fun q => if point_eqb p q then c else img q.

Definition raster : Raster :=
  {| Canvas := Image;
     np_ones_255 := fun _ _ _ => white;
     cv2_line := fun img p q c _ => paint (paint img p c) q c;
     cv2_rectangle := fun img p q c _ => paint (paint img p c) q c;
     cv2_circle := fun img o r c _ => paint img (fst o + r, snd o)%Z c;
     cv2_arrowedLine := fun img p q c _ => paint (paint img p c) q c |}.

Definition one_hot (n k : nat) : list Q :=
  map (fun i => if i =? k then 1%Q else 0%Q) (seq 0 n).

Definition classifier : Interpreter :=
  {| invoke := fun window =>
       match last window [] with
       | (_, _, z) :: _ => one_hot 12 (Z.to_nat (py_int z))
       | [] => one_hot 12 0
       end |}.

(** A hand whose 21 landmarks sit at the normalised position ([x], [y]),
    showing the gesture of class [cls] to [classifier]. *)
Definition hand (cls : nat) (x y : Q) : list Landmark :=
  repeat (Build_Landmark x y (inject_Z (Z.of_nat cls))) 21.

Definition no_key : Z := 255.

(** What [time.strftime] returns in the examples. *)
Definition stamp : string := "20250101_120000".

(** A frame of [App.run] at second [t] showing [hand cls x y], with key
    [k]; every clock reading of the iteration is [t]. *)
Definition frame (t : Z) (cls : nat) (x y : Q) (k : Z) : App.FrameInput :=
  {| App.landmarks := Some (hand cls x y);
     App.clock := {| App.t_gesture := inject_Z t; App.t_handler := inject_Z t;
                     App.stamp_handler := stamp; App.t_pan := inject_Z t;
                     App.t_key := inject_Z t; App.stamp_key := stamp |};
     App.key := k |}.

(** A frame of [App.run] at second [t] without a hand. *)
Definition lost (t : Z) (k : Z) : App.FrameInput :=
  {| App.landmarks := None;
     App.clock := {| App.t_gesture := inject_Z t; App.t_handler := inject_Z t;
                     App.stamp_handler := stamp; App.t_pan := inject_Z t;
                     App.t_key := inject_Z t; App.stamp_key := stamp |};
     App.key := k |}.

(** The interactive app with the stand-ins plugged in. *)
Definition app_init (t : Z) : @App.WhiteboardApp raster :=
  @App.__init__ raster (inject_Z t).

Definition app_run (frames : list App.FrameInput) (s : @App.WhiteboardApp raster)
  : @App.WhiteboardApp raster :=
  fst (@App.run raster classifier frames s).

Definition centre : Q := 1 # 2.

(** A stroke drawn and committed, then erased over: [write_start] (the
    window fills on the fourth frame), [write_stop], [erase],
    [write_start], [write_stop], one second apart, the fingertip resting
    at the centre (600, 400) of the canvas. *)
Definition erased_board : @App.WhiteboardApp raster :=
  app_run
    [ frame 1 0 centre centre no_key; frame 1 0 centre centre no_key;
      frame 1 0 centre centre no_key; frame 1 0 centre centre no_key;
      frame 2 1 centre centre no_key;
      frame 3 2 centre centre no_key;
      frame 4 0 centre centre no_key;
      frame 5 1 centre centre no_key ]
    (app_init 0).

(** Sixty clears, each by the key [c] on a frame without a hand. *)
Definition sixty_clears : @App.WhiteboardApp raster :=
  app_run (repeat (lost 0 (App.ord "c")) 60) (app_init 0).

(** Three snapshots buffered, tracking about to be lost. *)
Definition three_seen : @App.WhiteboardApp raster :=
  app_run
    [ frame 1 0 centre centre no_key; frame 1 0 centre centre no_key;
      frame 1 0 centre centre no_key ]
    (app_init 0).

(** Zoom to 3.0 by ten presses of [z], pan by moving the fingertip from
    (600, 400) to (300, 200) under the [pan] gesture, then zoom back to
    1.0 by ten presses of [x]. *)
Definition zoomed_panned : @App.WhiteboardApp raster :=
  app_run
    (repeat (lost 0 (App.ord "z")) 10
     ++ [ frame 1 10 centre centre no_key; frame 1 10 centre centre no_key;
          frame 1 10 centre centre no_key; frame 1 10 centre centre no_key;
          frame 1 10 (1 # 4) (1 # 4) no_key ])
    (app_init 0).

Definition zoomed_panned_out : @App.WhiteboardApp raster :=
  app_run (repeat (lost 1 (App.ord "x")) 10) zoomed_panned.

(** A freehand stroke begun by [write_start] ... *)
Definition stroke_begun : @App.WhiteboardApp raster :=
  app_run
    [ frame 1 0 centre centre no_key; frame 1 0 centre centre no_key;
      frame 1 0 centre centre no_key; frame 1 0 centre centre no_key ]
    (app_init 0).

(** ... then the [pan] gesture one second later, the fingertip still on
    the canvas. *)
Definition stroke_then_pan : @App.WhiteboardApp raster :=
  app_run [ frame 2 10 centre centre no_key ] stroke_begun.

(** Shape mode entered by [draw_shapes], then [write_start] one second
    later: the anchor of the rectangle is set at the centre. *)
Definition shape_anchored : @App.WhiteboardApp raster :=
  app_run
    [ frame 1 5 centre centre no_key; frame 1 5 centre centre no_key;
      frame 1 5 centre centre no_key; frame 1 5 centre centre no_key;
      frame 2 0 centre centre no_key ]
    (app_init 0).

(** The simpler whiteboard with the stand-ins plugged in. *)
Definition wb_run (frames : list (option (list Landmark) * (Time * Time)))
    (s : @Whiteboard.GestureWhiteboard raster)
  : @Whiteboard.GestureWhiteboard raster :=
  fst (@Whiteboard.run raster classifier frames s).

(** A stroke drawn and ended on the simpler whiteboard: [write_start]
    (the window fills on the fourth frame), one more frame of drawing, then
    [write_stop]. *)
Definition wb_stroke : @Whiteboard.GestureWhiteboard raster :=
  wb_run
    [ (Some (hand 0 centre centre), (2, 2)%Q); (Some (hand 0 centre centre), (2, 2)%Q);
      (Some (hand 0 centre centre), (2, 2)%Q); (Some (hand 0 centre centre), (2, 2)%Q);
      (Some (hand 0 centre centre), (2, 2)%Q);
      (Some (hand 1 centre centre), (3, 3)%Q) ]
    (@Whiteboard.__init__ raster).

(** ... then cleared by the [clear_all] gesture ... *)
Definition wb_cleared : @Whiteboard.GestureWhiteboard raster :=
  wb_run [ (Some (hand 11 centre centre), (4, 4)%Q) ] wb_stroke.

(** ... and the [undo] gesture shown. *)
Definition wb_cleared_undone : @Whiteboard.GestureWhiteboard raster :=
  wb_run [ (Some (hand 6 centre centre), (5, 5)%Q) ] wb_cleared.

(** A second stroke after the first, towards the upper left quarter:
    [write_start], one more frame of drawing, then [write_stop]. *)
Definition wb_two_strokes : @Whiteboard.GestureWhiteboard raster :=
  wb_run
    [ (Some (hand 0 (1 # 4) (1 # 4)), (4, 4)%Q);
      (Some (hand 0 (1 # 4) (1 # 4)), (4, 4)%Q);
      (Some (hand 1 (1 # 4) (1 # 4)), (5, 5)%Q) ]
    wb_stroke.

End Fake.

(** ** Vocabulary of the properties *)

(** Debouncer, the rule as the specification words it: an event is
    emitted when the name differs from the one emitted last, or the cooldown
    has elapsed since the last emission. *)
Definition spec_emits (cooldown : Q) (last : option string)
    (last_time now : Time) (name : string) : bool :=
  negb (opt_str_eqb (Some name) last) || Qle_bool cooldown (now - last_time).

(** Window: every snapshot of a buffer has 21 rows. *)
Definition buffer_ok (buf : list Frame) : Prop :=
  Forall (fun f : Frame => length f = 21) buf.

(** Window: an interpreter call is made on four snapshots of 21 rows. *)
Definition call_ok {R : Raster} (e : Effect) : Prop :=
  match e with
  | Invoke w => length w = 4 /\ buffer_ok w
  | ImWrite _ _ => True
  end.

(** History: a committed mutation gives the canvas a new content and
    saves it (the end of a stroke or of a shape, a clear). *)
Definition commit {R : Raster} (c : Canvas) (s : App.WhiteboardApp)
  : App.WhiteboardApp :=
  App.save_history (App.set_canvas c s).

(** History: [committed cs s] says that [s] comes from a fresh application
    by steps that each push one snapshot on the undo deque, the snapshots
    [cs] in this order, with steps in between that leave the deque as it
    is. *)
Inductive committed {R : Raster} : list Canvas -> App.WhiteboardApp -> Prop :=
| committed_init (now : Time) :
    committed [] (App.__init__ now)
| committed_push (cs : list Canvas) (c : Canvas) (s s' : App.WhiteboardApp) :
    committed cs s ->
    App.history s' = Deque.append App.maxlen (App.history s) c ->
    committed (cs ++ [c]) s'
| committed_keep (cs : list Canvas) (s s' : App.WhiteboardApp) :
    committed cs s ->
    App.history s' = App.history s ->
    committed cs s'.

(** View transform: the bounds of the offsets for a zoom factor. *)
Definition offsets_in_bounds {R : Raster} (s : App.WhiteboardApp) : Prop :=
  (- inject_Z App.canvas_width * (App.zoom_factor s - 1) <= App.offset_x s
   /\ App.offset_x s <= 0
   /\ - inject_Z App.canvas_height * (App.zoom_factor s - 1) <= App.offset_y s
   /\ App.offset_y s <= 0)%Q.

(** Tool state machine: the three interactions of its invariant.  A
    freehand stroke is active when the pointer of a frame goes to [draw],
    a shape preview when an anchor is set, panning when [pan_mode] is. *)
Definition stroke_active {R : Raster} (s : App.WhiteboardApp) : Prop :=
  App.drawing s = true
  /\ (App.shape_drawing s = false \/ App.shape_start_point s = None).

Definition preview_active {R : Raster} (s : App.WhiteboardApp) : Prop :=
  App.shape_start_point s <> None.

Definition panning {R : Raster} (s : App.WhiteboardApp) : Prop :=
  App.pan_mode s = true.

(** Tool state machine: an anchor is only set while drawing in shape
    mode. *)
Definition anchor_inv {R : Raster} (s : App.WhiteboardApp) : Prop :=
  App.shape_start_point s <> None ->
  App.drawing s = true /\ App.shape_drawing s = true.

(** History: the deque is never empty, and deque and redo stack together
    never hold more than [maxlen] snapshots. *)
Definition hist_inv {R : Raster} (s : App.WhiteboardApp) : Prop :=
  1 <= length (App.history s)
  /\ length (App.history s) + length (App.redo_stack s) <= App.maxlen.

(** View transform: the zoom factor within its range, the offsets within
    the bounds of the largest zoom factor. *)
Definition view_inv {R : Raster} (s : App.WhiteboardApp) : Prop :=
  (1 <= App.zoom_factor s /\ App.zoom_factor s <= 3
   /\ - (2 * inject_Z App.canvas_width) <= App.offset_x s
   /\ App.offset_x s <= 0
   /\ - (2 * inject_Z App.canvas_height) <= App.offset_y s
   /\ App.offset_y s <= 0)%Q.

(** Colours: the colour after [change_color], as a function of the colour
    before. *)
Definition next_color (c : Color) : Color :=
  nth ((App.color_index c App.colors + 1) mod length App.colors) App.colors
      (0, 0, 255)%Z.

(** Window: the snapshots that a list of frames adds to the buffer. *)
Definition snapshots (frames : list App.FrameInput) : list Frame :=
  flat_map (fun inp =>
              match App.landmarks inp with
              | Some lms =>
                  match process_landmarks lms with
                  | Some f => [f]
                  | None => []
                  end
              | None => []
              end) frames.

(** Window: the windows handed to the interpreter among some effects. *)
Definition invocations {R : Raster} (out : list Effect) : list (list Frame) :=
  flat_map (fun e => match e with
                     | Invoke w => [w]
                     | ImWrite _ _ => []
                     end) out.

(** Backend: the second message comes more than the cooldown after the
    first. *)
Definition apart (g1 g2 : Backend.GestureData) : Prop :=
  (Backend.gesture_cooldown < Backend.timestamp g2 - Backend.timestamp g1)%Q.

(** Simpler whiteboard: [history_index] points into [history], or is -1
    while it is empty; the colour index is within [COLOURS]. *)
Definition wb_inv {R : Raster} (s : Whiteboard.GestureWhiteboard) : Prop :=
  ((Whiteboard.history s = [] /\ Whiteboard.history_index s = (-1)%Z)
   \/ (0 <= Whiteboard.history_index s
       < Z.of_nat (length (Whiteboard.history s)))%Z)
  /\ Whiteboard.current_colour_idx s < length Whiteboard.COLOURS.

(** Rule-based recogniser: the landmark at a position, and the tests of
    [detect_gesture] on a hand. *)
Definition landmark_at (landmarks : list Landmark) (i : nat) : Landmark :=
  nth i landmarks (Build_Landmark 0 0 0).

Definition thumb_up (landmarks : list Landmark) : Prop :=
  (lm_x (landmark_at landmarks 3) < lm_x (landmark_at landmarks 4))%Q.

Definition finger_up (landmarks : list Landmark) (tip mcp : nat) : Prop :=
  (lm_y (landmark_at landmarks tip) < lm_y (landmark_at landmarks mcp))%Q.

(** Start-up: the state the gestures have not touched. *)
Definition untouched {R : Raster} (now : Time) (s : App.WhiteboardApp) : Prop :=
  App.last_gesture s = None /\ App.last_gesture_time s = now
  /\ App.drawing s = false /\ App.pan_mode s = false
  /\ App.shape_drawing s = false.



(** * Properties *)

(** ** Arithmetic and list helpers *)

Lemma Qlt_bool_iff (a b : Q) : Qlt_bool a b = true <-> (a < b)%Q.
Proof.
  unfold Qlt_bool. rewrite negb_true_iff. split; intro H.
  - apply Qnot_le_lt. intro L. apply Qle_bool_iff in L. congruence.
  - destruct (Qle_bool b a) eqn:E; [|reflexivity].
    apply Qle_bool_iff in E. exfalso. exact (Qlt_not_le _ _ H E).
Qed.

Lemma Qlt_bool_false_iff (a b : Q) : Qlt_bool a b = false <-> (b <= a)%Q.
Proof.
  unfold Qlt_bool. rewrite negb_false_iff. apply Qle_bool_iff.
Qed.

Lemma opt_str_eqb_iff (a b : option string) : opt_str_eqb a b = true <-> a = b.
Proof.
  destruct a as [x|], b as [y|]; simpl; try (split; congruence).
  rewrite String.eqb_eq. split; congruence.
Qed.

Lemma opt_str_eqb_false_iff (a b : option string) :
  opt_str_eqb a b = false <-> a <> b.
Proof.
  rewrite <- opt_str_eqb_iff. destruct (opt_str_eqb a b); split; congruence.
Qed.

Lemma deque_append_snoc {A : Type} (m : nat) (d : list A) (x : A) :
  1 <= m -> Deque.append m d x = skipn (S (length d) - m) d ++ [x].
Proof.
  intro Hm. unfold Deque.append. rewrite skipn_app, length_app.
  cbn [length].
  replace (length d + 1 - m - length d) with 0 by lia.
  replace (length d + 1 - m) with (S (length d) - m) by lia.
  reflexivity.
Qed.

Lemma deque_append_room {A : Type} (m : nat) (d : list A) (x : A) :
  length d < m -> Deque.append m d x = d ++ [x].
Proof.
  intro Hm. rewrite deque_append_snoc by lia.
  replace (S (length d) - m) with 0 by lia. reflexivity.
Qed.

Lemma deque_append_length {A : Type} (m : nat) (d : list A) (x : A) :
  length (Deque.append m d x) = Nat.min (S (length d)) m.
Proof.
  unfold Deque.append. rewrite length_skipn, length_app. cbn [length]. lia.
Qed.

Lemma deque_append_In {A : Type} (m : nat) (d : list A) (x y : A) :
  In y (Deque.append m d x) -> In y d \/ y = x.
Proof.
  unfold Deque.append. intro H.
  assert (H' : In y (d ++ [x])).
  { rewrite <- (firstn_skipn (length (d ++ [x]) - m) (d ++ [x])).
    apply in_or_app. right. exact H. }
  apply in_app_or in H'. destruct H' as [H'|[H'|[]]]; auto.
Qed.

(** ** What the methods of [WhiteboardApp] leave alone *)

Ltac app_methods :=
  unfold App.dispatch, App.clear_canvas, App.save_canvas, App.change_color,
    App.change_shape, App.undo, App.redo, App.zoom, App.toggle_erasing,
    App.end_drawing, App.start_drawing, App.draw, App.draw_shape,
    App.start_pan, App.pan, App.end_pan, App.save_history, App.status.

Ltac split_cases :=
  repeat match goal with
         | |- context [if ?b then _ else _] => destruct b
         | |- context [match ?x with _ => _ end] => destruct x
         end.

Ltac frame_solve := intros; app_methods; split_cases; reflexivity.

Section AppFrames.
Context {R : Raster} {I : Interpreter}.

Lemma dispatch_last_gesture now stamp name (s : App.WhiteboardApp) :
  App.last_gesture (fst (App.dispatch now stamp name s)) = App.last_gesture s
  /\ App.last_gesture_time (fst (App.dispatch now stamp name s))
     = App.last_gesture_time s.
Proof. split; frame_solve. Qed.

Lemma dispatch_frame_buffer now stamp name (s : App.WhiteboardApp) :
  App.frame_buffer (fst (App.dispatch now stamp name s)) = App.frame_buffer s.
Proof. frame_solve. Qed.

Lemma handle_gesture_frame_buffer t now stamp id (s : App.WhiteboardApp) :
  App.frame_buffer (fst (App.handle_gesture t now stamp id s)) = App.frame_buffer s.
Proof.
  unfold App.handle_gesture.
  destruct (Qlt_bool _ _); [reflexivity|].
  destruct (negb _); [|reflexivity].
  rewrite dispatch_frame_buffer. reflexivity.
Qed.

Lemma handle_pan_frame_buffer c p (s : App.WhiteboardApp) :
  App.frame_buffer (App.handle_pan c p s) = App.frame_buffer s.
Proof. unfold App.handle_pan. frame_solve. Qed.

Lemma handle_drawing_frame_buffer p (s : App.WhiteboardApp) :
  App.frame_buffer (App.handle_drawing p s) = App.frame_buffer s.
Proof. unfold App.handle_drawing. frame_solve. Qed.

Lemma handle_key_frame_buffer c k (s : App.WhiteboardApp) :
  App.frame_buffer (fst (fst (App.handle_key c k s))) = App.frame_buffer s.
Proof. unfold App.handle_key. frame_solve. Qed.

End AppFrames.

(** ** The debouncer *)

Section Debouncer.
Context {R : Raster} {I : Interpreter}.

Lemma whiteboard_handle_gesture_last now name (w : Whiteboard.GestureWhiteboard) :
  Whiteboard.last_gesture (fst (Whiteboard.handle_gesture now name w))
  = Whiteboard.last_gesture w
  /\ Whiteboard.last_gesture_time (fst (Whiteboard.handle_gesture now name w))
     = Whiteboard.last_gesture_time w.
Proof. unfold Whiteboard.handle_gesture. split; split_cases; reflexivity. Qed.

(** In [app.py] a classification is accepted when the cooldown is over and
    the name is new; the handler then runs on the state that records it. *)
Lemma app_accepts t now stamp id (a : App.WhiteboardApp) :
  (App.gesture_cooldown <= t - App.last_gesture_time a)%Q ->
  Some (dict_get GESTURE_MAP id "Unknown") <> App.last_gesture a ->
  App.handle_gesture t now stamp id a
  = App.dispatch now stamp (dict_get GESTURE_MAP id "Unknown")
      (App.set_last_gesture_time t
         (App.set_last_gesture (Some (dict_get GESTURE_MAP id "Unknown")) a)).
Proof.
  intros Hc Hn. unfold App.handle_gesture.
  apply Qlt_bool_false_iff in Hc. rewrite Hc.
  apply opt_str_eqb_false_iff in Hn. rewrite Hn. reflexivity.
Qed.

Lemma app_suppresses t now stamp id (a : App.WhiteboardApp) :
  (t - App.last_gesture_time a < App.gesture_cooldown)%Q
  \/ Some (dict_get GESTURE_MAP id "Unknown") = App.last_gesture a ->
  App.handle_gesture t now stamp id a = (a, []).
Proof.
  intros [Hc|Hn]; unfold App.handle_gesture.
  - apply Qlt_bool_iff in Hc. rewrite Hc. reflexivity.
  - apply opt_str_eqb_iff in Hn. rewrite Hn.
    destruct (Qlt_bool _ _); reflexivity.
Qed.

Lemma whiteboard_suppresses t now name (w : Whiteboard.GestureWhiteboard) :
  Some name = Whiteboard.last_gesture w ->
  (t - Whiteboard.last_gesture_time w <= Whiteboard.gesture_cooldown)%Q ->
  Whiteboard.debounce t now name w = (w, []).
Proof.
  intros Hn Hc. unfold Whiteboard.debounce.
  apply opt_str_eqb_iff in Hn. rewrite Hn.
  apply Qlt_bool_false_iff in Hc. rewrite Hc. reflexivity.
Qed.

Lemma whiteboard_accepts t now name (w : Whiteboard.GestureWhiteboard) :
  Some name <> Whiteboard.last_gesture w
  \/ (Whiteboard.gesture_cooldown < t - Whiteboard.last_gesture_time w)%Q ->
  Whiteboard.debounce t now name w
  = Whiteboard.handle_gesture now name
      (Whiteboard.set_last_gesture_time t
         (Whiteboard.set_last_gesture (Some name) w)).
Proof.
  intros H. unfold Whiteboard.debounce.
  destruct H as [Hn|Hc].
  - apply opt_str_eqb_false_iff in Hn. rewrite Hn. reflexivity.
  - apply Qlt_bool_iff in Hc. rewrite Hc, orb_true_r. reflexivity.
Qed.

(** C1, as amended.  The three front ends debounce by three different
    rules.  [GestureWhiteboard.run] (whiteboard_app.py) emits exactly when
    the name differs from the one emitted last or more than the cooldown of
    1.0 s has passed.  [WhiteboardApp.handle_gesture] (app.py) emits exactly
    when the cooldown of 1.0 s is over and, in addition, the name differs.
    The service ([process_frame], gesture_backend.py) emits exactly when
    more than 0.5 s have passed, whatever the name.  An emission is what
    changes the state of the debouncer, respectively yields [gesture_data]. *)
Theorem debounce_rules :
  forall (t now : Time) (stamp : string) (id : option nat)
         (a : App.WhiteboardApp)
         (name : string) (w : Whiteboard.GestureWhiteboard)
         (conf : Q) (tip : Landmark) (b : Backend.GestureRecognitionBackend),
    (fst (Whiteboard.debounce t now name w) <> w
     <-> Some name <> Whiteboard.last_gesture w
         \/ (Whiteboard.gesture_cooldown < t - Whiteboard.last_gesture_time w)%Q)
    /\ (fst (App.handle_gesture t now stamp id a) <> a
        <-> (App.gesture_cooldown <= t - App.last_gesture_time a)%Q
            /\ Some (dict_get GESTURE_MAP id "Unknown") <> App.last_gesture a)
    /\ (snd (Backend.debounce t name conf tip b) <> None
        <-> (Backend.gesture_cooldown < t - Backend.last_gesture_time b)%Q).
Proof.
  intros. split; [|split].
  - split.
    + intro Hd.
      destruct (opt_str_eqb (Some name) (Whiteboard.last_gesture w)) eqn:En.
      * destruct (Qlt_bool Whiteboard.gesture_cooldown
                    (t - Whiteboard.last_gesture_time w)) eqn:Ec.
        -- right. apply Qlt_bool_iff. exact Ec.
        -- exfalso. apply Hd. rewrite whiteboard_suppresses; [reflexivity| |].
           ++ apply opt_str_eqb_iff. exact En.
           ++ apply Qlt_bool_false_iff. exact Ec.
      * left. apply opt_str_eqb_false_iff. exact En.
    + intros H E. rewrite (whiteboard_accepts _ now _ _ H) in E.
      destruct (whiteboard_handle_gesture_last now name
                  (Whiteboard.set_last_gesture_time t
                     (Whiteboard.set_last_gesture (Some name) w))) as [E1 E2].
      rewrite E in E1, E2. simpl in E1, E2.
      destruct H as [Hn|Hc]; [apply Hn; symmetry; exact E1|].
      rewrite E2 in Hc. unfold Whiteboard.gesture_cooldown in Hc.
      assert (Hz : (t - t == 0)%Q) by ring.
      rewrite Hz in Hc. discriminate Hc.
  - split.
    + intro Hd.
      destruct (Qlt_le_dec (t - App.last_gesture_time a) App.gesture_cooldown)
        as [Hc|Hc].
      * exfalso. apply Hd. rewrite app_suppresses; [reflexivity|]. left. exact Hc.
      * split; [exact Hc|]. intro Hn. apply Hd.
        rewrite app_suppresses; [reflexivity|]. right. exact Hn.
    + intros [Hc Hn] E. rewrite (app_accepts _ _ _ _ _ Hc Hn) in E.
      destruct (dispatch_last_gesture now stamp
                  (dict_get GESTURE_MAP id "Unknown")
                  (App.set_last_gesture_time t
                     (App.set_last_gesture
                        (Some (dict_get GESTURE_MAP id "Unknown")) a)))
        as [E1 _].
      rewrite E in E1. apply Hn. symmetry. exact E1.
  - unfold Backend.debounce.
    destruct (Qlt_bool Backend.gesture_cooldown
                (t - Backend.last_gesture_time b)) eqn:Ec; simpl.
    + apply Qlt_bool_iff in Ec. split; [intros _; exact Ec|intros _; discriminate].
    + apply Qlt_bool_false_iff in Ec. split; [congruence|].
      intro Hc. exfalso. exact (Qlt_not_le _ _ Hc Ec).
Qed.

End Debouncer.

(** ** The bounded history *)

Section History.
Context {R : Raster} {I : Interpreter}.

Lemma rev_two_newest {A : Type} (h : list A) :
  2 <= length h ->
  exists top below older, rev h = top :: below :: older.
Proof.
  intro Hl. destruct (rev h) as [|top [|below older]] eqn:E.
  - apply (f_equal (@length A)) in E. rewrite length_rev in E. simpl in E. lia.
  - apply (f_equal (@length A)) in E. rewrite length_rev in E. simpl in E. lia.
  - eauto.
Qed.

Lemma rev_cons_inv {A : Type} (h : list A) (x : A) (r : list A) :
  rev h = x :: r -> h = rev r ++ [x].
Proof.
  intro E. rewrite <- (rev_involutive h), E. reflexivity.
Qed.

(** [undo] with at least two snapshots: the newest moves to the redo
    stack and the one below it becomes the canvas. *)
Lemma undo_spec now (s : App.WhiteboardApp) :
  2 <= length (App.history s) ->
  App.history (App.undo now s) = removelast (App.history s)
  /\ App.canvas (App.undo now s) = last (removelast (App.history s)) (App.canvas s)
  /\ App.temp_canvas (App.undo now s) = App.canvas (App.undo now s)
  /\ App.redo_stack (App.undo now s)
     = Deque.append App.maxlen (App.redo_stack s)
         (last (App.history s) (App.canvas s)).
Proof.
  intro Hl. destruct (rev_two_newest _ Hl) as (top & below & older & E).
  unfold App.undo. rewrite E.
  apply rev_cons_inv in E. rewrite E.
  cbn [App.history App.canvas App.temp_canvas App.redo_stack App.status
       App.set_status_expire App.set_status_message App.set_temp_canvas
       App.set_canvas App.set_redo_stack App.set_history].
  rewrite removelast_last, last_last.
  change (rev (below :: older)) with (rev older ++ [below]).
  rewrite last_last. repeat split; reflexivity.
Qed.

(** [undo] with a single snapshot (or none) does nothing. *)
Lemma undo_noop now (s : App.WhiteboardApp) :
  length (App.history s) <= 1 -> App.undo now s = s.
Proof.
  intro Hl. unfold App.undo.
  destruct (rev (App.history s)) as [|top [|below older]] eqn:E; try reflexivity.
  apply (f_equal (@length Canvas)) in E. rewrite length_rev in E.
  simpl in E. lia.
Qed.

(** [redo] with a non-empty redo stack. *)
Lemma redo_spec now (s : App.WhiteboardApp) (older : list Canvas) (top : Canvas) :
  App.redo_stack s = older ++ [top] ->
  App.canvas (App.redo now s) = top
  /\ App.temp_canvas (App.redo now s) = top
  /\ App.history (App.redo now s) = Deque.append App.maxlen (App.history s) top
  /\ App.redo_stack (App.redo now s) = older.
Proof.
  intro E. unfold App.redo. rewrite E, rev_app_distr. simpl.
  rewrite rev_involutive. repeat split; reflexivity.
Qed.

Lemma last_skipn {A : Type} (k : nat) (l : list A) (d : A) :
  k < length l -> last (skipn k l) d = last l d.
Proof.
  revert l. induction k as [|k IH]; intros l Hk; [reflexivity|].
  destruct l as [|a l]; [simpl in Hk; lia|].
  simpl in Hk. rewrite skipn_cons, IH by lia.
  destruct l; [simpl in Hk; lia|reflexivity].
Qed.

Lemma last_default {A : Type} (l : list A) (d d' : A) :
  1 <= length l -> last l d = last l d'.
Proof.
  induction l as [|a l IH]; intro Hl; [simpl in Hl; lia|].
  destruct l as [|b l]; [reflexivity|].
  change (last (b :: l) d = last (b :: l) d'). apply IH. simpl. lia.
Qed.

Lemma removelast_length {A : Type} (l : list A) :
  length (removelast l) = length l - 1.
Proof.
  destruct (rev l) as [|x r] eqn:E.
  - apply (f_equal (@rev A)) in E. rewrite rev_involutive in E. subst. reflexivity.
  - apply rev_cons_inv in E. subst.
    rewrite removelast_last, length_app. simpl. lia.
Qed.

(** C5, as amended.  With at least two snapshots in the undo deque, [undo]
    followed by [redo] puts on the canvas the snapshot that was the newest
    of the deque before the [undo], and the deque is as before; this is
    the canvas of before the [undo] whenever that canvas had no uncommitted
    change (it was equal to the newest snapshot).  [redo] with an empty
    redo stack changes nothing. *)
Theorem undo_then_redo :
  forall (now now' : Time) (s : App.WhiteboardApp),
    (2 <= length (App.history s) <= App.maxlen ->
     let s' := App.redo now' (App.undo now s) in
     App.canvas s' = last (App.history s) (App.canvas s)
     /\ App.temp_canvas s' = App.canvas s'
     /\ App.history s' = App.history s
     /\ (App.canvas s = last (App.history s) (App.canvas s) ->
         App.canvas s' = App.canvas s))
    /\ (App.redo_stack s = [] -> App.redo now s = s).
Proof.
  intros now now' s. split.
  - intros [Hl Hm] s'.
    destruct (undo_spec now s Hl) as (Hh & _ & _ & Hr).
    assert (Hr' : App.redo_stack (App.undo now s)
                  = skipn (S (length (App.redo_stack s)) - App.maxlen)
                      (App.redo_stack s)
                    ++ [last (App.history s) (App.canvas s)]).
    { rewrite Hr. apply deque_append_snoc. unfold App.maxlen. lia. }
    destruct (redo_spec now' _ _ _ Hr') as (Hc & Ht & Hh' & _).
    fold s' in Hc, Ht, Hh'.
    assert (Hhist : App.history s' = App.history s).
    { rewrite Hh', Hh, deque_append_room.
      - destruct (rev_two_newest _ Hl) as (top & below & older & E).
        apply rev_cons_inv in E. rewrite E.
        rewrite removelast_last, last_last. reflexivity.
      - rewrite removelast_length. lia. }
    repeat split.
    + exact Hc.
    + rewrite Ht, Hc. reflexivity.
    + exact Hhist.
    + intro Hsame. rewrite Hc. symmetry. exact Hsame.
  - intro E. unfold App.redo. rewrite E. reflexivity.
Qed.

(** C6, as amended.  [clear_all] in [app.py] blanks the canvas, appends
    one snapshot (the blank canvas) to the undo deque and empties the redo
    stack; one [undo] then puts on the canvas the snapshot that was the
    newest before the clear, which is the canvas of before the clear
    whenever that canvas had no uncommitted change.  [clear_all] of
    [whiteboard_app.py] blanks the canvas and leaves its history alone. *)
Theorem clear_then_undo :
  forall (now now' : Time) (stamp : string) (s : App.WhiteboardApp)
         (w : Whiteboard.GestureWhiteboard),
    (1 <= length (App.history s) <= App.maxlen ->
     let c := fst (App.dispatch now stamp "clear_all" s) in
     App.canvas c = App.blank
     /\ App.history c = Deque.append App.maxlen (App.history s) App.blank
     /\ App.redo_stack c = []
     /\ App.canvas (App.undo now' c) = last (App.history s) (App.canvas s)
     /\ (App.canvas s = last (App.history s) (App.canvas s) ->
         App.canvas (App.undo now' c) = App.canvas s))
    /\ (let w' := fst (Whiteboard.handle_gesture now "clear_all" w) in
        Whiteboard.canvas w' = Whiteboard.blank
        /\ Whiteboard.history w' = Whiteboard.history w
        /\ Whiteboard.history_index w' = Whiteboard.history_index w).
Proof.
  intros now now' stamp s w. split.
  - intros [Hl Hm] c.
    assert (Hh0 : App.history c
                  = Deque.append App.maxlen (App.history s) App.blank)
      by reflexivity.
    assert (Hh : App.history c
                 = skipn (S (length (App.history s)) - App.maxlen) (App.history s)
                   ++ [App.blank]).
    { rewrite Hh0. apply deque_append_snoc. unfold App.maxlen. lia. }
    assert (Hk : S (length (App.history s)) - App.maxlen < length (App.history s)).
    { unfold App.maxlen in *. lia. }
    assert (Hu : App.canvas (App.undo now' c) = last (App.history s) (App.canvas s)).
    { assert (H2 : 2 <= length (App.history c)).
      { rewrite Hh, length_app, length_skipn. cbn [length].
        unfold App.maxlen in *. lia. }
      destruct (undo_spec now' c H2) as (_ & Hc & _).
      rewrite Hc, Hh, removelast_last.
      rewrite (last_skipn _ _ _ Hk).
      apply last_default. exact Hl. }
    repeat split.
    + exact Hu.
    + intro Hsame. rewrite Hu. symmetry. exact Hsame.
  - repeat split.
Qed.

Lemma last_firstn_nth {A : Type} (n : nat) (l : list A) (d : A) :
  n < length l -> last (firstn (S n) l) d = nth n l d.
Proof.
  revert l. induction n as [|n IH]; intros l Hn.
  - destruct l; [simpl in Hn; lia|reflexivity].
  - destruct l as [|a l]; [simpl in Hn; lia|].
    simpl in Hn. rewrite firstn_cons. cbn [nth]. rewrite <- IH by lia.
    destruct l; [simpl in Hn; lia|reflexivity].
Qed.

(** Pushing on the newest [m] of a list gives the newest [m] of the
    longer list. *)
Lemma keep_append {A : Type} (m : nat) (l : list A) (c : A) :
  1 <= m ->
  Deque.append m (skipn (length l - m) l) c
  = skipn (length (l ++ [c]) - m) (l ++ [c]).
Proof.
  intro Hm. unfold Deque.append.
  assert (E : skipn (length l - m) l ++ [c] = skipn (length l - m) (l ++ [c])).
  { rewrite skipn_app.
    replace (length l - m - length l) with 0 by lia. reflexivity. }
  rewrite E, skipn_skipn, length_skipn, !length_app. cbn [length].
  f_equal. lia.
Qed.

(** The deque after a run of commits: the newest [maxlen] snapshots. *)
Lemma committed_history (cs : list Canvas) (s : App.WhiteboardApp) :
  committed cs s ->
  App.history s
  = skipn (length (App.blank :: cs) - App.maxlen) (App.blank :: cs).
Proof.
  induction 1 as [now|cs c s s' Hc IH Hpush|cs s s' Hc IH Hkeep].
  - reflexivity.
  - rewrite Hpush, IH.
    change (App.blank :: cs ++ [c]) with ((App.blank :: cs) ++ [c]).
    apply keep_append. unfold App.maxlen. lia.
  - rewrite Hkeep. exact IH.
Qed.

(** The commits of the application are such pushes. *)
Lemma clear_canvas_commits now cs (s : App.WhiteboardApp) :
  committed cs s -> committed (cs ++ [App.blank]) (App.clear_canvas now s).
Proof. intro H. apply (committed_push cs App.blank s _ H). reflexivity. Qed.

Lemma end_stroke_commits cs (s : App.WhiteboardApp) :
  committed cs s ->
  App.drawing s = true -> App.shape_drawing s = false -> App.erasing s = false ->
  committed (cs ++ [App.canvas s]) (App.end_drawing s).
Proof.
  intros H Hd Hs He. apply (committed_push cs (App.canvas s) s _ H).
  unfold App.end_drawing. rewrite Hd. cbn. rewrite Hs, He. reflexivity.
Qed.

Lemma end_shape_commits cs (s : App.WhiteboardApp) :
  committed cs s ->
  App.drawing s = true -> App.shape_drawing s = true ->
  committed (cs ++ [App.temp_canvas s]) (App.end_drawing s).
Proof.
  intros H Hd Hs. apply (committed_push cs (App.temp_canvas s) s _ H).
  unfold App.end_drawing. rewrite Hd. cbn. rewrite Hs. reflexivity.
Qed.

Lemma commits_committed (cs0 cs : list Canvas) (s : App.WhiteboardApp) :
  committed cs0 s ->
  committed (cs0 ++ cs) (fold_left (fun s c => commit c s) cs s).
Proof.
  revert cs0 s. induction cs as [|c cs IH]; intros cs0 s H.
  - rewrite app_nil_r. exact H.
  - cbn [fold_left].
    change (cs0 ++ c :: cs) with (cs0 ++ [c] ++ cs). rewrite app_assoc.
    apply IH. apply (committed_push cs0 c s _ H). reflexivity.
Qed.

(** Repeated [undo]: each step that finds two snapshots drops the newest. *)
Lemma undone_history now (s : App.WhiteboardApp) (k : nat) :
  k < length (App.history s) ->
  App.history (Nat.iter k (App.undo now) s)
  = firstn (length (App.history s) - k) (App.history s)
  /\ (1 <= k ->
      App.canvas (Nat.iter k (App.undo now) s)
      = nth (length (App.history s) - k - 1) (App.history s) (App.canvas s)).
Proof.
  induction k as [|k IH]; intro Hk.
  - split; [|lia]. simpl. rewrite Nat.sub_0_r, firstn_all. reflexivity.
  - destruct IH as [IHh IHc]; [lia|].
    rewrite Nat.iter_succ.
    assert (H2 : 2 <= length (App.history (Nat.iter k (App.undo now) s))).
    { rewrite IHh, length_firstn. lia. }
    destruct (undo_spec now _ H2) as (Hh & Hc & _).
    assert (Hrl : removelast (App.history (Nat.iter k (App.undo now) s))
                  = firstn (length (App.history s) - S k) (App.history s)).
    { rewrite IHh.
      replace (length (App.history s) - k)
        with (S (length (App.history s) - S k)) by lia.
      apply removelast_firstn. lia. }
    split.
    + rewrite Hh. exact Hrl.
    + intros _. rewrite Hc, Hrl.
      replace (length (App.history s) - S k)
        with (S (length (App.history s) - S k - 1)) at 1 by lia.
      rewrite last_firstn_nth by lia.
      apply nth_indep. lia.
Qed.

(** C2, as amended.  After the initial snapshot and 60 commits the deque
    holds the newest 50 snapshots, the canvas among them, so [undo] has an
    effect exactly 49 times: the [k]-th of them shows the canvas of [k]
    commits earlier, and from the 50th on [undo] does nothing.  The blank
    canvas and the first 10 commits are out of reach. *)
Theorem undo_steps_after_sixty_commits :
  forall (now : Time) (cs : list Canvas) (s : App.WhiteboardApp),
    committed cs s ->
    length cs = 60 ->
    let undone := fun k => Nat.iter k (App.undo now) s in
    App.history s = skipn 10 cs
    /\ (forall k, k <= 49 ->
         App.history (undone k) = firstn (50 - k) (skipn 10 cs))
    /\ (forall k, 1 <= k <= 49 ->
         App.canvas (undone k) = nth (59 - k) cs App.blank)
    /\ (forall k, k < 49 -> undone (S k) <> undone k)
    /\ (forall k, 49 <= k -> undone k = undone 49).
Proof.
  intros now cs s Hcommitted Hcs undone.
  assert (Hs : App.history s = skipn 10 cs).
  { rewrite (committed_history cs s Hcommitted).
    cbn [length]. rewrite Hcs. reflexivity. }
  assert (Hlen : length (App.history s) = 50).
  { rewrite Hs, length_skipn, Hcs. reflexivity. }
  assert (Hhist : forall k, k <= 49 ->
            App.history (undone k) = firstn (50 - k) (skipn 10 cs)).
  { intros k Hk. destruct (undone_history now s k) as [Hh _]; [lia|].
    unfold undone. rewrite Hh, Hlen, Hs. reflexivity. }
  split; [exact Hs|]. split; [exact Hhist|]. split; [|split].
  - intros k Hk. destruct (undone_history now s k) as [_ Hc]; [lia|].
    unfold undone. rewrite Hc by lia. rewrite Hlen, Hs, nth_skipn.
    replace (10 + (50 - k - 1)) with (59 - k) by lia.
    apply nth_indep. lia.
  - intros k Hk E. apply (f_equal (fun x => length (App.history x))) in E.
    rewrite !Hhist in E by lia.
    rewrite !length_firstn, length_skipn, Hcs in E. lia.
  - intros k Hk. induction k as [|k IH]; [lia|].
    destruct (Nat.eq_dec (S k) 49) as [->|Hne]; [reflexivity|].
    unfold undone in *. rewrite Nat.iter_succ, IH by lia.
    apply undo_noop. rewrite (Hhist 49) by lia.
    rewrite length_firstn. exact (Nat.le_min_l 1 _).
Qed.

End History.

(** ** The shape preview *)

Section Preview.
Context {R : Raster} {I : Interpreter}.

(** The pointer of a frame goes to [draw_shape] while a shape is being
    sized. *)
Lemma preview_render (p : Point) (anchor : Point) (s : App.WhiteboardApp) :
  App.drawing s = true -> App.shape_drawing s = true ->
  App.shape_start_point s = Some anchor ->
  App.handle_drawing (Some p) s = App.draw_shape (fst p) (snd p) s.
Proof.
  intros Hd Hs Ha. destruct p as [x y]. unfold App.handle_drawing.
  rewrite Hd, andb_false_r, Hd, Hs, Ha. reflexivity.
Qed.

(** [draw_shape] writes [temp_canvas] and nothing else. *)
Lemma draw_shape_frame (x y : Z) (s : App.WhiteboardApp) :
  App.draw_shape x y s = App.set_temp_canvas (App.temp_canvas (App.draw_shape x y s)) s.
Proof.
  unfold App.draw_shape.
  destruct s; cbn.
  destruct shape_start_point as [[sx sy]|]; [|reflexivity].
  split_cases; reflexivity.
Qed.

Lemma previews_frame (pts : list Point) (anchor : Point) (s : App.WhiteboardApp) :
  App.drawing s = true -> App.shape_drawing s = true ->
  App.shape_start_point s = Some anchor ->
  let s' := fold_left (fun s p => App.handle_drawing (Some p) s) pts s in
  s' = App.set_temp_canvas (App.temp_canvas s') s.
Proof.
  revert s. induction pts as [|p pts IH]; intros s Hd Hs Ha; cbn [fold_left].
  - destruct s; reflexivity.
  - rewrite (preview_render p anchor s Hd Hs Ha).
    rewrite (draw_shape_frame (fst p) (snd p) s).
    set (s1 := App.set_temp_canvas _ s).
    specialize (IH s1 Hd Hs Ha). cbv zeta in IH.
    rewrite IH at 1. reflexivity.
Qed.

(** C7.  While a shape is being sized (drawing, in shape mode, anchor
    set), any number of pointer positions re-render the preview on
    [temp_canvas] only: the canvas, the undo deque and the redo stack are
    as they were when the preview began, and the preview is still active.
    [write_stop] then ends the drawing, which makes the last preview the
    canvas and appends it to the undo deque as one snapshot. *)
Theorem preview_commits_once :
  forall (pts : list Point) (anchor : Point) (s : App.WhiteboardApp),
    App.drawing s = true ->
    App.shape_drawing s = true ->
    App.shape_start_point s = Some anchor ->
    let s' := fold_left (fun s p => App.handle_drawing (Some p) s) pts s in
    App.canvas s' = App.canvas s
    /\ App.history s' = App.history s
    /\ App.redo_stack s' = App.redo_stack s
    /\ App.shape_start_point s' = Some anchor
    /\ (forall now stamp,
          fst (App.dispatch now stamp "write_stop" s')
          = App.status now "Drawing stopped" (App.end_drawing s'))
    /\ App.canvas (App.end_drawing s') = App.temp_canvas s'
    /\ App.history (App.end_drawing s')
       = Deque.append App.maxlen (App.history s) (App.temp_canvas s').
Proof.
  intros pts anchor s Hd Hs Ha s'.
  pose proof (previews_frame pts anchor s Hd Hs Ha) as E.
  fold s' in E. cbv zeta in E.
  assert (Hd' : App.drawing s' = true) by (rewrite E; exact Hd).
  assert (Hs' : App.shape_drawing s' = true) by (rewrite E; exact Hs).
  assert (Hc : App.canvas s' = App.canvas s) by (rewrite E; reflexivity).
  assert (Hh : App.history s' = App.history s) by (rewrite E; reflexivity).
  repeat split.
  - exact Hc.
  - exact Hh.
  - rewrite E. reflexivity.
  - rewrite E. exact Ha.
  - unfold App.end_drawing. rewrite Hd'. cbn. rewrite Hs'. reflexivity.
  - unfold App.end_drawing. rewrite Hd'. cbn. rewrite Hs'. cbn.
    rewrite Hh. reflexivity.
Qed.

End Preview.

(** ** The landmark window *)

Section Window.
Context {R : Raster} {I : Interpreter}.

Lemma process_landmarks_rows (lms : list Landmark) (f : Frame) :
  process_landmarks lms = Some f -> length lms = 21 /\ length f = 21.
Proof.
  unfold process_landmarks. destruct (length lms =? 21) eqn:E; simpl; [|discriminate].
  intro H. injection H as <-. apply Nat.eqb_eq in E.
  rewrite length_map. auto.
Qed.

Lemma process_landmarks_rejects (lms : list Landmark) :
  length lms <> 21 -> process_landmarks lms = None.
Proof.
  intro H. unfold process_landmarks.
  apply Nat.eqb_neq in H. rewrite H. reflexivity.
Qed.

Lemma deque_append_ok (m : nat) (buf : list Frame) (f : Frame) :
  buffer_ok buf -> length f = 21 -> buffer_ok (Deque.append m buf f).
Proof.
  intros Hb Hf. apply Forall_forall. intros y Hy.
  apply deque_append_In in Hy. destruct Hy as [Hy| ->]; [|exact Hf].
  unfold buffer_ok in Hb. rewrite Forall_forall in Hb. auto.
Qed.

Lemma dispatch_calls now stamp name (s : App.WhiteboardApp) (e : Effect) :
  In e (snd (App.dispatch now stamp name s)) -> call_ok e.
Proof.
  unfold App.dispatch, App.save_canvas. split_cases; simpl; intros H;
    repeat (destruct H as [H|H]; [subst e; exact Logic.I|]); destruct H.
Qed.

Lemma handle_gesture_calls t now stamp id (s : App.WhiteboardApp) (e : Effect) :
  In e (snd (App.handle_gesture t now stamp id s)) -> call_ok e.
Proof.
  unfold App.handle_gesture.
  destruct (Qlt_bool _ _); [intros []|].
  destruct (negb _); [|intros []].
  apply dispatch_calls.
Qed.

Lemma handle_key_calls c k (s : App.WhiteboardApp) (e : Effect) :
  In e (snd (fst (App.handle_key c k s))) -> call_ok e.
Proof.
  unfold App.handle_key, App.save_canvas. split_cases; simpl; intros H;
    repeat (destruct H as [H|H]; [subst e; exact Logic.I|]); destruct H.
Qed.

(** The hand-loop body: what is buffered and what is classified. *)
Lemma recognise_spec c lms (s : App.WhiteboardApp) :
  buffer_ok (App.frame_buffer s) ->
  buffer_ok (App.frame_buffer (fst (App.recognise c lms s)))
  /\ (forall e, In e (snd (App.recognise c lms s)) -> call_ok e)
  /\ (length (App.frame_buffer (fst (App.recognise c lms s))) < 4 ->
      snd (App.recognise c lms s) = []).
Proof.
  intro Hb. unfold App.recognise.
  destruct (process_landmarks lms) as [f|] eqn:Ep.
  2:{ simpl. repeat split; [exact Hb|intros e []]. }
  destruct (process_landmarks_rows _ _ Ep) as [_ Hf].
  set (s1 := App.set_frame_buffer _ s).
  assert (Hb1 : buffer_ok (App.frame_buffer s1)).
  { apply deque_append_ok; assumption. }
  destruct (length (App.frame_buffer s1) =? App.sequence_length) eqn:El.
  2:{ simpl. repeat split; [exact Hb1|intros e []]. }
  apply Nat.eqb_eq in El.
  unfold predict_gesture.
  assert (El' : (length (App.frame_buffer s1) =? App.sequence_length) = true)
    by (apply Nat.eqb_eq; exact El).
  rewrite El'. cbn [negb].
  destruct (Qlt_bool (7 # 10) _).
  - destruct (App.handle_gesture _ _ _ _ s1) as [s2 out] eqn:Eh.
    cbn [fst snd].
    assert (Hfb : App.frame_buffer s2 = App.frame_buffer s1).
    { change s2 with (fst (s2, out)). rewrite <- Eh.
      apply handle_gesture_frame_buffer. }
    repeat split.
    + rewrite Hfb. exact Hb1.
    + intros e [He|He].
      * subst e. split; [exact El|exact Hb1].
      * apply (handle_gesture_calls (App.t_gesture c) (App.t_handler c)
                 (App.stamp_handler c) (Some (np_argmax (invoke (App.frame_buffer s1)))) s1).
        rewrite Eh. exact He.
    + rewrite Hfb, El. unfold App.sequence_length. lia.
  - cbn [fst snd]. repeat split.
    + exact Hb1.
    + intros e [He|[]]. subst e. split; [exact El|exact Hb1].
    + rewrite El. unfold App.sequence_length. lia.
Qed.

Lemma tick_frame_buffer inp (s : App.WhiteboardApp) :
  App.frame_buffer (fst (fst (App.tick inp s)))
  = match App.landmarks inp with
    | Some lms => App.frame_buffer (fst (App.recognise (App.clock inp) lms s))
    | None => App.frame_buffer s
    end.
Proof.
  unfold App.tick.
  destruct (App.landmarks inp) as [lms|].
  - destruct (App.recognise _ lms s) as [s1 out1].
    destruct (App.handle_key _ _ _) as [[s4 out2] continue] eqn:Ek.
    cbn [fst snd].
    change s4 with (fst (fst (s4, out2, continue))). rewrite <- Ek.
    rewrite handle_key_frame_buffer, handle_drawing_frame_buffer,
      handle_pan_frame_buffer. reflexivity.
  - destruct (App.handle_key _ _ _) as [[s4 out2] continue] eqn:Ek.
    cbn [fst snd].
    change s4 with (fst (fst (s4, out2, continue))). rewrite <- Ek.
    rewrite handle_key_frame_buffer, handle_drawing_frame_buffer,
      handle_pan_frame_buffer. reflexivity.
Qed.

Lemma tick_calls inp (s : App.WhiteboardApp) :
  snd (fst (App.tick inp s))
  = match App.landmarks inp with
    | Some lms => snd (App.recognise (App.clock inp) lms s)
    | None => []
    end
    ++ snd (fst (App.handle_key (App.clock inp) (App.key inp)
                   (App.handle_drawing
                      (match App.landmarks inp with
                       | Some lms => App.get_index_finger_position lms
                       | None => None
                       end)
                      (App.handle_pan (App.clock inp)
                         (match App.landmarks inp with
                          | Some lms => App.get_index_finger_position lms
                          | None => None
                          end)
                         (match App.landmarks inp with
                          | Some lms => fst (App.recognise (App.clock inp) lms s)
                          | None => s
                          end))))).
Proof.
  unfold App.tick.
  destruct (App.landmarks inp) as [lms|].
  - destruct (App.recognise _ lms s) as [s1 out1].
    destruct (App.handle_key _ _ _) as [[s4 out2] continue]. reflexivity.
  - destruct (App.handle_key _ _ _) as [[s4 out2] continue]. reflexivity.
Qed.

Lemma tick_spec inp (s : App.WhiteboardApp) :
  buffer_ok (App.frame_buffer s) ->
  buffer_ok (App.frame_buffer (fst (fst (App.tick inp s))))
  /\ (forall e, In e (snd (fst (App.tick inp s))) -> call_ok e).
Proof.
  intro Hb. rewrite tick_frame_buffer, tick_calls.
  destruct (App.landmarks inp) as [lms|].
  - destruct (recognise_spec (App.clock inp) lms s Hb) as (H1 & H2 & _).
    split; [exact H1|].
    intros e He. apply in_app_or in He. destruct He as [He|He].
    + apply H2. exact He.
    + eapply handle_key_calls. exact He.
  - split; [exact Hb|].
    intros e He. apply in_app_or in He. destruct He as [[]|He].
    eapply handle_key_calls. exact He.
Qed.

Lemma run_spec frames (s : App.WhiteboardApp) :
  buffer_ok (App.frame_buffer s) ->
  forall e, In e (snd (App.run frames s)) -> call_ok e.
Proof.
  revert s. induction frames as [|inp rest IH]; intros s Hb e He.
  - destruct He.
  - cbn [App.run] in He.
    destruct (tick_spec inp s Hb) as [Hb1 Hc1].
    destruct (App.tick inp s) as [[s1 out] continue].
    cbn [fst snd] in Hb1, Hc1.
    destruct continue.
    + specialize (IH s1 Hb1).
      destruct (App.run rest s1) as [s2 out']. cbn [snd] in He, IH.
      apply in_app_or in He. destruct He as [He|He]; auto.
    + cbn [snd] in He. auto.
Qed.

Lemma recognise_pending c lms (s : App.WhiteboardApp) :
  length (App.frame_buffer (fst (App.recognise c lms s))) < App.sequence_length ->
  snd (App.recognise c lms s) = [].
Proof.
  unfold App.recognise.
  destruct (process_landmarks lms) as [f|]; [|reflexivity].
  set (s1 := App.set_frame_buffer _ s).
  destruct (length (App.frame_buffer s1) =? App.sequence_length) eqn:El;
    [|reflexivity].
  intro H. exfalso. revert H.
  unfold predict_gesture. rewrite El. cbn [negb].
  apply Nat.eqb_eq in El.
  destruct (Qlt_bool (7 # 10) _).
  - destruct (App.handle_gesture _ _ _ _ s1) as [s2 out] eqn:Eh.
    cbn [fst].
    assert (Hfb : App.frame_buffer s2 = App.frame_buffer s1).
    { change s2 with (fst (s2, out)). rewrite <- Eh.
      apply handle_gesture_frame_buffer. }
    rewrite Hfb. lia.
  - cbn [fst]. lia.
Qed.

(** C3.  Whatever frames arrive, the interpreter is only ever called on a
    window of four snapshots of 21 points each.  A snapshot whose point
    count is not 21 is dropped: the object is unchanged, the buffer
    included, and no call is made.  No call is made either while the
    buffer, after the push, holds fewer than four snapshots. *)
Theorem classifier_sees_full_windows :
  forall (frames : list App.FrameInput) (now : Time) (w : list Frame)
         (c : App.Clock) (lms : list Landmark) (s : App.WhiteboardApp),
    (In (Invoke w) (snd (App.run frames (App.__init__ now))) ->
     length w = App.sequence_length
     /\ Forall (fun f : Frame => length f = 21) w)
    /\ (length lms <> 21 -> App.recognise c lms s = (s, []))
    /\ (length (App.frame_buffer (fst (App.recognise c lms s)))
        < App.sequence_length ->
        snd (App.recognise c lms s) = []).
Proof.
  intros. split; [|split].
  - intro H. apply (run_spec frames (App.__init__ now)) in H.
    + exact H.
    + constructor.
  - intro H. unfold App.recognise.
    rewrite (process_landmarks_rejects _ H). reflexivity.
  - apply recognise_pending.
Qed.


(** The window that a new snapshot completes: the three newest of the
    buffer and the new one. *)
Lemma window_after_push (buf : list Frame) (f : Frame) :
  3 <= length buf ->
  Deque.append App.sequence_length buf f = skipn (length buf - 3) buf ++ [f]
  /\ length (Deque.append App.sequence_length buf f) = App.sequence_length.
Proof.
  intro Hl. split.
  - rewrite deque_append_snoc by (unfold App.sequence_length; lia).
    unfold App.sequence_length.
    replace (S (length buf) - 4) with (length buf - 3) by lia. reflexivity.
  - rewrite deque_append_length. unfold App.sequence_length. lia.
Qed.


End Window.

(** ** The view transform *)

Section View.
Context {R : Raster} {I : Interpreter}.

(** [zoom] keeps the zoom factor between 1.0 and 3.0. *)
Lemma zoom_keeps_range now direction (s : App.WhiteboardApp) :
  (1 <= App.zoom_factor s <= 3)%Q ->
  (1 <= App.zoom_factor (App.zoom now direction s) <= 3)%Q.
Proof.
  intros [H1 H3]. unfold App.zoom.
  destruct (String.eqb direction "in"); cbn.
  - split.
    + apply Q.min_glb; lra.
    + apply Q.le_min_l.
  - split.
    + apply Q.le_max_l.
    + apply Q.max_lub; lra.
Qed.

(** [pan] leaves the offsets within the bounds of the current zoom. *)
Lemma pan_clamps (x y : Z) (s : App.WhiteboardApp) :
  App.pan_mode s = true ->
  (1 <= App.zoom_factor s)%Q ->
  offsets_in_bounds (App.pan x y s).
Proof.
  intros Hp Hz. unfold App.pan. rewrite Hp.
  unfold offsets_in_bounds. cbn.
  change (- inject_Z App.canvas_width)%Q with (inject_Z (- App.canvas_width)).
  change (- inject_Z App.canvas_height)%Q with (inject_Z (- App.canvas_height)).
  assert (Hx : (inject_Z (- App.canvas_width) * (App.zoom_factor s - 1) <= 0)%Q).
  { change (inject_Z (- App.canvas_width)) with (- (1200 # 1))%Q. nra. }
  assert (Hy : (inject_Z (- App.canvas_height) * (App.zoom_factor s - 1) <= 0)%Q).
  { change (inject_Z (- App.canvas_height)) with (- (800 # 1))%Q. nra. }
  repeat split.
  - apply Q.le_max_l.
  - apply Q.max_lub; [exact Hx|apply Q.le_min_l].
  - apply Q.le_max_l.
  - apply Q.max_lub; [exact Hy|apply Q.le_min_l].
Qed.

End View.

(** ** The tool state machine *)

Section Tool.
Context {R : Raster} {I : Interpreter}.

Lemma dispatch_anchor_inv now stamp name (s : App.WhiteboardApp) :
  anchor_inv s -> anchor_inv (fst (App.dispatch now stamp name s)).
Proof.
  unfold anchor_inv. destruct s. cbn. intros Hinv. app_methods. cbn.
  split_cases; cbn; intuition congruence.
Qed.

Lemma handle_gesture_anchor_inv t now stamp id (s : App.WhiteboardApp) :
  anchor_inv s -> anchor_inv (fst (App.handle_gesture t now stamp id s)).
Proof.
  intro Hinv. unfold App.handle_gesture.
  destruct (Qlt_bool _ _); [exact Hinv|].
  destruct (negb _); [|exact Hinv].
  apply dispatch_anchor_inv. exact Hinv.
Qed.

Lemma recognise_anchor_inv c lms (s : App.WhiteboardApp) :
  anchor_inv s -> anchor_inv (fst (App.recognise c lms s)).
Proof.
  intro Hinv. unfold App.recognise.
  destruct (process_landmarks lms); [|exact Hinv].
  set (s1 := App.set_frame_buffer _ s).
  assert (H1 : anchor_inv s1) by exact Hinv.
  destruct (_ =? _); [|exact H1].
  destruct (predict_gesture _ _) as [[gesture_id confidence] calls].
  destruct (Qlt_bool _ _); [|exact H1].
  pose proof (handle_gesture_anchor_inv (App.t_gesture c) (App.t_handler c)
                (App.stamp_handler c) gesture_id s1 H1) as H2.
  destruct (App.handle_gesture _ _ _ _ s1). exact H2.
Qed.

Lemma handle_pan_anchor_inv c p (s : App.WhiteboardApp) :
  anchor_inv s -> anchor_inv (App.handle_pan c p s).
Proof.
  unfold anchor_inv, App.handle_pan. destruct s. cbn. intros Hinv.
  app_methods. cbn. split_cases; cbn; intuition congruence.
Qed.

Lemma handle_drawing_anchor_inv p (s : App.WhiteboardApp) :
  anchor_inv s -> anchor_inv (App.handle_drawing p s).
Proof.
  unfold anchor_inv, App.handle_drawing. destruct s. cbn. intros Hinv.
  app_methods. cbn. split_cases; cbn; intuition congruence.
Qed.

Lemma handle_key_anchor_inv c k (s : App.WhiteboardApp) :
  anchor_inv s -> anchor_inv (fst (fst (App.handle_key c k s))).
Proof.
  unfold anchor_inv, App.handle_key. destruct s. cbn. intros Hinv.
  app_methods. cbn. split_cases; cbn; intuition congruence.
Qed.

(** The state after one iteration, block by block. *)
Lemma tick_state inp (s : App.WhiteboardApp) :
  fst (fst (App.tick inp s))
  = let finger_pos := match App.landmarks inp with
                      | Some lms => App.get_index_finger_position lms
                      | None => None
                      end in
    fst (fst (App.handle_key (App.clock inp) (App.key inp)
                (App.handle_drawing finger_pos
                   (App.handle_pan (App.clock inp) finger_pos
                      (match App.landmarks inp with
                       | Some lms => fst (App.recognise (App.clock inp) lms s)
                       | None => s
                       end))))).
Proof.
  unfold App.tick.
  destruct (App.landmarks inp) as [lms|].
  - destruct (App.recognise _ lms s) as [s1 out1].
    destruct (App.handle_key _ _ _) as [[s4 out2] continue]. reflexivity.
  - destruct (App.handle_key _ _ _) as [[s4 out2] continue]. reflexivity.
Qed.

Lemma tick_anchor_inv inp (s : App.WhiteboardApp) :
  anchor_inv s -> anchor_inv (fst (fst (App.tick inp s))).
Proof.
  intro Hinv. rewrite tick_state. cbv zeta.
  apply handle_key_anchor_inv, handle_drawing_anchor_inv, handle_pan_anchor_inv.
  destruct (App.landmarks inp); [apply recognise_anchor_inv|]; exact Hinv.
Qed.

Lemma reachable_anchor_inv (s : App.WhiteboardApp) :
  App.reachable s -> anchor_inv s.
Proof.
  induction 1 as [now|inp s Hs IH].
  - intro H. exfalso. apply H. reflexivity.
  - apply tick_anchor_inv. exact IH.
Qed.

Lemma run_reachable frames (s : App.WhiteboardApp) :
  App.reachable s -> App.reachable (fst (App.run frames s)).
Proof.
  revert s. induction frames as [|inp rest IH]; intros s Hs; [exact Hs|].
  cbn [App.run].
  pose proof (App.reachable_tick inp s Hs) as H1.
  destruct (App.tick inp s) as [[s1 out] continue]. cbn [fst] in H1.
  destruct continue; [|exact H1].
  specialize (IH s1 H1). destruct (App.run rest s1). exact IH.
Qed.

(** The pointer of a frame with a tracked hand. *)
Lemma finger_of_hand (lms : list Landmark) (f : Frame) :
  process_landmarks lms = Some f ->
  exists x y, App.get_index_finger_position lms = Some (x, y).
Proof.
  intro Hp. destruct (process_landmarks_rows _ _ Hp) as [Hl _].
  unfold App.get_index_finger_position.
  destruct lms as [|l0 lms]; [discriminate Hl|].
  rewrite Hl. cbn [Nat.leb].
  destruct (nth_error (l0 :: lms) 8) as [tip|] eqn:E.
  - eauto.
  - apply nth_error_None in E. rewrite Hl in E. lia.
Qed.

Lemma dispatch_pan now stamp (s : App.WhiteboardApp) :
  App.dispatch now stamp "pan" s
  = (App.status now "Pan mode - move hand to pan" s, []).
Proof. reflexivity. Qed.

(** A frame on which the [pan] gesture is accepted: the hand-loop body
    buffers the snapshot, records the gesture and sets the message. *)
Lemma recognise_accepts_pan c lms f (s : App.WhiteboardApp) :
  let window := Deque.append App.sequence_length (App.frame_buffer s) f in
  process_landmarks lms = Some f ->
  3 <= length (App.frame_buffer s) ->
  np_argmax (invoke window) = 10 ->
  (7 # 10 < nth 10 (invoke window) 0)%Q ->
  (App.gesture_cooldown <= App.t_gesture c - App.last_gesture_time s)%Q ->
  App.last_gesture s <> Some "pan" ->
  fst (App.recognise c lms s)
  = App.status (App.t_handler c) "Pan mode - move hand to pan"
      (App.set_last_gesture_time (App.t_gesture c)
         (App.set_last_gesture (Some "pan")
            (App.set_frame_buffer window s))).
Proof.
  intros window Hp Hlen Harg Hconf Hcool Hlast.
  unfold App.recognise. rewrite Hp. fold window.
  cbn [App.frame_buffer App.set_frame_buffer].
  assert (Hfull : length window = App.sequence_length).
  { apply window_after_push. exact Hlen. }
  rewrite (proj2 (Nat.eqb_eq _ _) Hfull).
  unfold predict_gesture. rewrite (proj2 (Nat.eqb_eq _ _) Hfull).
  cbn [negb]. rewrite Harg.
  rewrite (proj2 (Qlt_bool_iff _ _) Hconf).
  rewrite app_accepts.
  - change (dict_get GESTURE_MAP (Some 10) "Unknown") with "pan".
    rewrite dispatch_pan. reflexivity.
  - exact Hcool.
  - change (dict_get GESTURE_MAP (Some 10) "Unknown") with "pan".
    intro E. apply Hlast. symmetry. exact E.
Qed.

(** The pan block under the [pan] gesture with a visible fingertip. *)
Lemma handle_pan_enters c p (s : App.WhiteboardApp) :
  App.last_gesture s = Some "pan" ->
  App.pan_mode (App.handle_pan c (Some p) s) = true
  /\ App.drawing (App.handle_pan c (Some p) s) = App.drawing s
  /\ App.shape_drawing (App.handle_pan c (Some p) s) = App.shape_drawing s
  /\ App.shape_start_point (App.handle_pan c (Some p) s) = App.shape_start_point s
  /\ App.history (App.handle_pan c (Some p) s) = App.history s.
Proof.
  intro Hg. destruct p as [x y]. unfold App.handle_pan. rewrite Hg.
  change (opt_str_eqb (Some "pan") (Some "pan")) with true. cbv iota.
  destruct (App.pan_mode s) eqn:Epm.
  - unfold App.pan. rewrite Epm. repeat split; assumption.
  - repeat split; assumption.
Qed.

(** The drawing block while a freehand stroke is active. *)
Lemma handle_drawing_stroke p (s : App.WhiteboardApp) :
  stroke_active s ->
  stroke_active (App.handle_drawing (Some p) s)
  /\ App.pan_mode (App.handle_drawing (Some p) s) = App.pan_mode s
  /\ App.history (App.handle_drawing (Some p) s) = App.history s.
Proof.
  intros [Hd Hs]. destruct p as [x y].
  assert (E : App.handle_drawing (@Some Point (x, y)) s = App.draw x y s).
  { unfold App.handle_drawing. rewrite Hd, andb_false_r, Hd.
    destruct Hs as [Hs|Hs]; rewrite Hs; [reflexivity|].
    rewrite andb_false_r. reflexivity. }
  rewrite E. unfold stroke_active, App.draw. rewrite Hd.
  destruct (App.shape_drawing s) eqn:Esd; cbn.
  - destruct Hs as [Hs|Hs]; [discriminate Hs|]. auto.
  - auto.
Qed.

Lemma handle_key_none c (s : App.WhiteboardApp) :
  App.handle_key c 255%Z s = (s, [], true).
Proof. reflexivity. Qed.

(** C9, as amended.  In every reachable state a freehand stroke and a
    shape preview with its anchor are not both active.  Panning is not
    kept apart from drawing: when the [pan] gesture is accepted on a frame
    while a stroke is active, the stroke is neither ended nor committed;
    after the frame the stroke is still active, panning is active as well,
    and the undo deque is as it was. *)
Theorem stroke_and_preview_exclusive_pan_is_not :
  forall (s : App.WhiteboardApp),
    App.reachable s ->
    ~ (stroke_active s /\ preview_active s)
    /\ (forall (inp : App.FrameInput) (lms : list Landmark) (f : Frame),
         stroke_active s ->
         App.landmarks inp = Some lms ->
         process_landmarks lms = Some f ->
         3 <= length (App.frame_buffer s) ->
         np_argmax
           (invoke (Deque.append App.sequence_length (App.frame_buffer s) f))
         = 10 ->
         (7 # 10
          < nth 10
              (invoke (Deque.append App.sequence_length (App.frame_buffer s) f))
              0)%Q ->
         (App.gesture_cooldown <= App.t_gesture (App.clock inp)
                                  - App.last_gesture_time s)%Q ->
         App.last_gesture s <> Some "pan" ->
         App.key inp = 255%Z ->
         let s' := fst (fst (App.tick inp s)) in
         stroke_active s' /\ panning s' /\ App.history s' = App.history s).
Proof.
  intros s Hreach. split.
  - intros [[Hd Hs] Hp]. destruct (reachable_anchor_inv s Hreach Hp) as [_ Hs'].
    destruct Hs as [Hs|Hs]; [congruence|exact (Hp Hs)].
  - intros inp lms f Hstroke Hl Hp Hlen Harg Hconf Hcool Hlast Hkey s'.
    unfold s'. rewrite tick_state, Hl, Hkey. cbv zeta.
    destruct (finger_of_hand lms f Hp) as (x & y & Hfinger). rewrite Hfinger.
    rewrite (recognise_accepts_pan _ _ _ _ Hp Hlen Harg Hconf Hcool Hlast).
    set (s1 := App.status _ _ _).
    assert (Hg1 : App.last_gesture s1 = Some "pan") by reflexivity.
    assert (Hst1 : stroke_active s1) by exact Hstroke.
    assert (Hh1 : App.history s1 = App.history s) by reflexivity.
    clearbody s1.
    destruct (handle_pan_enters (App.clock inp) (x, y) s1 Hg1)
      as (Hp2 & Hd2 & Hs2 & Ha2 & Hh2).
    set (s2 := App.handle_pan _ _ s1) in *. clearbody s2.
    assert (Hst2 : stroke_active s2).
    { unfold stroke_active in *. rewrite Hd2, Hs2, Ha2. exact Hst1. }
    destruct (handle_drawing_stroke (x, y) s2 Hst2) as (Hst3 & Hp3 & Hh3).
    rewrite handle_key_none. cbn [fst].
    split; [exact Hst3|]. split.
    + exact (eq_trans Hp3 Hp2).
    + exact (eq_trans Hh3 (eq_trans Hh2 Hh1)).
Qed.

End Tool.

(** ** The frame of a suppressed classification *)

Section SuppressedFrame.
Context {R : Raster} {I : Interpreter}.









End SuppressedFrame.

(** * Further properties *)

(** ** Predicates kept by every method the loop calls *)

Section MethodClosed.
Context {R : Raster} {I : Interpreter}.
Variable P : App.WhiteboardApp -> Prop.

Hypothesis P_status : forall now m s, P s -> P (App.status now m s).
Hypothesis P_frame_buffer : forall v s, P s -> P (App.set_frame_buffer v s).
Hypothesis P_last_gesture :
  forall v t s, P s -> P (App.set_last_gesture_time t (App.set_last_gesture v s)).
Hypothesis P_shape_mode : forall s, P s -> P (App.set_shape_drawing true s).
Hypothesis P_end_drawing : forall s, P s -> P (App.end_drawing s).
Hypothesis P_toggle_erasing : forall now s, P s -> P (App.toggle_erasing now s).
Hypothesis P_zoom : forall now d s, P s -> P (App.zoom now d s).
Hypothesis P_undo : forall now s, P s -> P (App.undo now s).
Hypothesis P_redo : forall now s, P s -> P (App.redo now s).
Hypothesis P_change_color : forall now s, P s -> P (App.change_color now s).
Hypothesis P_save_canvas :
  forall now stamp s, P s -> P (fst (App.save_canvas now stamp s)).
Hypothesis P_clear_canvas : forall now s, P s -> P (App.clear_canvas now s).
Hypothesis P_start_pan : forall now x y s, P s -> P (App.start_pan now x y s).
Hypothesis P_pan : forall x y s, P s -> P (App.pan x y s).
Hypothesis P_end_pan : forall now s, P s -> P (App.end_pan now s).
Hypothesis P_start_drawing : forall x y s, P s -> P (App.start_drawing x y s).
Hypothesis P_draw : forall x y s, P s -> P (App.draw x y s).
Hypothesis P_draw_shape : forall x y s, P s -> P (App.draw_shape x y s).

Lemma closed_dispatch now stamp name (s : App.WhiteboardApp) :
  P s -> P (fst (App.dispatch now stamp name s)).
Proof.
  intro H. unfold App.dispatch.
  repeat match goal with
         | |- context [if String.eqb name ?x then _ else _] =>
             destruct (String.eqb name x)
         end; cbn [fst]; auto.
Qed.

Lemma closed_handle_gesture t now stamp id (s : App.WhiteboardApp) :
  P s -> P (fst (App.handle_gesture t now stamp id s)).
Proof.
  intro H. unfold App.handle_gesture.
  destruct (Qlt_bool _ _); [exact H|].
  destruct (negb _); [|exact H].
  apply closed_dispatch. apply P_last_gesture. exact H.
Qed.

Lemma closed_recognise c lms (s : App.WhiteboardApp) :
  P s -> P (fst (App.recognise c lms s)).
Proof.
  intro H. unfold App.recognise.
  destruct (process_landmarks lms); [|exact H].
  set (s1 := App.set_frame_buffer _ s).
  assert (H1 : P s1) by (apply P_frame_buffer; exact H).
  destruct (_ =? _); [|exact H1].
  destruct (predict_gesture _ _) as [[gesture_id confidence] calls].
  destruct (Qlt_bool _ _); [|exact H1].
  pose proof (closed_handle_gesture (App.t_gesture c) (App.t_handler c)
                (App.stamp_handler c) gesture_id s1 H1) as H2.
  destruct (App.handle_gesture _ _ _ _ s1). exact H2.
Qed.

Lemma closed_handle_pan c p (s : App.WhiteboardApp) :
  P s -> P (App.handle_pan c p s).
Proof.
  intro H. unfold App.handle_pan.
  destruct p as [[x y]|]; split_cases; auto.
Qed.

Lemma closed_handle_drawing p (s : App.WhiteboardApp) :
  P s -> P (App.handle_drawing p s).
Proof.
  intro H. unfold App.handle_drawing.
  destruct p as [[x y]|]; [|exact H].
  destruct (_ && _).
  - destruct (App.drawing _); [|auto]. destruct (_ && _); auto.
  - destruct (App.drawing _); [|auto]. destruct (_ && _); auto.
Qed.

Lemma closed_handle_key c k (s : App.WhiteboardApp) :
  P s -> P (fst (fst (App.handle_key c k s))).
Proof.
  intro H. unfold App.handle_key.
  repeat match goal with
         | |- context [if Z.eqb k ?x then _ else _] => destruct (Z.eqb k x)
         end; cbn [fst]; auto.
  pose proof (P_save_canvas (App.t_key c) (App.stamp_key c) s H) as Hs.
  destruct (App.save_canvas _ _ s). exact Hs.
Qed.

Lemma closed_tick inp (s : App.WhiteboardApp) :
  P s -> P (fst (fst (App.tick inp s))).
Proof.
  intro H. rewrite tick_state. cbv zeta.
  apply closed_handle_key, closed_handle_drawing, closed_handle_pan.
  destruct (App.landmarks inp); [apply closed_recognise|]; exact H.
Qed.

Lemma closed_reachable :
  (forall now, P (App.__init__ now)) ->
  forall s, App.reachable s -> P s.
Proof.
  intros Hinit s Hs. induction Hs as [now|inp s Hs IH].
  - apply Hinit.
  - apply closed_tick. exact IH.
Qed.

End MethodClosed.

(** ** Invariants of the reachable states of [WhiteboardApp] *)

Ltac kept := intros; app_methods; split_cases; assumption.

Section AppInvariants.
Context {R : Raster} {I : Interpreter}.

Lemma hist_inv_push (c : Canvas) (s s' : App.WhiteboardApp) :
  App.history s' = Deque.append App.maxlen (App.history s) c ->
  App.redo_stack s' = [] ->
  hist_inv s'.
Proof.
  intros Hh Hr. unfold hist_inv. rewrite Hh, Hr, deque_append_length.
  unfold App.maxlen. cbn [length]. lia.
Qed.

Lemma hist_inv_undo now (s : App.WhiteboardApp) :
  hist_inv s -> hist_inv (App.undo now s).
Proof.
  intros [H1 H2].
  destruct (le_lt_dec (length (App.history s)) 1) as [Hl|Hl].
  - rewrite undo_noop by exact Hl. split; assumption.
  - destruct (undo_spec now s Hl) as (Hh & _ & _ & Hr).
    unfold hist_inv. rewrite Hh, Hr, removelast_length, deque_append_length.
    unfold App.maxlen in *. lia.
Qed.

Lemma hist_inv_redo now (s : App.WhiteboardApp) :
  hist_inv s -> hist_inv (App.redo now s).
Proof.
  intros [H1 H2].
  destruct (rev (App.redo_stack s)) as [|top older] eqn:E.
  - unfold App.redo. rewrite E. split; assumption.
  - apply rev_cons_inv in E.
    destruct (redo_spec now s _ _ E) as (_ & _ & Hh & Hr).
    unfold hist_inv. rewrite Hh, Hr, deque_append_length.
    rewrite E, length_app in H2. cbn [length] in H2.
    unfold App.maxlen in *. lia.
Qed.

Lemma hist_inv_end_drawing (s : App.WhiteboardApp) :
  hist_inv s -> hist_inv (App.end_drawing s).
Proof.
  intro H. unfold App.end_drawing.
  destruct (App.drawing s); [|exact H].
  cbn [App.shape_drawing App.set_drawing App.erasing].
  destruct (App.shape_drawing s).
  - apply (hist_inv_push (App.temp_canvas s) s); reflexivity.
  - destruct (App.erasing s); [exact H|].
    apply (hist_inv_push (App.canvas s) s); reflexivity.
Qed.

Lemma reachable_hist_inv (s : App.WhiteboardApp) :
  App.reachable s -> hist_inv s.
Proof.
  apply (closed_reachable hist_inv); try kept.
  - exact hist_inv_end_drawing.
  - exact hist_inv_undo.
  - exact hist_inv_redo.
  - intros now s0 _. apply (hist_inv_push App.blank s0); reflexivity.
  - intro now. split; cbn; unfold App.maxlen; lia.
Qed.

End AppInvariants.

Section ViewInvariant.
Context {R : Raster} {I : Interpreter}.

Lemma view_inv_zoom now d (s : App.WhiteboardApp) :
  view_inv s -> view_inv (App.zoom now d s).
Proof.
  intros (H1 & H3 & Hx).
  destruct (zoom_keeps_range now d s (conj H1 H3)) as [Z1 Z3].
  split; [exact Z1|]. split; [exact Z3|].
  unfold App.zoom. destruct (String.eqb d "in"); exact Hx.
Qed.

Lemma view_inv_pan x y (s : App.WhiteboardApp) :
  view_inv s -> view_inv (App.pan x y s).
Proof.
  intros H. unfold App.pan. destruct (App.pan_mode s); [|exact H].
  destruct H as (H1 & H3 & _).
  unfold view_inv. cbn.
  assert (Hx : (inject_Z (- App.canvas_width) * (App.zoom_factor s - 1) <= 0)%Q).
  { change (inject_Z (- App.canvas_width)) with (- (1200 # 1))%Q. nra. }
  assert (Hy : (inject_Z (- App.canvas_height) * (App.zoom_factor s - 1) <= 0)%Q).
  { change (inject_Z (- App.canvas_height)) with (- (800 # 1))%Q. nra. }
  assert (Lx : (- (2 * inject_Z App.canvas_width)
                <= inject_Z (- App.canvas_width) * (App.zoom_factor s - 1))%Q).
  { change (inject_Z (- App.canvas_width)) with (- (1200 # 1))%Q.
    change (inject_Z App.canvas_width) with (1200 # 1)%Q. nra. }
  assert (Ly : (- (2 * inject_Z App.canvas_height)
                <= inject_Z (- App.canvas_height) * (App.zoom_factor s - 1))%Q).
  { change (inject_Z (- App.canvas_height)) with (- (800 # 1))%Q.
    change (inject_Z App.canvas_height) with (800 # 1)%Q. nra. }
  repeat split; try assumption.
  - eapply Qle_trans; [exact Lx|apply Q.le_max_l].
  - apply Q.max_lub; [exact Hx|apply Q.le_min_l].
  - eapply Qle_trans; [exact Ly|apply Q.le_max_l].
  - apply Q.max_lub; [exact Hy|apply Q.le_min_l].
Qed.

Lemma reachable_view_inv (s : App.WhiteboardApp) :
  App.reachable s -> view_inv s.
Proof.
  apply (closed_reachable view_inv); try kept.
  - exact view_inv_zoom.
  - exact view_inv_pan.
  - intro now. unfold view_inv. cbn. repeat split; discriminate.
Qed.

(** Colours: the pen colour is one of the palette. *)
Lemma change_color_in_palette now (s : App.WhiteboardApp) :
  In (App.drawing_color (App.change_color now s)) App.colors.
Proof.
  unfold App.change_color.
  cbn [App.drawing_color App.status App.set_status_expire
       App.set_status_message App.set_drawing_color].
  apply nth_In. apply Nat.mod_upper_bound. discriminate.
Qed.

Lemma reachable_palette (s : App.WhiteboardApp) :
  App.reachable s -> In (App.drawing_color s) App.colors.
Proof.
  apply (closed_reachable (fun s => In (App.drawing_color s) App.colors));
    try kept.
  - intros now s0 _. apply change_color_in_palette.
  - intro now. left. reflexivity.
Qed.

Lemma reachable_shape (s : App.WhiteboardApp) :
  App.reachable s ->
  App.current_shape s = "rectangle" /\ App.shape_index s = 0.
Proof.
  apply (closed_reachable
           (fun s => App.current_shape s = "rectangle" /\ App.shape_index s = 0));
    try kept.
  intro now. split; reflexivity.
Qed.

End ViewInvariant.

(** ** More on the history *)

Section HistoryMore.
Context {R : Raster} {I : Interpreter}.

(** X1.  In every reachable state of [WhiteboardApp] the undo deque holds
    between 1 and 50 snapshots, and deque and redo stack together hold at
    most 50.  So neither push of [undo] and [redo] ever drops a snapshot:
    [undo] puts the newest snapshot on top of the whole redo stack, and
    [redo] puts the top of the redo stack back on the whole deque. *)
Theorem history_never_overflows :
  forall (s : App.WhiteboardApp),
    App.reachable s ->
    1 <= length (App.history s) <= App.maxlen
    /\ length (App.history s) + length (App.redo_stack s) <= App.maxlen
    /\ (forall now, 2 <= length (App.history s) ->
          App.redo_stack (App.undo now s)
          = App.redo_stack s ++ [last (App.history s) (App.canvas s)])
    /\ (forall now older top, App.redo_stack s = older ++ [top] ->
          App.history (App.redo now s) = App.history s ++ [top]).
Proof.
  intros s Hs. destruct (reachable_hist_inv s Hs) as [H1 H2].
  split; [split; [exact H1|lia]|]. split; [exact H2|]. split.
  - intros now Hl. destruct (undo_spec now s Hl) as (_ & _ & _ & Hr).
    rewrite Hr. apply deque_append_room. unfold App.maxlen in *. lia.
  - intros now older top E.
    destruct (redo_spec now s _ _ E) as (_ & _ & Hh & _).
    rewrite Hh. apply deque_append_room.
    rewrite E, length_app in H2. cbn [length] in H2.
    unfold App.maxlen in *. lia.
Qed.

(** X2.  A commit discards what could be redone: right after a
    [clear_all] gesture, and after a [write_stop] gesture that commits (a
    shape, or a stroke that is not an erasure), the redo stack is empty
    and the [redo] gesture leaves the state as it is. *)
Theorem commit_discards_redo :
  forall (now now' : Time) (stamp stamp' : string) (s : App.WhiteboardApp),
    (let c := fst (App.dispatch now stamp "clear_all" s) in
     App.redo_stack c = []
     /\ fst (App.dispatch now' stamp' "redo" c) = c)
    /\ (App.drawing s = true ->
        App.shape_drawing s = true \/ App.erasing s = false ->
        let c := fst (App.dispatch now stamp "write_stop" s) in
        App.redo_stack c = []
        /\ fst (App.dispatch now' stamp' "redo" c) = c).
Proof.
  intros now now' stamp stamp' s. split; [split; reflexivity|].
  intros Hd Hc c.
  assert (E : App.redo_stack c = []).
  { unfold c. cbn [App.dispatch String.eqb Ascii.eqb Bool.eqb fst].
    unfold App.end_drawing. rewrite Hd.
    cbn [App.shape_drawing App.set_drawing App.erasing].
    destruct (App.shape_drawing s); [reflexivity|].
    destruct Hc as [Hc|Hc]; [discriminate Hc|]. rewrite Hc. reflexivity. }
  split; [exact E|].
  change (fst (App.dispatch now' stamp' "redo" c)) with (App.redo now' c).
  unfold App.redo. rewrite E. reflexivity.
Qed.

(** X3.  After at most 49 commits on a fresh application, as many undos
    as there were commits bring back the blank canvas, with the initial
    snapshot alone in the deque; further undos change nothing. *)
Theorem undo_all_commits_reaches_blank :
  forall (now : Time) (cs : list Canvas) (s : App.WhiteboardApp),
    committed cs s ->
    length cs <= 49 ->
    1 <= length cs ->
    let s0 := Nat.iter (length cs) (App.undo now) s in
    App.canvas s0 = App.blank
    /\ App.history s0 = [App.blank]
    /\ App.undo now s0 = s0.
Proof.
  intros now cs s Hc Hl Hl1 s0.
  assert (Hh : App.history s = App.blank :: cs).
  { rewrite (committed_history cs s Hc). cbn [length]. unfold App.maxlen.
    replace (S (length cs) - 50) with 0 by lia. reflexivity. }
  destruct (undone_history now s (length cs)) as [H1 H2].
  { rewrite Hh. cbn [length]. lia. }
  fold s0 in H1, H2.
  assert (Hh0 : App.history s0 = [App.blank]).
  { rewrite H1, Hh. cbn [length].
    replace (S (length cs) - length cs) with 1 by lia. reflexivity. }
  split; [|split].
  - rewrite (H2 Hl1), Hh. cbn [length].
    replace (S (length cs) - length cs - 1) with 0 by lia. reflexivity.
  - exact Hh0.
  - apply undo_noop. rewrite Hh0. cbn [length]. lia.
Qed.

(** [redo] followed by [undo], on the deque and the redo stack. *)
Lemma redo_undo_stacks now now' (s : App.WhiteboardApp) older top :
  App.redo_stack s = older ++ [top] ->
  1 <= length (App.history s) ->
  length (App.history s) + length (App.redo_stack s) <= App.maxlen ->
  App.history (App.undo now' (App.redo now s)) = App.history s
  /\ App.redo_stack (App.undo now' (App.redo now s)) = App.redo_stack s
  /\ App.canvas (App.undo now' (App.redo now s))
     = last (App.history s) (App.canvas s).
Proof.
  intros E H1 H2.
  destruct (redo_spec now s _ _ E) as (_ & _ & Hh & Hr).
  assert (Hlen : length (App.redo_stack s) = S (length older)).
  { rewrite E, length_app. cbn [length]. lia. }
  assert (Hh' : App.history (App.redo now s) = App.history s ++ [top]).
  { rewrite Hh. apply deque_append_room. unfold App.maxlen in *. lia. }
  assert (Hl2 : 2 <= length (App.history (App.redo now s))).
  { rewrite Hh', length_app. cbn [length]. lia. }
  destruct (undo_spec now' _ Hl2) as (Uh & Uc & _ & Ur).
  rewrite Uh, Uc, Ur, Hh', Hr, removelast_last, last_last.
  split; [reflexivity|]. split.
  - rewrite E. apply deque_append_room. unfold App.maxlen in *. lia.
  - apply last_default. exact H1.
Qed.

(** X4.  [redo] then [undo] is a round trip as well: with something to
    redo and the capacity respected, the deque and the redo stack are as
    before, and the canvas shows the newest snapshot of the deque. *)
Theorem redo_then_undo :
  forall (now now' : Time) (s : App.WhiteboardApp),
    App.redo_stack s <> [] ->
    1 <= length (App.history s) ->
    length (App.history s) + length (App.redo_stack s) <= App.maxlen ->
    let s' := App.undo now' (App.redo now s) in
    App.history s' = App.history s
    /\ App.redo_stack s' = App.redo_stack s
    /\ App.canvas s' = last (App.history s) (App.canvas s).
Proof.
  intros now now' s Hne H1 H2 s'.
  destruct (rev (App.redo_stack s)) as [|top older] eqn:E.
  - exfalso. apply Hne. apply (f_equal (@rev Canvas)) in E.
    rewrite rev_involutive in E. exact E.
  - apply rev_cons_inv in E.
    exact (redo_undo_stacks now now' s _ _ E H1 H2).
Qed.

(** [undo] followed by [redo], on the deque and the redo stack. *)
Lemma undo_redo_stacks now now' (s : App.WhiteboardApp) :
  2 <= length (App.history s) ->
  length (App.history s) + length (App.redo_stack s) <= App.maxlen ->
  App.history (App.redo now' (App.undo now s)) = App.history s
  /\ App.redo_stack (App.redo now' (App.undo now s)) = App.redo_stack s
  /\ App.canvas (App.redo now' (App.undo now s))
     = last (App.history s) (App.canvas s).
Proof.
  intros Hl Hcap.
  destruct (undo_spec now s Hl) as (Hh & _ & _ & Hr).
  assert (Hr' : App.redo_stack (App.undo now s)
                = App.redo_stack s ++ [last (App.history s) (App.canvas s)]).
  { rewrite Hr. apply deque_append_room. unfold App.maxlen in *. lia. }
  destruct (redo_spec now' _ _ _ Hr') as (Hc & _ & Hh' & Hr'').
  split; [|split; [exact Hr''|exact Hc]].
  rewrite Hh', Hh, deque_append_room.
  - destruct (rev_two_newest _ Hl) as (top & below & older & E).
    apply rev_cons_inv in E. rewrite E.
    rewrite removelast_last, last_last. reflexivity.
  - rewrite removelast_length. unfold App.maxlen in *. lia.
Qed.

(** What [redo] does to the deque and the redo stack depends on them
    alone. *)
Lemma redo_stacks_only now (s t : App.WhiteboardApp) :
  App.history s = App.history t ->
  App.redo_stack s = App.redo_stack t ->
  App.history (App.redo now s) = App.history (App.redo now t)
  /\ App.redo_stack (App.redo now s) = App.redo_stack (App.redo now t)
  /\ (App.redo_stack s <> [] ->
      App.canvas (App.redo now s) = App.canvas (App.redo now t)).
Proof.
  intros Hh Hr. unfold App.redo. rewrite <- Hr.
  destruct (rev (App.redo_stack s)) as [|top older] eqn:E.
  - split; [exact Hh|]. split; [exact Hr|].
    intro Hne. exfalso. apply Hne. apply (f_equal (@rev Canvas)) in E.
    rewrite rev_involutive in E. exact E.
  - cbn. rewrite Hh. repeat split.
Qed.

Lemma undos_redos_stacks now now' (k : nat) :
  forall s : App.WhiteboardApp,
    k < length (App.history s) ->
    length (App.history s) + length (App.redo_stack s) <= App.maxlen ->
    App.history (Nat.iter k (App.redo now') (Nat.iter k (App.undo now) s))
    = App.history s
    /\ App.redo_stack (Nat.iter k (App.redo now') (Nat.iter k (App.undo now) s))
       = App.redo_stack s
    /\ (1 <= k ->
        App.canvas (Nat.iter k (App.redo now') (Nat.iter k (App.undo now) s))
        = last (App.history s) (App.canvas s)).
Proof.
  induction k as [|k IH]; intros s Hk Hcap.
  - split; [reflexivity|]. split; [reflexivity|lia].
  - rewrite (Nat.iter_succ_r k _ (App.undo now)), Nat.iter_succ.
    assert (Hl : 2 <= length (App.history s)) by lia.
    destruct (undo_spec now s Hl) as (Hh & _ & _ & Hr).
    assert (Hr' : App.redo_stack (App.undo now s)
                  = App.redo_stack s ++ [last (App.history s) (App.canvas s)]).
    { rewrite Hr. apply deque_append_room. unfold App.maxlen in *. lia. }
    destruct (IH (App.undo now s)) as (Ih & Ir & _).
    { rewrite Hh, removelast_length. lia. }
    { rewrite Hh, Hr', removelast_length, length_app. cbn [length].
      unfold App.maxlen in *. lia. }
    set (x := Nat.iter k (App.redo now') (Nat.iter k (App.undo now) (App.undo now s)))
      in *.
    destruct (redo_stacks_only now' x (App.undo now s) Ih Ir) as (Eh & Er & Ec).
    destruct (undo_redo_stacks now now' s Hl Hcap) as (Uh & Ur & Uc).
    split; [rewrite Eh; exact Uh|]. split; [rewrite Er; exact Ur|].
    intros _. rewrite Ec; [exact Uc|].
    rewrite Ir, Hr'. intro E. apply (f_equal (@length Canvas)) in E.
    rewrite length_app in E. cbn [length] in E. lia.
Qed.

(** X5.  Any number of undos that the deque allows, followed by as many
    redos, restores the deque and the redo stack, and shows the newest
    snapshot on the canvas. *)
Theorem undos_then_redos_restore :
  forall (now now' : Time) (k : nat) (s : App.WhiteboardApp),
    1 <= k ->
    k < length (App.history s) ->
    length (App.history s) + length (App.redo_stack s) <= App.maxlen ->
    let s' := Nat.iter k (App.redo now') (Nat.iter k (App.undo now) s) in
    App.history s' = App.history s
    /\ App.redo_stack s' = App.redo_stack s
    /\ App.canvas s' = last (App.history s) (App.canvas s).
Proof.
  intros now now' k s Hk1 Hk Hcap s'.
  destruct (undos_redos_stacks now now' k s Hk Hcap) as (Hh & Hr & Hc).
  split; [exact Hh|]. split; [exact Hr|exact (Hc Hk1)].
Qed.

End HistoryMore.

(** ** More on the view transform, the palette and the shapes *)

Section ViewMore.
Context {R : Raster} {I : Interpreter}.

(** X6.  In every reachable state of [WhiteboardApp] the zoom factor is
    between 1.0 and 3.0 and the offsets are within the bounds of the
    largest zoom factor: [offset_x] in [-2400, 0], [offset_y] in
    [-1600, 0]. *)
Theorem view_stays_in_range :
  forall (s : App.WhiteboardApp),
    App.reachable s ->
    (1 <= App.zoom_factor s /\ App.zoom_factor s <= 3
     /\ - (2400 # 1) <= App.offset_x s /\ App.offset_x s <= 0
     /\ - (1600 # 1) <= App.offset_y s /\ App.offset_y s <= 0)%Q.
Proof.
  intros s Hs. exact (reachable_view_inv s Hs).
Qed.

Lemma zoom_in_factor now (s : App.WhiteboardApp) :
  App.zoom_factor (App.zoom now "in" s) = Qmin 3 (App.zoom_factor s + (2 # 10)).
Proof. reflexivity. Qed.

Lemma zoom_out_factor now (s : App.WhiteboardApp) :
  App.zoom_factor (App.zoom now "out" s) = Qmax 1 (App.zoom_factor s - (2 # 10)).
Proof. reflexivity. Qed.

Lemma zoom_in_steps now (s : App.WhiteboardApp) (n : nat) :
  (App.zoom_factor s <= 3)%Q ->
  (App.zoom_factor (Nat.iter n (App.zoom now "in") s)
   == Qmin 3 (App.zoom_factor s + inject_Z (Z.of_nat n) * (2 # 10)))%Q.
Proof.
  intro H3. induction n as [|n IH].
  - change (Nat.iter 0 (App.zoom now "in") s) with s. cbn [Z.of_nat].
    destruct (Q.min_spec 3 (App.zoom_factor s + inject_Z 0 * (2 # 10)))
      as [[Hlt Heq]|[Hle Heq]]; rewrite Heq.
    + change (inject_Z 0) with 0%Q in Hlt. lra.
    + change (inject_Z 0) with 0%Q. lra.
  - rewrite Nat.iter_succ, zoom_in_factor.
    set (z := App.zoom_factor (Nat.iter n (App.zoom now "in") s)) in *.
    assert (Hq : (inject_Z (Z.of_nat (S n)) == inject_Z (Z.of_nat n) + 1)%Q).
    { rewrite Nat2Z.inj_succ. unfold Z.succ. rewrite inject_Z_plus. reflexivity. }
    set (q := inject_Z (Z.of_nat n)) in *.
    set (q' := inject_Z (Z.of_nat (S n))) in *.
    destruct (Q.min_spec 3 (App.zoom_factor s + q * (2 # 10)))
      as [[Hlt Heq]|[Hle Heq]]; rewrite Heq in IH;
    destruct (Q.min_spec 3 (z + (2 # 10))) as [[Hlt1 Heq1]|[Hle1 Heq1]];
      rewrite Heq1;
    destruct (Q.min_spec 3 (App.zoom_factor s + q' * (2 # 10)))
      as [[Hlt2 Heq2]|[Hle2 Heq2]]; rewrite Heq2; lra.
Qed.

Lemma zoom_out_steps now (s : App.WhiteboardApp) (n : nat) :
  (1 <= App.zoom_factor s)%Q ->
  (App.zoom_factor (Nat.iter n (App.zoom now "out") s)
   == Qmax 1 (App.zoom_factor s - inject_Z (Z.of_nat n) * (2 # 10)))%Q.
Proof.
  intro H1. induction n as [|n IH].
  - change (Nat.iter 0 (App.zoom now "out") s) with s. cbn [Z.of_nat].
    destruct (Q.max_spec 1 (App.zoom_factor s - inject_Z 0 * (2 # 10)))
      as [[Hlt Heq]|[Hle Heq]]; rewrite Heq.
    + change (inject_Z 0) with 0%Q. lra.
    + change (inject_Z 0) with 0%Q in Hle. lra.
  - rewrite Nat.iter_succ, zoom_out_factor.
    set (z := App.zoom_factor (Nat.iter n (App.zoom now "out") s)) in *.
    assert (Hq : (inject_Z (Z.of_nat (S n)) == inject_Z (Z.of_nat n) + 1)%Q).
    { rewrite Nat2Z.inj_succ. unfold Z.succ. rewrite inject_Z_plus. reflexivity. }
    set (q := inject_Z (Z.of_nat n)) in *.
    set (q' := inject_Z (Z.of_nat (S n))) in *.
    destruct (Q.max_spec 1 (App.zoom_factor s - q * (2 # 10)))
      as [[Hlt Heq]|[Hle Heq]]; rewrite Heq in IH;
    destruct (Q.max_spec 1 (z - (2 # 10))) as [[Hlt1 Heq1]|[Hle1 Heq1]];
      rewrite Heq1;
    destruct (Q.max_spec 1 (App.zoom_factor s - q' * (2 # 10)))
      as [[Hlt2 Heq2]|[Hle2 Heq2]]; rewrite Heq2; lra.
Qed.

(** X7.  [zoom] saturates at both ends of its range.  From any zoom
    factor between 1.0 and 3.0, a zoom-in does not lower the factor and
    does not pass 3.0, a zoom-out does not raise it and does not pass
    1.0; eleven or more zoom-ins give 3.0 and eleven or more zoom-outs
    give 1.0.  Every direction other than ["in"] zooms out.  (The steps
    are counted with one to spare: the statement does not rest on the sum
    of ten steps of 0.2 being exactly 2.0.) *)
Theorem zoom_saturates_at_both_ends :
  forall (now : Time) (s : App.WhiteboardApp),
    (1 <= App.zoom_factor s)%Q ->
    (App.zoom_factor s <= 3)%Q ->
    (App.zoom_factor s <= App.zoom_factor (App.zoom now "in" s)
     /\ App.zoom_factor (App.zoom now "in" s) <= 3)%Q
    /\ (1 <= App.zoom_factor (App.zoom now "out" s)
        /\ App.zoom_factor (App.zoom now "out" s) <= App.zoom_factor s)%Q
    /\ (forall n, 11 <= n ->
          (App.zoom_factor (Nat.iter n (App.zoom now "in") s) == 3)%Q)
    /\ (forall n, 11 <= n ->
          (App.zoom_factor (Nat.iter n (App.zoom now "out") s) == 1)%Q)
    /\ (forall direction, direction <> "in" ->
          App.zoom_factor (App.zoom now direction s)
          = App.zoom_factor (App.zoom now "out" s)).
Proof.
  intros now s H1 H3. split; [|split; [|split; [|split]]].
  - rewrite zoom_in_factor.
    destruct (Q.min_spec 3 (App.zoom_factor s + (2 # 10)))
      as [[Hlt Heq]|[Hle Heq]]; rewrite Heq; split; lra.
  - rewrite zoom_out_factor.
    destruct (Q.max_spec 1 (App.zoom_factor s - (2 # 10)))
      as [[Hlt Heq]|[Hle Heq]]; rewrite Heq; split; lra.
  - intros n Hn. rewrite (zoom_in_steps now s n H3).
    assert (Hq : (11 <= inject_Z (Z.of_nat n))%Q).
    { change 11%Q with (inject_Z 11). rewrite <- Zle_Qle. lia. }
    destruct (Q.min_spec 3 (App.zoom_factor s + inject_Z (Z.of_nat n) * (2 # 10)))
      as [[Hlt Heq]|[Hle Heq]]; rewrite Heq; lra.
  - intros n Hn. rewrite (zoom_out_steps now s n H1).
    assert (Hq : (11 <= inject_Z (Z.of_nat n))%Q).
    { change 11%Q with (inject_Z 11). rewrite <- Zle_Qle. lia. }
    destruct (Q.max_spec 1 (App.zoom_factor s - inject_Z (Z.of_nat n) * (2 # 10)))
      as [[Hlt Heq]|[Hle Heq]]; rewrite Heq; lra.
  - intros direction Hd. unfold App.zoom.
    apply String.eqb_neq in Hd. rewrite Hd. reflexivity.
Qed.

End ViewMore.

Section PanPaletteShape.
Context {R : Raster} {I : Interpreter}.

(** X8.  In a reachable state in pan mode, a pan motion leaves the offsets
    within the bounds of the current zoom factor; at zoom factor 1.0 they
    are 0 after it, whatever the motion. *)
Theorem pan_motion_is_clamped :
  forall (x y : Z) (s : App.WhiteboardApp),
    App.reachable s ->
    App.pan_mode s = true ->
    offsets_in_bounds (App.pan x y s)
    /\ ((App.zoom_factor s == 1)%Q ->
        (App.offset_x (App.pan x y s) == 0)%Q
        /\ (App.offset_y (App.pan x y s) == 0)%Q).
Proof.
  intros x y s Hs Hp.
  destruct (reachable_view_inv s Hs) as (H1 & _).
  pose proof (pan_clamps x y s Hp H1) as Hb.
  split; [exact Hb|].
  intro Hz. destruct Hb as (Hx1 & Hx2 & Hy1 & Hy2).
  assert (Ez : App.zoom_factor (App.pan x y s) = App.zoom_factor s).
  { unfold App.pan. rewrite Hp. reflexivity. }
  rewrite Ez in Hx1, Hy1.
  change (- inject_Z App.canvas_width)%Q with (- (1200 # 1))%Q in Hx1.
  change (- inject_Z App.canvas_height)%Q with (- (800 # 1))%Q in Hy1.
  split; nra.
Qed.

Lemma change_color_next now (s : App.WhiteboardApp) :
  App.drawing_color (App.change_color now s) = next_color (App.drawing_color s).
Proof. reflexivity. Qed.

Lemma change_color_iter now (n : nat) (s : App.WhiteboardApp) :
  App.drawing_color (Nat.iter n (App.change_color now) s)
  = Nat.iter n next_color (App.drawing_color s).
Proof.
  induction n as [|n IH]; [reflexivity|].
  rewrite !Nat.iter_succ, change_color_next, IH. reflexivity.
Qed.

(** X9.  The pen colour of a reachable state is one of the six colours of
    the palette.  [change_color] steps through the palette in its order
    and wraps around: six changes bring back the colour one started from;
    from a colour that is not in the palette the next colour is the second
    of the palette (green). *)
Theorem palette_cycles :
  forall (now : Time) (s : App.WhiteboardApp),
    (App.reachable s -> In (App.drawing_color s) App.colors)
    /\ (forall i, i < 6 ->
          App.drawing_color s = nth i App.colors (0, 0, 255)%Z ->
          App.drawing_color (App.change_color now s)
          = nth ((i + 1) mod 6) App.colors (0, 0, 255)%Z)
    /\ (In (App.drawing_color s) App.colors ->
        App.drawing_color (Nat.iter 6 (App.change_color now) s)
        = App.drawing_color s)
    /\ (~ In (App.drawing_color s) App.colors ->
        App.drawing_color (App.change_color now s) = (0, 255, 0)%Z).
Proof.
  intros now s. split; [apply reachable_palette|]. split; [|split].
  - intros i Hi Hc. rewrite change_color_next, Hc.
    do 6 (destruct i as [|i]; [reflexivity|]). lia.
  - intro Hin. rewrite change_color_iter.
    cbn in Hin. repeat (destruct Hin as [Hin|Hin]; [rewrite <- Hin; reflexivity|]).
    destruct Hin.
  - intro Hn. rewrite change_color_next.
    assert (E : App.color_index (App.drawing_color s) App.colors = 0).
    { assert (G : forall l, ~ In (App.drawing_color s) l ->
                            App.color_index (App.drawing_color s) l = 0).
      { induction l as [|d l IH]; intro Hl; [reflexivity|].
        cbn [App.color_index].
        destruct (App.color_eqb d (App.drawing_color s)); [reflexivity|].
        destruct (existsb _ l) eqn:Ex; [|reflexivity].
        exfalso. apply existsb_exists in Ex. destruct Ex as (c & Hc & Ec).
        apply Hl. right.
        assert (c = App.drawing_color s).
        { destruct c as [[c1 c2] c3]. destruct (App.drawing_color s) as [[a1 a2] a3].
          cbn in Ec. apply andb_prop in Ec. destruct Ec as [Ec E3].
          apply andb_prop in Ec. destruct Ec as [E1 E2].
          apply Z.eqb_eq in E1, E2, E3. subst. reflexivity. }
        subst c. exact Hc. }
      apply G. exact Hn. }
    unfold next_color. rewrite E. reflexivity.
Qed.

(** X10.  Nothing in the loop calls [change_shape]: in every reachable
    state the shape kind is the rectangle, so a preview with the anchor
    set is the committed canvas with one rectangle from the anchor to the
    pointer. *)
Theorem shape_is_always_rectangle :
  forall (s : App.WhiteboardApp) (anchor : Point) (x y : Z),
    App.reachable s ->
    App.current_shape s = "rectangle"
    /\ App.shape_index s = 0
    /\ (App.shape_start_point s = Some anchor ->
        App.temp_canvas (App.draw_shape x y s)
        = cv2_rectangle (App.canvas s) anchor (x, y)
            (if App.erasing s then App.eraser_color else App.drawing_color s)
            (if App.erasing s then App.eraser_thickness else App.line_thickness)).
Proof.
  intros s anchor x y Hs. destruct (reachable_shape s Hs) as [Hc Hi].
  split; [exact Hc|]. split; [exact Hi|].
  intro Ha. unfold App.draw_shape. rewrite Ha. destruct anchor as [sx sy].
  cbn [App.current_shape App.set_temp_canvas App.erasing App.drawing_color
       App.temp_canvas].
  rewrite Hc. reflexivity.
Qed.

End PanPaletteShape.

(** ** More on the window and the classifier *)

Section WindowMore.
Context {R : Raster} {I : Interpreter}.

Lemma recognise_frame_buffer c lms (s : App.WhiteboardApp) :
  App.frame_buffer (fst (App.recognise c lms s))
  = match process_landmarks lms with
    | Some f => Deque.append App.sequence_length (App.frame_buffer s) f
    | None => App.frame_buffer s
    end.
Proof.
  unfold App.recognise.
  destruct (process_landmarks lms) as [f|]; [|reflexivity].
  set (s1 := App.set_frame_buffer _ s).
  destruct (_ =? _); [|reflexivity].
  destruct (predict_gesture _ _) as [[gesture_id confidence] calls].
  destruct (Qlt_bool _ _); [|reflexivity].
  pose proof (handle_gesture_frame_buffer (App.t_gesture c) (App.t_handler c)
                (App.stamp_handler c) gesture_id s1) as H.
  destruct (App.handle_gesture _ _ _ _ s1). exact H.
Qed.

Lemma tick_continues inp (s : App.WhiteboardApp) :
  App.key inp <> App.ord "q" -> snd (App.tick inp s) = true.
Proof.
  intro Hk. unfold App.tick.
  destruct (match App.landmarks inp with
            | Some lms => App.recognise (App.clock inp) lms s
            | None => (s, [])
            end) as [s1 out1].
  set (s3 := App.handle_drawing _ _).
  unfold App.handle_key.
  destruct (Z.eqb (App.key inp) (App.ord "q")) eqn:E.
  - apply Z.eqb_eq in E. contradiction.
  - repeat match goal with
           | |- context [if Z.eqb ?k ?x then _ else _] => destruct (Z.eqb k x)
           end; reflexivity.
Qed.

(** The newest [m] of a list that already is the newest [m] of a longer
    one. *)
Lemma keep_app {A : Type} (m : nat) (l l' : list A) :
  skipn (length (skipn (length l - m) l ++ l') - m) (skipn (length l - m) l ++ l')
  = skipn (length (l ++ l') - m) (l ++ l').
Proof.
  assert (E : skipn (length l - m) l ++ l' = skipn (length l - m) (l ++ l')).
  { rewrite skipn_app.
    replace (length l - m - length l) with 0 by lia. reflexivity. }
  rewrite E, skipn_skipn, length_skipn, !length_app.
  f_equal. lia.
Qed.

Lemma run_frame_buffer frames :
  forall (s : App.WhiteboardApp) (l : list Frame),
    Forall (fun inp => App.key inp <> App.ord "q") frames ->
    App.frame_buffer s = skipn (length l - 4) l ->
    App.frame_buffer (fst (App.run frames s))
    = skipn (length (l ++ snapshots frames) - 4) (l ++ snapshots frames).
Proof.
  induction frames as [|inp rest IH]; intros s l Hk Hb.
  - cbn. rewrite app_nil_r. exact Hb.
  - inversion Hk as [|? ? Hq Hrest]; subst.
    cbn [App.run].
    pose proof (tick_frame_buffer inp s) as Ht.
    pose proof (tick_continues inp s Hq) as Hc.
    destruct (App.tick inp s) as [[s1 out] continue].
    cbn [fst snd] in Ht, Hc. subst continue.
    assert (Hb1 : exists l1,
               App.frame_buffer s1 = skipn (length l1 - 4) l1
               /\ l1 ++ snapshots rest = l ++ snapshots (inp :: rest)).
    { unfold snapshots at 2. cbn [flat_map]. fold (snapshots rest).
      destruct (App.landmarks inp) as [lms|].
      - rewrite recognise_frame_buffer in Ht.
        destruct (process_landmarks lms) as [f|].
        + exists (l ++ [f]). split.
          * rewrite Ht, Hb. unfold Deque.append, App.sequence_length.
            apply keep_app.
          * rewrite <- app_assoc. reflexivity.
        + exists l. split; [congruence|reflexivity].
      - exists l. split; [congruence|reflexivity]. }
    destruct Hb1 as (l1 & Hl1 & El).
    specialize (IH s1 l1 Hrest Hl1).
    destruct (App.run rest s1) as [s2 out']. cbn [fst] in *.
    rewrite IH, El. reflexivity.
Qed.

(** X11.  The buffer is a sliding window: after any frames (none of which
    ends the loop with [q]), it holds the newest four of the snapshots it
    held before followed by the valid snapshots of the frames, in order;
    frames without a hand and snapshots of a wrong size are skipped. *)
Theorem window_holds_newest_four :
  forall (frames : list App.FrameInput) (s : App.WhiteboardApp),
    Forall (fun inp => App.key inp <> App.ord "q") frames ->
    length (App.frame_buffer s) <= 4 ->
    App.frame_buffer (fst (App.run frames s))
    = skipn (length (App.frame_buffer s ++ snapshots frames) - 4)
        (App.frame_buffer s ++ snapshots frames).
Proof.
  intros frames s Hk Hl. apply run_frame_buffer; [exact Hk|].
  replace (length (App.frame_buffer s) - 4) with 0 by lia. reflexivity.
Qed.

Lemma invocations_app (a b : list Effect) :
  invocations (a ++ b) = invocations a ++ invocations b.
Proof. apply flat_map_app. Qed.

Lemma dispatch_invocations now stamp name (s : App.WhiteboardApp) :
  invocations (snd (App.dispatch now stamp name s)) = [].
Proof. unfold App.dispatch, App.save_canvas. split_cases; reflexivity. Qed.

Lemma handle_gesture_invocations t now stamp id (s : App.WhiteboardApp) :
  invocations (snd (App.handle_gesture t now stamp id s)) = [].
Proof.
  unfold App.handle_gesture.
  destruct (Qlt_bool _ _); [reflexivity|].
  destruct (negb _); [|reflexivity].
  apply dispatch_invocations.
Qed.

Lemma handle_key_invocations c k (s : App.WhiteboardApp) :
  invocations (snd (fst (App.handle_key c k s))) = [].
Proof. unfold App.handle_key, App.save_canvas. split_cases; reflexivity. Qed.

Lemma recognise_invocations c lms (s : App.WhiteboardApp) :
  invocations (snd (App.recognise c lms s))
  = match process_landmarks lms with
    | Some f =>
        if 3 <=? length (App.frame_buffer s)
        then [Deque.append App.sequence_length (App.frame_buffer s) f]
        else []
    | None => []
    end.
Proof.
  unfold App.recognise.
  destruct (process_landmarks lms) as [f|]; [|reflexivity].
  cbn [App.frame_buffer App.set_frame_buffer].
  set (w := Deque.append App.sequence_length (App.frame_buffer s) f).
  assert (Hw : length w = Nat.min (S (length (App.frame_buffer s))) 4).
  { unfold w. apply deque_append_length. }
  destruct (3 <=? length (App.frame_buffer s)) eqn:E3.
  - apply Nat.leb_le in E3.
    assert (Hfull : (length w =? App.sequence_length) = true).
    { apply Nat.eqb_eq. rewrite Hw. unfold App.sequence_length. lia. }
    rewrite Hfull. unfold predict_gesture. rewrite Hfull. cbn [negb].
    destruct (Qlt_bool _ _); [|reflexivity].
    pose proof (handle_gesture_invocations (App.t_gesture c) (App.t_handler c)
                  (App.stamp_handler c) (Some (np_argmax (invoke w)))
                  (App.set_frame_buffer w s)) as Hg.
    destruct (App.handle_gesture _ _ _ _ _) as [s2 out].
    cbn [snd] in *. cbn [invocations flat_map app].
    fold (invocations out). rewrite Hg. reflexivity.
  - apply Nat.leb_gt in E3.
    assert (Hpart : (length w =? App.sequence_length) = false).
    { apply Nat.eqb_neq. rewrite Hw. unfold App.sequence_length. lia. }
    rewrite Hpart. reflexivity.
Qed.

(** X12.  One frame makes at most one interpreter call, and makes it
    exactly when a valid snapshot arrives with at least three snapshots
    buffered: the call is on the window completed by that snapshot.
    Nothing else in the iteration (handlers, keys) calls the
    interpreter. *)
Theorem one_classification_per_completed_window :
  forall (inp : App.FrameInput) (s : App.WhiteboardApp),
    invocations (snd (fst (App.tick inp s)))
    = match App.landmarks inp with
      | Some lms =>
          match process_landmarks lms with
          | Some f =>
              if 3 <=? length (App.frame_buffer s)
              then [Deque.append App.sequence_length (App.frame_buffer s) f]
              else []
          | None => []
          end
      | None => []
      end.
Proof.
  intros inp s. rewrite tick_calls, invocations_app, handle_key_invocations,
    app_nil_r.
  destruct (App.landmarks inp) as [lms|]; [|reflexivity].
  apply recognise_invocations.
Qed.

(** X13.  The confidence gate: when the window is complete and the largest
    probability is at most 0.7, the interpreter has been called and the
    snapshot buffered, and nothing else has changed; no handler runs. *)
Theorem low_confidence_only_buffers :
  forall (c : App.Clock) (lms : list Landmark) (f : Frame)
         (s : App.WhiteboardApp),
    process_landmarks lms = Some f ->
    3 <= length (App.frame_buffer s) ->
    let w := Deque.append App.sequence_length (App.frame_buffer s) f in
    (nth (np_argmax (invoke w)) (invoke w) 0 <= 7 # 10)%Q ->
    App.recognise c lms s = (App.set_frame_buffer w s, [Invoke w]).
Proof.
  intros c lms f s Hp Hl w Hconf.
  unfold App.recognise. rewrite Hp.
  cbn [App.frame_buffer App.set_frame_buffer]. fold w.
  assert (Hfull : (length w =? App.sequence_length) = true).
  { apply Nat.eqb_eq. apply window_after_push. exact Hl. }
  rewrite Hfull. unfold predict_gesture. rewrite Hfull. cbn [negb].
  rewrite (proj2 (Qlt_bool_false_iff _ _) Hconf). reflexivity.
Qed.

End WindowMore.

(** ** More on the classifier adapter and the debouncer of [app.py] *)

Section AdapterMore.
Context {R : Raster} {I : Interpreter}.

Lemma argmax_from_spec (l : list Q) :
  forall (pre : list Q) (best : nat),
    best < length pre ->
    Forall (fun v => (v <= nth best pre 0)%Q) pre ->
    (forall j, j < best -> (nth j pre 0 < nth best pre 0)%Q) ->
    argmax_from best (nth best pre 0%Q) (length pre) l < length (pre ++ l)
    /\ Forall (fun v =>
                 (v <= nth (argmax_from best (nth best pre 0%Q) (length pre) l)
                         (pre ++ l) 0)%Q) (pre ++ l)
    /\ (forall j,
          j < argmax_from best (nth best pre 0%Q) (length pre) l ->
          (nth j (pre ++ l) 0
           < nth (argmax_from best (nth best pre 0%Q) (length pre) l)
               (pre ++ l) 0)%Q).
Proof.
  induction l as [|v l IH]; intros pre best Hb Hmax Hfirst.
  - cbn [argmax_from]. rewrite app_nil_r. auto.
  - assert (Hlen : length (pre ++ [v]) = S (length pre)).
    { rewrite length_app. cbn [length]. lia. }
    assert (Happ : (pre ++ [v]) ++ l = pre ++ v :: l).
    { rewrite <- app_assoc. reflexivity. }
    cbn [argmax_from].
    destruct (Qlt_bool (nth best pre 0%Q) v) eqn:E.
    + apply Qlt_bool_iff in E.
      assert (Hv : nth (length pre) (pre ++ [v]) 0%Q = v).
      { rewrite app_nth2 by lia. rewrite Nat.sub_diag. reflexivity. }
      assert (IH' := IH (pre ++ [v]) (length pre)).
      rewrite Hv, Hlen, Happ in IH'. apply IH'.
      * lia.
      * apply Forall_app. split.
        -- eapply Forall_impl; [|exact Hmax]. intros a Ha.
           apply Qlt_le_weak. eapply Qle_lt_trans; [exact Ha|exact E].
        -- constructor; [apply Qle_refl|constructor].
      * intros j Hj. rewrite app_nth1 by lia.
        eapply Qle_lt_trans; [|exact E].
        rewrite Forall_forall in Hmax. apply Hmax. apply nth_In. lia.
    + apply Qlt_bool_false_iff in E.
      assert (Hbest : nth best (pre ++ [v]) 0%Q = nth best pre 0%Q).
      { apply app_nth1. exact Hb. }
      assert (IH' := IH (pre ++ [v]) best).
      rewrite Hbest, Hlen, Happ in IH'. apply IH'.
      * lia.
      * apply Forall_app. split; [exact Hmax|].
        constructor; [exact E|constructor].
      * intros j Hj. rewrite app_nth1 by lia. apply Hfirst. exact Hj.
Qed.

Lemma np_argmax_spec (l : list Q) :
  l <> [] ->
  np_argmax l < length l
  /\ Forall (fun v => (v <= nth (np_argmax l) l 0)%Q) l
  /\ (forall j, j < np_argmax l -> (nth j l 0 < nth (np_argmax l) l 0)%Q).
Proof.
  destruct l as [|v l]; [congruence|]. intros _.
  apply (argmax_from_spec l [v] 0).
  - cbn [length]. lia.
  - constructor; [apply Qle_refl|constructor].
  - intros j Hj. lia.
Qed.

(** X14.  [predict_gesture] calls the interpreter on a window of four
    snapshots and on no other.  The class it reports is a position of the
    output vector, the confidence is the entry there, no entry is larger,
    and every entry before it is smaller (ties go to the first). *)
Theorem predict_gesture_reports_the_maximum :
  forall (input_data : list Frame),
    (length input_data <> 4 ->
     predict_gesture 4 input_data = (None, 0%Q, []))
    /\ (length input_data = 4 ->
        invoke input_data <> [] ->
        exists c conf,
          predict_gesture 4 input_data = (Some c, conf, [Invoke input_data])
          /\ c < length (invoke input_data)
          /\ conf = nth c (invoke input_data) 0%Q
          /\ Forall (fun v => (v <= conf)%Q) (invoke input_data)
          /\ (forall j, j < c -> (nth j (invoke input_data) 0 < conf)%Q)).
Proof.
  intro input_data. split.
  - intro H. unfold predict_gesture.
    apply Nat.eqb_neq in H. rewrite H. reflexivity.
  - intros H Hne. unfold predict_gesture.
    rewrite (proj2 (Nat.eqb_eq _ _) H). cbn [negb].
    destruct (np_argmax_spec _ Hne) as (H1 & H2 & H3).
    eexists. eexists. split; [reflexivity|]. auto.
Qed.

Lemma dict_get_out_of_range (n : nat) :
  12 <= n -> dict_get GESTURE_MAP (Some n) "Unknown" = "Unknown".
Proof.
  intro H. do 12 (destruct n as [|n]; [lia|]). reflexivity.
Qed.

(** X15.  A class index outside the table (12 or more, or no class at
    all) is the gesture [Unknown]: once it passes the cooldown it is
    recorded as the last gesture with its time and no handler runs, so
    nothing else changes; recorded, it lets the gesture emitted before
    it be dispatched again after the next cooldown. *)
Theorem unknown_class_only_resets_the_debouncer :
  forall (t now : Time) (stamp : string) (n : nat) (s : App.WhiteboardApp),
    12 <= n ->
    (App.gesture_cooldown <= t - App.last_gesture_time s)%Q ->
    App.last_gesture s <> Some "Unknown" ->
    let s' := App.set_last_gesture_time t
                (App.set_last_gesture (Some "Unknown") s) in
    App.handle_gesture t now stamp (Some n) s = (s', [])
    /\ App.handle_gesture t now stamp None s = (s', [])
    /\ (forall t' now' stamp' id,
          (App.gesture_cooldown <= t' - t)%Q ->
          Some (dict_get GESTURE_MAP (Some id) "Unknown") = App.last_gesture s ->
          App.handle_gesture t' now' stamp' (Some id) s'
          = App.dispatch now' stamp' (dict_get GESTURE_MAP (Some id) "Unknown")
              (App.set_last_gesture_time t' (App.set_last_gesture
                 (Some (dict_get GESTURE_MAP (Some id) "Unknown")) s'))).
Proof.
  intros t now stamp n s Hn Hc Hl s'.
  assert (Hne : Some "Unknown" <> App.last_gesture s)
    by (intro E; apply Hl; symmetry; exact E).
  split; [|split].
  - rewrite app_accepts; rewrite ?dict_get_out_of_range by exact Hn;
      [reflexivity|exact Hc|exact Hne].
  - rewrite app_accepts; [reflexivity|exact Hc|exact Hne].
  - intros t' now' stamp' id Hc' Hid.
    apply app_accepts; [exact Hc'|].
    cbn [App.last_gesture App.set_last_gesture_time App.set_last_gesture].
    rewrite Hid. exact Hl.
Qed.

(** X16.  In [app.py] a held pose is dispatched once: after a class has
    been accepted, the same class again, any number of times and at any
    times, changes nothing. *)
Theorem held_pose_is_dispatched_once :
  forall (t now : Time) (stamp : string) (id : option nat)
         (readings : list (Time * Time * string)) (s : App.WhiteboardApp),
    (App.gesture_cooldown <= t - App.last_gesture_time s)%Q ->
    Some (dict_get GESTURE_MAP id "Unknown") <> App.last_gesture s ->
    let s1 := fst (App.handle_gesture t now stamp id s) in
    App.last_gesture s1 = Some (dict_get GESTURE_MAP id "Unknown")
    /\ fold_left
         (fun s r => fst (App.handle_gesture (fst (fst r)) (snd (fst r)) (snd r) id s))
         readings s1
       = s1.
Proof.
  intros t now stamp id readings s Hc Hn s1.
  assert (H1 : App.last_gesture s1 = Some (dict_get GESTURE_MAP id "Unknown")).
  { unfold s1. rewrite (app_accepts _ _ _ _ _ Hc Hn).
    destruct (dispatch_last_gesture now stamp (dict_get GESTURE_MAP id "Unknown")
                (App.set_last_gesture_time t
                   (App.set_last_gesture
                      (Some (dict_get GESTURE_MAP id "Unknown")) s))) as [E _].
    exact E. }
  split; [exact H1|].
  clearbody s1. induction readings as [|r readings IH]; [reflexivity|].
  cbn [fold_left]. rewrite app_suppresses; [exact IH|].
  right. symmetry. exact H1.
Qed.

End AdapterMore.

(** ** More on the loop of [app.py] *)

Section LoopMore.
Context {R : Raster} {I : Interpreter}.

Lemma handle_pan_last_gesture c p (s : App.WhiteboardApp) :
  App.last_gesture (App.handle_pan c p s) = App.last_gesture s
  /\ App.last_gesture_time (App.handle_pan c p s) = App.last_gesture_time s.
Proof. unfold App.handle_pan. split; frame_solve. Qed.

Lemma handle_drawing_last_gesture p (s : App.WhiteboardApp) :
  App.last_gesture (App.handle_drawing p s) = App.last_gesture s
  /\ App.last_gesture_time (App.handle_drawing p s) = App.last_gesture_time s
  /\ App.pan_mode (App.handle_drawing p s) = App.pan_mode s.
Proof. unfold App.handle_drawing. repeat split; frame_solve. Qed.

Lemma handle_key_last_gesture c k (s : App.WhiteboardApp) :
  App.last_gesture (fst (fst (App.handle_key c k s))) = App.last_gesture s
  /\ App.last_gesture_time (fst (fst (App.handle_key c k s)))
     = App.last_gesture_time s
  /\ App.pan_mode (fst (fst (App.handle_key c k s))) = App.pan_mode s
  /\ App.drawing (fst (fst (App.handle_key c k s))) = App.drawing s
  /\ App.shape_drawing (fst (fst (App.handle_key c k s))) = App.shape_drawing s.
Proof. unfold App.handle_key. repeat split; frame_solve. Qed.

(** The pan block leaves pan mode on only under the [pan] gesture. *)
Lemma handle_pan_establishes c p (s : App.WhiteboardApp) :
  App.pan_mode (App.handle_pan c p s) = true ->
  App.last_gesture (App.handle_pan c p s) = Some "pan".
Proof.
  destruct (handle_pan_last_gesture c p s) as [El _]. rewrite El.
  unfold App.handle_pan.
  destruct p as [[x y]|].
  - destruct (opt_str_eqb (App.last_gesture s) (Some "pan")) eqn:E.
    + intros _. apply opt_str_eqb_iff. exact E.
    + destruct (App.pan_mode s) eqn:Ep; cbn; congruence.
  - destruct (App.pan_mode s) eqn:Ep; cbn; congruence.
Qed.

(** X17.  Panning is active only under the [pan] gesture: in every
    reachable state with [pan_mode] set the last gesture is [pan].  A
    frame without a hand ends it. *)
Theorem panning_needs_the_pan_gesture :
  forall (s : App.WhiteboardApp),
    App.reachable s ->
    (App.pan_mode s = true -> App.last_gesture s = Some "pan")
    /\ (forall inp, App.landmarks inp = None ->
          App.pan_mode (fst (fst (App.tick inp s))) = false).
Proof.
  intros s Hs. split.
  - destruct Hs as [now|inp s Hs]; [discriminate|].
    rewrite tick_state. cbv zeta.
    set (fp := match App.landmarks inp with
               | Some lms => App.get_index_finger_position lms
               | None => None
               end).
    set (s1 := match App.landmarks inp with
               | Some lms => fst (App.recognise (App.clock inp) lms s)
               | None => s
               end).
    destruct (handle_key_last_gesture (App.clock inp) (App.key inp)
                (App.handle_drawing fp (App.handle_pan (App.clock inp) fp s1)))
      as (Kl & _ & Kp & _).
    destruct (handle_drawing_last_gesture fp
                (App.handle_pan (App.clock inp) fp s1)) as (Dl & _ & Dp).
    rewrite Kl, Kp, Dl, Dp. apply handle_pan_establishes.
  - intros inp Hl. rewrite tick_state, Hl. cbv zeta.
    destruct (handle_key_last_gesture (App.clock inp) (App.key inp)
                (App.handle_drawing None (App.handle_pan (App.clock inp) None s)))
      as (_ & _ & Kp & _).
    rewrite Kp. cbn [App.handle_drawing App.handle_pan].
    destruct (App.pan_mode s) eqn:E; [reflexivity|exact E].
Qed.

Lemma tick_untouched now inp (s : App.WhiteboardApp) :
  (App.t_gesture (App.clock inp) - now < App.gesture_cooldown)%Q ->
  untouched now s -> untouched now (fst (fst (App.tick inp s))).
Proof.
  intros Ht (Hl & Hn & Hd & Hp & Hs).
  rewrite tick_state. cbv zeta.
  set (fp := match App.landmarks inp with
             | Some lms => App.get_index_finger_position lms
             | None => None
             end).
  set (s1 := match App.landmarks inp with
             | Some lms => fst (App.recognise (App.clock inp) lms s)
             | None => s
             end).
  assert (H1 : untouched now s1).
  { unfold s1. destruct (App.landmarks inp) as [lms|];
      [|repeat split; assumption].
    unfold App.recognise.
    destruct (process_landmarks lms); [|repeat split; assumption].
    destruct (_ =? _); [|repeat split; assumption].
    destruct (predict_gesture _ _) as [[gesture_id confidence] calls].
    destruct (Qlt_bool _ _); [|repeat split; assumption].
    rewrite app_suppresses; [repeat split; assumption|].
    left. cbn [App.last_gesture_time App.set_frame_buffer]. rewrite Hn. exact Ht. }
  clearbody s1. clear Hl Hn Hd Hp Hs. destruct H1 as (Hl & Hn & Hd & Hp & Hs).
  assert (E2 : App.handle_pan (App.clock inp) fp s1 = s1).
  { unfold App.handle_pan. rewrite Hl, Hp. destruct fp as [[x y]|]; reflexivity. }
  assert (E3 : App.handle_drawing fp s1 = s1).
  { unfold App.handle_drawing. destruct fp as [[x y]|]; [|reflexivity].
    rewrite Hl. change (opt_str_eqb None (Some "write_start")) with false.
    cbn [andb]. rewrite Hd. reflexivity. }
  rewrite E2, E3.
  destruct (handle_key_last_gesture (App.clock inp) (App.key inp) s1)
    as (Kl & Kt & Kp & Kd & Ks).
  unfold untouched. rewrite Kl, Kt, Kp, Kd, Ks. repeat split; assumption.
Qed.

(** X18.  The application is deaf to gestures during its first second:
    [__init__] starts the cooldown, so as long as the frames come less
    than 1.0 s after the start no gesture is recorded or acted upon;
    nothing is being drawn, panned or previewed. *)
Theorem no_gesture_in_the_first_second :
  forall (now : Time) (frames : list App.FrameInput),
    Forall (fun inp =>
              (App.t_gesture (App.clock inp) - now < App.gesture_cooldown)%Q)
           frames ->
    let s := fst (App.run frames (App.__init__ now)) in
    App.last_gesture s = None
    /\ App.drawing s = false
    /\ App.pan_mode s = false
    /\ App.shape_drawing s = false.
Proof.
  intros now frames Hf s.
  assert (H : forall s0, untouched now s0 ->
                         untouched now (fst (App.run frames s0))).
  { induction frames as [|inp rest IH]; intros s0 H0; [exact H0|].
    inversion Hf as [|? ? Hinp Hrest]; subst.
    cbn [App.run].
    pose proof (tick_untouched now inp s0 Hinp H0) as H1.
    destruct (App.tick inp s0) as [[s1 out] continue]. cbn [fst] in H1.
    destruct continue; [|exact H1].
    specialize (IH Hrest s1 H1). destruct (App.run rest s1). exact IH. }
  destruct (H (App.__init__ now)) as (Hl & _ & Hd & Hp & Hs).
  { repeat split. }
  auto.
Qed.

Lemma py_int_bounds (q : Q) (n : Z) :
  (0 <= q)%Q -> (q <= inject_Z n)%Q -> (0 <= py_int q <= n)%Z.
Proof.
  unfold py_int, Qle. destruct q as [a b]. cbn. intros H0 Hn.
  rewrite Z.mul_1_r in H0. 
  rewrite Z.quot_div_nonneg by lia. split.
  - apply Z.div_pos; lia.
  - apply Z.div_le_upper_bound; lia.
Qed.

(** X19.  The pointer is landmark 8 scaled to the canvas: for a hand with
    at least 9 landmarks whose landmark 8 has both coordinates between 0
    and 1, the pointer exists, with [x] between 0 and 1200 and [y] between
    0 and 800 (both ends included).  With fewer than 9 landmarks there is
    no pointer. *)
Theorem pointer_is_on_the_canvas :
  forall (lms : list Landmark) (tip : Landmark),
    (length lms < 9 -> App.get_index_finger_position lms = None)
    /\ (nth_error lms 8 = Some tip ->
        (0 <= lm_x tip)%Q -> (lm_x tip <= 1)%Q ->
        (0 <= lm_y tip)%Q -> (lm_y tip <= 1)%Q ->
        exists x y,
          App.get_index_finger_position lms = Some (x, y)
          /\ (0 <= x <= App.canvas_width)%Z
          /\ (0 <= y <= App.canvas_height)%Z).
Proof.
  intros lms tip. split.
  - intro Hl. unfold App.get_index_finger_position.
    destruct lms as [|l0 lms]; [reflexivity|].
    apply Nat.leb_gt in Hl. rewrite Hl. reflexivity.
  - intros Ht Hx0 Hx1 Hy0 Hy1.
    assert (Hl : 9 <= length lms).
    { assert (8 < length lms); [|lia]. apply nth_error_Some. congruence. }
    unfold App.get_index_finger_position.
    destruct lms as [|l0 lms]; [cbn in Hl; lia|].
    rewrite (proj2 (Nat.leb_le _ _) Hl), Ht.
    eexists. eexists. split; [reflexivity|]. split.
    + apply py_int_bounds;
        change (inject_Z App.canvas_width) with (1200 # 1)%Q; nra.
    + apply py_int_bounds;
        change (inject_Z App.canvas_height) with (800 # 1)%Q; nra.
Qed.

Lemma end_drawing_fields (s : App.WhiteboardApp) :
  App.drawing (App.end_drawing s) = false
  /\ App.shape_start_point (App.end_drawing s) = None
  /\ App.temp_canvas (App.end_drawing s) = App.canvas (App.end_drawing s).
Proof.
  unfold App.end_drawing. cbv zeta.
  destruct (App.drawing s) eqn:Ed; [|repeat split; exact Ed].
  repeat split; frame_solve.
Qed.

Lemma settled_fixpoint (s : App.WhiteboardApp) :
  App.shape_start_point s = None ->
  App.temp_canvas s = App.canvas s ->
  App.set_shape_start_point None (App.set_temp_canvas (App.canvas s) s) = s.
Proof.
  destruct s. cbn. intros -> ->. reflexivity.
Qed.

(** X20.  [end_drawing] leaves the application idle, whatever it found:
    not drawing, no anchor, the preview surface equal to the canvas; done
    twice it does what it does once.  The end of an erasing freehand
    stroke pushes no snapshot. *)
Theorem end_drawing_settles :
  forall (s : App.WhiteboardApp),
    App.drawing (App.end_drawing s) = false
    /\ App.shape_start_point (App.end_drawing s) = None
    /\ App.temp_canvas (App.end_drawing s) = App.canvas (App.end_drawing s)
    /\ App.end_drawing (App.end_drawing s) = App.end_drawing s
    /\ (App.shape_drawing s = false -> App.erasing s = true ->
        App.history (App.end_drawing s) = App.history s
        /\ App.canvas (App.end_drawing s) = App.canvas s).
Proof.
  intro s. destruct (end_drawing_fields s) as (Hd & Ha & Ht).
  split; [exact Hd|]. split; [exact Ha|]. split; [exact Ht|]. split.
  - unfold App.end_drawing at 1. cbv zeta. rewrite Hd.
    apply settled_fixpoint; assumption.
  - intros Hs He. unfold App.end_drawing. cbv zeta.
    destruct (App.drawing s); [|split; reflexivity].
    cbn [App.shape_drawing App.set_drawing App.erasing].
    rewrite Hs, He. split; reflexivity.
Qed.

(** X21.  A preview shows the latest shape only: re-rendering at a new
    pointer position gives what rendering there directly would have
    given. *)
Theorem preview_shows_the_latest_shape :
  forall (x y x' y' : Z) (s : App.WhiteboardApp),
    App.draw_shape x' y' (App.draw_shape x y s) = App.draw_shape x' y' s.
Proof.
  intros x y x' y' s.
  rewrite (draw_shape_frame x y s).
  unfold App.draw_shape.
  cbn [App.shape_start_point App.set_temp_canvas App.canvas App.erasing
       App.drawing_color App.current_shape App.temp_canvas].
  destruct (App.shape_start_point s) as [[sx sy]|]; [|].
  - split_cases; reflexivity.
  - destruct s; reflexivity.
Qed.

End LoopMore.

(** ** The camera loop of [gesture_backend.py] *)

Section BackendLoop.
Context {R : Raster} {I : Interpreter}.

Lemma backend_debounce_event t name conf tip (s : Backend.GestureRecognitionBackend) :
  (Backend.last_gesture_time s
   <= Backend.last_gesture_time (fst (Backend.debounce t name conf tip s)))%Q
  /\ match snd (Backend.debounce t name conf tip s) with
     | Some g =>
         Backend.timestamp g = t
         /\ Backend.confidence g = conf
         /\ Backend.last_gesture_time
              (fst (Backend.debounce t name conf tip s)) = t
         /\ (Backend.gesture_cooldown < t - Backend.last_gesture_time s)%Q
     | None => True
     end.
Proof.
  unfold Backend.debounce.
  destruct (Qlt_bool _ _) eqn:E; cbn.
  - apply Qlt_bool_iff in E. split; [|auto].
    unfold Backend.gesture_cooldown in E. lra.
  - split; [lra|exact Logic.I].
Qed.

Lemma process_frame_event lms t (s : Backend.GestureRecognitionBackend) :
  (Backend.last_gesture_time s
   <= Backend.last_gesture_time (fst (fst (Backend.process_frame lms t s))))%Q
  /\ match snd (fst (Backend.process_frame lms t s)) with
     | Some g =>
         Backend.timestamp g = t
         /\ (7 # 10 < Backend.confidence g)%Q
         /\ Backend.last_gesture_time
              (fst (fst (Backend.process_frame lms t s))) = t
         /\ (Backend.gesture_cooldown < t - Backend.last_gesture_time s)%Q
     | None => True
     end.
Proof.
  unfold Backend.process_frame.
  destruct lms as [l|]; [|cbn; split; [lra|exact Logic.I]].
  destruct (process_landmarks l) as [f|]; [|cbn; split; [lra|exact Logic.I]].
  cbv zeta.
  destruct (_ =? _); [|cbn; split; [lra|exact Logic.I]].
  destruct (predict_gesture _ _) as [[predicted_class conf] calls].
  destruct predicted_class as [c|]; [|cbn; split; [lra|exact Logic.I]].
  destruct (Qlt_bool (7 # 10) conf) eqn:Ec; [|cbn; split; [lra|exact Logic.I]].
  apply Qlt_bool_iff in Ec.
  match goal with
  | |- context [Backend.debounce t ?n conf ?tip ?s1] =>
      pose proof (backend_debounce_event t n conf tip s1) as H;
      destruct (Backend.debounce t n conf tip s1) as [s2 g]
  end.
  cbn [fst snd] in *. destruct H as [H1 H2].
  split; [exact H1|].
  destruct g as [g|]; [|exact Logic.I].
  destruct H2 as (Ht & Hc & Hl & Hd). rewrite Hc. auto.
Qed.

Lemma camera_loop_spaced (frames : list Backend.CameraFrame) :
  forall (s : Backend.GestureRecognitionBackend) (t : Time),
    (t <= Backend.last_gesture_time s)%Q ->
    Forall (fun g =>
              (Backend.gesture_cooldown < Backend.timestamp g - t)%Q
              /\ (7 # 10 < Backend.confidence g)%Q)
           (snd (Backend.camera_loop frames s))
    /\ StronglySorted apart (snd (Backend.camera_loop frames s)).
Proof.
  induction frames as [|fr rest IH]; intros s t Ht.
  - cbn. split; constructor.
  - cbn [Backend.camera_loop].
    destruct (negb (Backend.ret fr)); [apply IH; exact Ht|].
    pose proof (process_frame_event (Backend.cam_landmarks fr)
                  (Backend.cam_time fr) s) as [H1 H2].
    destruct (Backend.process_frame _ _ s) as [[s1 g] calls].
    cbn [fst snd] in H1, H2.
    assert (Ht1 : (t <= Backend.last_gesture_time s1)%Q) by lra.
    destruct (IH s1 t Ht1) as [IHa IHs].
    assert (Hsent :
      forall out,
        Forall (fun g0 =>
                  (Backend.gesture_cooldown < Backend.timestamp g0 - t)%Q
                  /\ (7 # 10 < Backend.confidence g0)%Q) out ->
        StronglySorted apart out ->
        (forall g0, g = Some g0 -> Forall (apart g0) out) ->
        let sent := match g with
                    | Some g0 => if Backend.has_clients fr then [g0] else []
                    | None => []
                    end in
        Forall (fun g0 =>
                  (Backend.gesture_cooldown < Backend.timestamp g0 - t)%Q
                  /\ (7 # 10 < Backend.confidence g0)%Q) (sent ++ out)
        /\ StronglySorted apart (sent ++ out)).
    { intros out Ha Hs Hg. destruct g as [g0|]; [|split; assumption].
      destruct (Backend.has_clients fr); [|split; assumption].
      destruct H2 as (Hts & Hc & Hl & Hd).
      cbn [app]. split.
      - constructor; [|exact Ha]. split; [|exact Hc]. rewrite Hts. lra.
      - constructor; [exact Hs|]. apply Hg. reflexivity. }
    assert (IHb : forall g0, g = Some g0 ->
                   Forall (apart g0) (snd (Backend.camera_loop rest s1))).
    { intros g0 ->. destruct H2 as (Hts & Hc & Hl & Hd).
      destruct (IH s1 (Backend.timestamp g0)) as [IHb _].
      { rewrite Hts, Hl. lra. }
      eapply Forall_impl; [|exact IHb]. intros a [Ha _]. exact Ha. }
    destruct (Backend.cam_key fr =? 113)%Z.
    + cbn [snd].
      specialize (Hsent [] (Forall_nil _) (SSorted_nil _)
                    (fun _ _ => Forall_nil _)).
      cbv zeta in Hsent. rewrite app_nil_r in Hsent. exact Hsent.
    + destruct (Backend.camera_loop rest s1) as [s2 out]. cbn [snd] in *.
      apply Hsent; assumption.
Qed.

(** X22.  The messages the camera loop of the backend hands to its
    clients are sparse and confident: any two of them carry timestamps
    more than 0.5 s apart (the later after the earlier), whatever the
    gestures are, and each reports a confidence above 0.7. *)
Theorem broadcasts_are_spaced_and_confident :
  forall (frames : list Backend.CameraFrame),
    let out := snd (Backend.camera_loop frames Backend.__init__) in
    StronglySorted apart out
    /\ Forall (fun g => (7 # 10 < Backend.confidence g)%Q
                        /\ (Backend.gesture_cooldown < Backend.timestamp g)%Q)
              out.
Proof.
  intros frames out.
  destruct (camera_loop_spaced frames Backend.__init__ 0%Q) as [Ha Hs].
  { cbn. lra. }
  split; [exact Hs|].
  eapply Forall_impl; [|exact Ha].
  intros g [H1 H2]. split; [exact H2|]. lra.
Qed.

End BackendLoop.

(** ** The history of [whiteboard_app.py] *)

Section WhiteboardHistory.
Context {R : Raster} {I : Interpreter}.

Ltac wb_gesture :=
  unfold Whiteboard.handle_gesture;
  repeat match goal with
         | |- context [String.eqb ?a ?b] => destruct (String.eqb a b)
         end.

Lemma wb_inv_handle_gesture now name (s : Whiteboard.GestureWhiteboard) :
  wb_inv s -> wb_inv (fst (Whiteboard.handle_gesture now name s)).
Proof.
  intros [Hh Hc]. wb_gesture; cbn [fst]; try (split; assumption).
  - (* write_stop *)
    destruct (Whiteboard.drawing s); [|split; assumption].
    split; [|exact Hc]. right.
    cbn [Whiteboard.history Whiteboard.history_index Whiteboard.set_history
         Whiteboard.set_history_index Whiteboard.set_drawing Whiteboard.canvas].
    rewrite length_app. cbn [length]. lia.
  - (* change_color *)
    split; [exact Hh|].
    cbn [Whiteboard.current_colour_idx Whiteboard.set_current_colour_idx].
    apply Nat.mod_upper_bound. discriminate.
  - (* undo *)
    destruct (0 <? Whiteboard.history_index s)%Z eqn:E; [|split; assumption].
    apply Z.ltb_lt in E. split; [|exact Hc]. right.
    cbn [fst Whiteboard.history Whiteboard.history_index Whiteboard.set_canvas
         Whiteboard.set_history_index].
    destruct Hh as [[_ Hi]|Hi]; lia.
  - (* redo *)
    destruct (Whiteboard.history_index s <? _)%Z eqn:E; [|split; assumption].
    apply Z.ltb_lt in E. split; [|exact Hc]. right.
    cbn [fst Whiteboard.history Whiteboard.history_index Whiteboard.set_canvas
         Whiteboard.set_history_index].
    destruct Hh as [[_ Hi]|Hi]; lia.
Qed.

Lemma wb_inv_debounce t now name (s : Whiteboard.GestureWhiteboard) :
  wb_inv s -> wb_inv (fst (Whiteboard.debounce t now name s)).
Proof.
  intro H. unfold Whiteboard.debounce.
  destruct (_ || _); [|exact H].
  apply wb_inv_handle_gesture. exact H.
Qed.

Lemma wb_inv_recognise t now lms (s : Whiteboard.GestureWhiteboard) :
  wb_inv s -> wb_inv (fst (Whiteboard.recognise t now lms s)).
Proof.
  intro H. unfold Whiteboard.recognise. cbv zeta.
  set (s1 := match process_landmarks lms with
             | Some processed => _
             | None => s
             end).
  assert (H1 : wb_inv s1).
  { unfold s1. destruct (process_landmarks lms); exact H. }
  clearbody s1.
  destruct (_ =? _); [|exact H1].
  destruct (predict_gesture _ _) as [[predicted_class confidence] calls].
  destruct predicted_class as [c|]; [|exact H1].
  destruct (Qlt_bool _ _); [|exact H1].
  pose proof (wb_inv_debounce t now (dict_get GESTURE_MAP (Some c) "unknown")
                s1 H1) as H2.
  destruct (Whiteboard.debounce _ _ _ s1). exact H2.
Qed.

Lemma wb_inv_handle_drawing lms (s : Whiteboard.GestureWhiteboard) :
  wb_inv s -> wb_inv (Whiteboard.handle_drawing lms s).
Proof.
  intro H. unfold Whiteboard.handle_drawing.
  destruct (nth_error lms 8); [|exact H].
  cbv zeta. destruct (Whiteboard.drawing s); exact H.
Qed.

Lemma reachable_wb_inv (s : Whiteboard.GestureWhiteboard) :
  Whiteboard.reachable s -> wb_inv s.
Proof.
  induction 1 as [|lms t now s Hs IH].
  - split; [left; split; reflexivity|cbn; lia].
  - unfold Whiteboard.tick. destruct lms as [l|]; [|exact IH].
    pose proof (wb_inv_recognise t now l s IH) as H1.
    destruct (Whiteboard.recognise t now l s) as [s1 out].
    cbn [fst] in *. apply wb_inv_handle_drawing. exact H1.
Qed.

(** X23.  In the simpler whiteboard the index into the history and the
    colour index never leave their lists: in every state the loop can
    reach, [history_index] is a position of [history] (or -1 while it is
    empty) and [current_colour_idx] is below 7; so [undo] and [redo]
    either leave the canvas alone or set it to a snapshot of the
    history. *)
Theorem whiteboard_indices_stay_in_range :
  forall (s : Whiteboard.GestureWhiteboard),
    Whiteboard.reachable s ->
    wb_inv s
    /\ forall (now : Time) (name : string),
         name = "undo" \/ name = "redo" ->
         let s1 := fst (Whiteboard.handle_gesture now name s) in
         s1 = s \/ In (Whiteboard.canvas s1) (Whiteboard.history s).
Proof.
  intros s Hs. pose proof (reachable_wb_inv s Hs) as [Hh Hc].
  split; [split; assumption|].
  intros now name [-> | ->]; cbv zeta; unfold Whiteboard.handle_gesture;
    cbn [String.eqb Ascii.eqb Bool.eqb].
  - destruct (0 <? Whiteboard.history_index s)%Z eqn:E; [|left; reflexivity].
    apply Z.ltb_lt in E. right.
    cbn [fst Whiteboard.canvas Whiteboard.set_canvas Whiteboard.history
         Whiteboard.history_index Whiteboard.set_history_index].
    apply nth_In. destruct Hh as [[_ Hi]|Hi]; lia.
  - destruct (Whiteboard.history_index s <? _)%Z eqn:E; [|left; reflexivity].
    apply Z.ltb_lt in E. right.
    cbn [fst Whiteboard.canvas Whiteboard.set_canvas Whiteboard.history
         Whiteboard.history_index Whiteboard.set_history_index].
    apply nth_In. destruct Hh as [[_ Hi]|Hi]; lia.
Qed.

(** X24.  [undo] followed by [redo] in the simpler whiteboard: when there
    is something to undo ([history_index] above 0), [undo] shows the
    snapshot before the current one, and [redo] then shows the current
    snapshot again, with index and history as they were.  With
    [history_index] at 0 or -1, so also after the first completed stroke,
    [undo] does nothing. *)
Theorem whiteboard_undo_then_redo :
  forall (now now' : Time) (s : Whiteboard.GestureWhiteboard),
    Whiteboard.reachable s ->
    let i := Whiteboard.history_index s in
    let s1 := fst (Whiteboard.handle_gesture now "undo" s) in
    let s2 := fst (Whiteboard.handle_gesture now' "redo" s1) in
    ((0 < i)%Z ->
       nth_error (Whiteboard.history s) (Z.to_nat (i - 1))
         = Some (Whiteboard.canvas s1)
       /\ nth_error (Whiteboard.history s) (Z.to_nat i)
         = Some (Whiteboard.canvas s2)
       /\ Whiteboard.history_index s2 = i
       /\ Whiteboard.history s2 = Whiteboard.history s)
    /\ ((i <= 0)%Z -> s1 = s).
Proof.
  intros now now' s Hs i s1 s2.
  pose proof (reachable_wb_inv s Hs) as [Hh _].
  subst s2 s1. unfold Whiteboard.handle_gesture at 2 4 5 6.
  unfold Whiteboard.handle_gesture.
  cbn [String.eqb Ascii.eqb Bool.eqb]. fold i. split.
  - intro Hi. assert (Hlen : (i < Z.of_nat (length (Whiteboard.history s)))%Z).
    { destruct Hh as [[_ Hm]|Hm]; [fold i in Hm|fold i in Hm]; lia. }
    rewrite (proj2 (Z.ltb_lt 0 i) Hi).
    cbn [fst Whiteboard.canvas Whiteboard.set_canvas Whiteboard.history
         Whiteboard.history_index Whiteboard.set_history_index].
    assert (E : (i - 1 <? Z.of_nat (length (Whiteboard.history s)) - 1)%Z = true)
      by (apply Z.ltb_lt; lia).
    rewrite E.
    cbn [fst Whiteboard.canvas Whiteboard.set_canvas Whiteboard.history
         Whiteboard.history_index Whiteboard.set_history_index].
    replace (i - 1 + 1)%Z with i by lia.
    repeat split.
    + apply nth_error_nth'. lia.
    + apply nth_error_nth'. lia.
  - intro Hi. rewrite (proj2 (Z.ltb_ge 0 i) Hi). reflexivity.
Qed.

(** X25.  A completed stroke in the simpler whiteboard discards the redo
    branch: [write_stop] while drawing cuts the history after the current
    snapshot, appends the canvas and points at it, so a following [redo]
    does nothing; so does a second [write_stop]. *)
Theorem whiteboard_stroke_discards_redo :
  forall (now now' : Time) (s : Whiteboard.GestureWhiteboard),
    Whiteboard.drawing s = true ->
    let s1 := fst (Whiteboard.handle_gesture now "write_stop" s) in
    Whiteboard.history s1
      = firstn (Z.to_nat (Whiteboard.history_index s + 1)) (Whiteboard.history s)
        ++ [Whiteboard.canvas s]
    /\ Whiteboard.history_index s1
       = (Z.of_nat (length (Whiteboard.history s1)) - 1)%Z
    /\ Whiteboard.handle_gesture now' "redo" s1 = (s1, [])
    /\ Whiteboard.handle_gesture now' "write_stop" s1 = (s1, []).
Proof.
  intros now now' s Hd s1. subst s1.
  unfold Whiteboard.handle_gesture.
  cbn [String.eqb Ascii.eqb Bool.eqb]. rewrite Hd.
  cbn [fst Whiteboard.canvas Whiteboard.set_canvas Whiteboard.history
       Whiteboard.history_index Whiteboard.set_history_index
       Whiteboard.set_history Whiteboard.set_drawing Whiteboard.drawing].
  repeat split.
  rewrite Z.ltb_irrefl. reflexivity.
Qed.

End WhiteboardHistory.

(** ** The rule-based recogniser of [gesture_integration_example.py] *)

Section RuleBased.

Lemma Qlt_bool_reflect (a b : Q) :
  (Qlt_bool a b = true /\ (a < b)%Q) \/ (Qlt_bool a b = false /\ ~ (a < b)%Q).
Proof.
  destruct (Qlt_bool a b) eqn:E.
  - left. split; [reflexivity|]. apply Qlt_bool_iff. exact E.
  - right. split; [reflexivity|]. apply Qlt_bool_false_iff in E.
    intro H. exact (Qlt_not_le _ _ H E).
Qed.

Lemma landmark_at_nth_error (landmarks : list Landmark) (i : nat) :
  i < length landmarks ->
  nth_error landmarks i = Some (landmark_at landmarks i).
Proof. intro H. apply nth_error_nth'. exact H. Qed.

Ltac decide_pose :=
  repeat match goal with
         | |- context [list_eq_dec ?d ?a ?b] =>
             destruct (list_eq_dec d a b) as [?E|?E];
             [try discriminate|try (exfalso; apply E; reflexivity)]
         end.

(** X26.  The rule-based recogniser reads five finger tests off the hand
    and answers by this table: [draw] exactly for the index finger alone,
    [erase] exactly for index and middle finger alone, [clear] exactly
    for no finger, [undo] exactly for all five, and [none] for any other
    pose.  A list of fewer than 21 landmarks is an error. *)
Theorem detect_gesture_table :
  forall (landmarks : list Landmark),
    (length landmarks < 21 -> Integration.detect_gesture landmarks = None)
    /\ (21 <= length landmarks ->
        let t := thumb_up landmarks in
        let i := finger_up landmarks 8 5 in
        let m := finger_up landmarks 12 9 in
        let r := finger_up landmarks 16 13 in
        let p := finger_up landmarks 20 17 in
        exists g,
          Integration.detect_gesture landmarks = Some g
          /\ In g ["draw"; "erase"; "clear"; "undo"; "none"]
          /\ (g = "draw" <-> ~ t /\ i /\ ~ m /\ ~ r /\ ~ p)
          /\ (g = "erase" <-> ~ t /\ i /\ m /\ ~ r /\ ~ p)
          /\ (g = "clear" <-> ~ t /\ ~ i /\ ~ m /\ ~ r /\ ~ p)
          /\ (g = "undo" <-> t /\ i /\ m /\ r /\ p)).
Proof.
  intro landmarks. split.
  - intro H. unfold Integration.detect_gesture.
    assert (E : nth_error landmarks 20 = None) by (apply nth_error_None; lia).
    rewrite E.
    repeat match goal with
           | |- context [match ?x with Some _ => _ | None => _ end] =>
               destruct x
           end; reflexivity.
  - intros H t i m r p. subst t i m r p.
    unfold Integration.detect_gesture, thumb_up, finger_up.
    rewrite !landmark_at_nth_error by lia.
    cbv zeta. cbn [map fst snd].
    destruct (Qlt_bool_reflect (lm_x (landmark_at landmarks 3))
                (lm_x (landmark_at landmarks 4))) as [[-> Ht]|[-> Ht]];
    destruct (Qlt_bool_reflect (lm_y (landmark_at landmarks 8))
                (lm_y (landmark_at landmarks 5))) as [[-> Hi]|[-> Hi]];
    destruct (Qlt_bool_reflect (lm_y (landmark_at landmarks 12))
                (lm_y (landmark_at landmarks 9))) as [[-> Hm]|[-> Hm]];
    destruct (Qlt_bool_reflect (lm_y (landmark_at landmarks 16))
                (lm_y (landmark_at landmarks 13))) as [[-> Hr]|[-> Hr]];
    destruct (Qlt_bool_reflect (lm_y (landmark_at landmarks 20))
                (lm_y (landmark_at landmarks 17))) as [[-> Hp]|[-> Hp]];
    decide_pose; cbn [list_sum fold_right Nat.add Nat.eqb];
    (eexists; split; [reflexivity|]);
    (split; [cbn; tauto|]);
    repeat split; intros; try discriminate; try tauto.
Qed.

Lemma detect_gesture_defined (landmarks : list Landmark) :
  21 <= length landmarks ->
  exists g, Integration.detect_gesture landmarks = Some g.
Proof.
  intro H. unfold Integration.detect_gesture.
  rewrite !landmark_at_nth_error by lia. cbv zeta.
  repeat match goal with
         | |- context [if ?b then _ else _] => destruct b
         end; eexists; reflexivity.
Qed.

(** X27.  What the integration loop sends for a hand of 21 landmarks
    whose index finger tip has both coordinates between 0 and 1: nothing
    exactly when the recogniser answers [none]; otherwise the gesture,
    with the tip scaled to the 1200 x 800 canvas ([x] between 0 and 1200,
    [y] between 0 and 800) and the fixed confidence 0.9. *)
Theorem gesture_message_is_on_the_canvas :
  forall (landmarks : list Landmark),
    21 <= length landmarks ->
    (0 <= lm_x (landmark_at landmarks 8))%Q ->
    (lm_x (landmark_at landmarks 8) <= 1)%Q ->
    (0 <= lm_y (landmark_at landmarks 8))%Q ->
    (lm_y (landmark_at landmarks 8) <= 1)%Q ->
    match Integration.gesture_message landmarks with
    | Some (g, (x, y), c) =>
        Integration.detect_gesture landmarks = Some g
        /\ g <> "none"
        /\ (0 <= x <= 1200)%Z /\ (0 <= y <= 800)%Z
        /\ c = (9 # 10)%Q
    | None => Integration.detect_gesture landmarks = Some "none"
    end.
Proof.
  intros landmarks Hl Hx0 Hx1 Hy0 Hy1.
  destruct (detect_gesture_defined landmarks Hl) as (g & Hg).
  unfold Integration.gesture_message. rewrite Hg.
  rewrite (landmark_at_nth_error landmarks 8) by lia.
  destruct (String.eqb g "none") eqn:E; cbn [negb].
  - apply String.eqb_eq in E. subst g. reflexivity.
  - apply String.eqb_neq in E. repeat split; try assumption.
    + apply (py_int_bounds _ 1200); [nra|change (inject_Z 1200) with (1200 # 1)%Q; nra].
    + apply (py_int_bounds _ 1200); [nra|change (inject_Z 1200) with (1200 # 1)%Q; nra].
    + apply (py_int_bounds _ 800); [nra|change (inject_Z 800) with (800 # 1)%Q; nra].
    + apply (py_int_bounds _ 800); [nra|change (inject_Z 800) with (800 # 1)%Q; nra].
Qed.

End RuleBased.

(** * Worked runs

    The front ends on concrete frames, with the stand-ins of [Fake]. *)

Section Runs.

#[local] Existing Instance Fake.raster.
#[local] Existing Instance Fake.classifier.

Lemma run_of_init_reachable (t : Z) (frames : list App.FrameInput) :
  App.reachable (Fake.app_run frames (Fake.app_init t)).
Proof. apply run_reachable. apply App.reachable_init. Qed.

(** *** The debouncer *)

(** C1, counterexample.  In [app.py], one half second after [write_start]
    was emitted the pose switches to [write_stop]: the name differs, yet
    nothing is dispatched.  Two seconds after the emission [write_start]
    is still held: the cooldown has elapsed, yet nothing is dispatched.
    In the service, a switch of pose 0.2 s after an emission yields no
    event. *)
Lemma switch_within_cooldown_is_suppressed :
  let s := fst (App.handle_gesture 10 10 Fake.stamp (Some 0) (Fake.app_init 0)) in
  let b := fst (Backend.debounce 10 "write_start" 1 (Build_Landmark 0 0 0)
                  Backend.__init__) in
  App.last_gesture s = Some "write_start"
  /\ spec_emits App.gesture_cooldown (App.last_gesture s)
       (App.last_gesture_time s) (21 # 2)%Q "write_stop" = true
  /\ App.handle_gesture (21 # 2)%Q (21 # 2)%Q Fake.stamp (Some 1) s = (s, [])
  /\ spec_emits App.gesture_cooldown (App.last_gesture s)
       (App.last_gesture_time s) 12 "write_start" = true
  /\ App.handle_gesture 12 12 Fake.stamp (Some 0) s = (s, [])
  /\ Backend.current_gesture b = Some "write_start"
  /\ spec_emits Backend.gesture_cooldown (Backend.current_gesture b)
       (Backend.last_gesture_time b) (102 # 10)%Q "write_stop" = true
  /\ Backend.debounce (102 # 10)%Q "write_stop" 1 (Build_Landmark 0 0 0) b
     = (b, None).
Proof. vm_compute. repeat split; reflexivity. Qed.



(** *** The history *)

(** C2, counterexample.  After the initial snapshot and sixty clears the
    deque holds 50 snapshots; 49 undos leave one, and the 50th changes
    nothing. *)
Lemma fiftieth_undo_is_noop :
  length (App.history Fake.sixty_clears) = 50
  /\ length (App.history (Nat.iter 49 (App.undo 0) Fake.sixty_clears)) = 1
  /\ Nat.iter 50 (App.undo 0) Fake.sixty_clears
     = Nat.iter 49 (App.undo 0) Fake.sixty_clears.
Proof.
  split; [vm_compute; reflexivity|].
  assert (H : length (App.history (Nat.iter 49 (App.undo 0) Fake.sixty_clears)) = 1)
    by (vm_compute; reflexivity).
  split; [exact H|].
  rewrite (Nat.iter_succ 49). apply undo_noop. rewrite H. lia.
Qed.

(** Sixty commits of sixty different canvases. *)
Lemma undo_steps_witness :
  let cs : list (@Canvas Fake.raster) :=
    map (fun i => Fake.paint (fun _ => Fake.white) (Z.of_nat i, 0%Z) (0, 0, 255)%Z)
        (seq 0 60) in
  let s := fold_left (fun s c => commit c s) cs (Fake.app_init 0) in
  length cs = 60
  /\ Nat.iter 50 (App.undo 0) s = Nat.iter 49 (App.undo 0) s
  /\ App.canvas (Nat.iter 49 (App.undo 0) s) = nth 10 cs App.blank.
Proof.
  intros cs s.
  assert (Hcs : length cs = 60) by reflexivity.
  assert (Hcommitted : committed cs s).
  { apply (commits_committed [] cs). apply committed_init. }
  destruct (@undo_steps_after_sixty_commits Fake.raster 0 cs s Hcommitted Hcs)
    as (_ & _ & Hcanvas & _ & Hnoop).
  split; [exact Hcs|]. split.
  - exact (Hnoop 50 (le_S 49 49 (le_n 49))).
  - exact (Hcanvas 49 (conj (Nat.lt_0_succ 48) (le_n 49))).
Defined.

(** C5, counterexample.  On the board of [Fake.erased_board] the stroke
    was committed and then erased over; the erasure is not in the deque.
    [undo] then [redo] brings the stroke back: the pixel at the centre is
    white before and red after. *)
Lemma undo_redo_loses_erasure :
  App.reachable Fake.erased_board
  /\ length (App.history Fake.erased_board) = 2
  /\ App.drawing Fake.erased_board = false
  /\ App.canvas Fake.erased_board (600, 400)%Z = Fake.white
  /\ App.canvas (App.redo 6 (App.undo 6 Fake.erased_board)) (600, 400)%Z
     = (0, 0, 255)%Z
  /\ App.canvas (App.redo 6 (App.undo 6 Fake.erased_board))
     <> App.canvas Fake.erased_board.
Proof.
  split; [apply run_of_init_reachable|].
  split; [vm_compute; reflexivity|].
  split; [vm_compute; reflexivity|].
  split; [vm_compute; reflexivity|].
  split; [vm_compute; reflexivity|].
  intro E. apply (f_equal (fun c : Fake.Image => c (600, 400)%Z)) in E.
  vm_compute in E. discriminate E.
Qed.

Lemma undo_then_redo_witness :
  App.canvas (App.redo 6 (App.undo 6 Fake.erased_board))
  = last (App.history Fake.erased_board) (App.canvas Fake.erased_board)
  /\ App.redo 6 Fake.erased_board = Fake.erased_board.
Proof.
  destruct (undo_then_redo 6 6 Fake.erased_board) as [H1 H2].
  assert (Hl : 2 <= length (App.history Fake.erased_board) <= App.maxlen)
    by (vm_compute; split; [lia|repeat constructor]).
  assert (Hr : App.redo_stack Fake.erased_board = []) by reflexivity.
  destruct (H1 Hl) as [Hc _].
  split; [exact Hc|exact (H2 Hr)].
Defined.

(** C6, counterexample.  On the simpler whiteboard a stroke is in the
    history, [clear_all] blanks the canvas and pushes nothing, and the
    [undo] that follows leaves the canvas blank.  In [app.py], clearing
    the board of [Fake.erased_board] and undoing shows the stroke, not the
    erased board of before the clear. *)
Lemma clear_all_is_not_undone :
  length (Whiteboard.history Fake.wb_stroke) = 1
  /\ Whiteboard.canvas Fake.wb_stroke (600, 400)%Z = (0, 0, 255)%Z
  /\ Whiteboard.history Fake.wb_cleared = Whiteboard.history Fake.wb_stroke
  /\ Whiteboard.canvas Fake.wb_cleared_undone (600, 400)%Z = Fake.white
  /\ Whiteboard.canvas Fake.wb_cleared_undone <> Whiteboard.canvas Fake.wb_stroke
  /\ App.canvas (App.undo 7 (fst (App.dispatch 6 Fake.stamp "clear_all" Fake.erased_board)))
     <> App.canvas Fake.erased_board.
Proof.
  split; [vm_compute; reflexivity|].
  split; [vm_compute; reflexivity|].
  split; [vm_compute; reflexivity|].
  split; [vm_compute; reflexivity|].
  split.
  - intro E. apply (f_equal (fun c : Fake.Image => c (600, 400)%Z)) in E.
    vm_compute in E. discriminate E.
  - intro E. apply (f_equal (fun c : Fake.Image => c (600, 400)%Z)) in E.
    vm_compute in E. discriminate E.
Qed.

Lemma clear_then_undo_witness :
  App.canvas (App.undo 7 (fst (App.dispatch 6 Fake.stamp "clear_all" Fake.erased_board)))
  = last (App.history Fake.erased_board) (App.canvas Fake.erased_board).
Proof.
  destruct (clear_then_undo 6 7 Fake.stamp Fake.erased_board Whiteboard.__init__)
    as [H _].
  assert (Hl : 1 <= length (App.history Fake.erased_board) <= App.maxlen)
    by (vm_compute; split; [lia|repeat constructor]).
  destruct (H Hl) as (_ & _ & _ & Hc & _).
  exact Hc.
Defined.

(** *** The shape preview *)

Lemma preview_commits_once_witness :
  let s' := fold_left (fun s p => App.handle_drawing (Some p) s)
              [(700, 500)%Z; (800, 600)%Z; (650, 450)%Z] Fake.shape_anchored in
  App.canvas s' = App.canvas Fake.shape_anchored
  /\ App.history (App.end_drawing s')
     = Deque.append App.maxlen (App.history Fake.shape_anchored)
         (App.temp_canvas s').
Proof.
  intro s'.
  destruct (preview_commits_once
              [(700, 500)%Z; (800, 600)%Z; (650, 450)%Z] (600, 400)%Z
              Fake.shape_anchored eq_refl eq_refl eq_refl)
    as (Hc & _ & _ & _ & _ & _ & Hh).
  split; [exact Hc|exact Hh].
Defined.

(** *** The landmark window *)

Lemma classifier_sees_full_windows_witness :
  let frames := [ Fake.frame 1 0 Fake.centre Fake.centre Fake.no_key;
                  Fake.frame 1 0 Fake.centre Fake.centre Fake.no_key;
                  Fake.frame 1 0 Fake.centre Fake.centre Fake.no_key;
                  Fake.frame 1 0 Fake.centre Fake.centre Fake.no_key ] in
  let w := App.frame_buffer Fake.stroke_begun in
  let c := App.clock (Fake.frame 2 0 Fake.centre Fake.centre Fake.no_key) in
  (length w = App.sequence_length /\ Forall (fun f : Frame => length f = 21) w)
  /\ App.recognise c [] Fake.stroke_begun = (Fake.stroke_begun, [])
  /\ snd (App.recognise c (Fake.hand 0 Fake.centre Fake.centre) (Fake.app_init 0))
     = [].
Proof.
  intros frames w c.
  assert (Hrun : snd (App.run frames (App.__init__ 0)) = [Invoke w])
    by (vm_compute; reflexivity).
  assert (Hin : In (Invoke w) (snd (App.run frames (App.__init__ 0))))
    by (rewrite Hrun; apply in_eq).
  assert (Hrej : length (@nil Landmark) <> 21) by discriminate.
  destruct (classifier_sees_full_windows frames 0 w c [] Fake.stroke_begun)
    as (H1 & H2 & _).
  destruct (classifier_sees_full_windows frames 0 w c
              (Fake.hand 0 Fake.centre Fake.centre) (Fake.app_init 0))
    as (_ & _ & H3).
  assert (Hpend : length (App.frame_buffer
                            (fst (App.recognise c
                                    (Fake.hand 0 Fake.centre Fake.centre)
                                    (Fake.app_init 0))))
                  < App.sequence_length).
  { vm_compute. repeat constructor. }
  split; [exact (H1 Hin)|]. split; [exact (H2 Hrej)|exact (H3 Hpend)].
Defined.




(** *** The view transform *)

(** C8, at the failing input.  Zoomed to 3.0 and panned, the offsets
    (-600, -400) are within their bounds.  Ten presses of [x] bring the
    zoom factor back to 1.0, whose bounds are [0, 0]; [zoom] does not clamp
    the offsets, which stay at (-600, -400), out of bounds, in a reachable
    state. *)
Theorem zoom_out_strands_the_offsets :
  App.reachable Fake.zoomed_panned_out
  /\ offsets_in_bounds Fake.zoomed_panned
  /\ (App.zoom_factor Fake.zoomed_panned_out == 1)%Q
  /\ (App.offset_x Fake.zoomed_panned_out == - (600 # 1))%Q
  /\ (App.offset_y Fake.zoomed_panned_out == - (400 # 1))%Q
  /\ ~ offsets_in_bounds Fake.zoomed_panned_out.
Proof.
  split.
  { unfold Fake.zoomed_panned_out, Fake.zoomed_panned.
    apply run_reachable. apply run_of_init_reachable. }
  split.
  { unfold offsets_in_bounds. vm_compute. repeat split; discriminate. }
  split; [vm_compute; reflexivity|].
  split; [vm_compute; reflexivity|].
  split; [vm_compute; reflexivity|].
  unfold offsets_in_bounds. intros [H _]. vm_compute in H. apply H. reflexivity.
Qed.

(** *** The tool state machine *)

(** C9, counterexample.  [write_start] begins a stroke; the [pan] gesture
    one second later starts panning while the stroke stays active and
    uncommitted (the deque still holds the initial snapshot only). *)
Lemma stroke_and_pan_together :
  App.reachable Fake.stroke_then_pan
  /\ stroke_active Fake.stroke_then_pan
  /\ panning Fake.stroke_then_pan
  /\ length (App.history Fake.stroke_then_pan) = 1.
Proof.
  split.
  { unfold Fake.stroke_then_pan, Fake.stroke_begun.
    apply run_reachable. apply run_of_init_reachable. }
  split; [split; [|left]; vm_compute; reflexivity|].
  split; vm_compute; reflexivity.
Qed.

Lemma stroke_and_preview_exclusive_witness :
  let s' := fst (fst (App.tick (Fake.frame 2 10 Fake.centre Fake.centre Fake.no_key)
                        Fake.stroke_begun)) in
  ~ (stroke_active Fake.stroke_begun /\ preview_active Fake.stroke_begun)
  /\ stroke_active s' /\ panning s'
  /\ App.history s' = App.history Fake.stroke_begun.
Proof.
  intro s'.
  destruct (stroke_and_preview_exclusive_pan_is_not Fake.stroke_begun
              (run_of_init_reachable 0 _)) as [H1 H2].
  split; [exact H1|].
  apply (H2 (Fake.frame 2 10 Fake.centre Fake.centre Fake.no_key)
            (Fake.hand 10 Fake.centre Fake.centre)
            (map (fun lm => (lm_x lm, lm_y lm, lm_z lm))
                 (Fake.hand 10 Fake.centre Fake.centre))).
  - split; [|left]; vm_compute; reflexivity.
  - reflexivity.
  - reflexivity.
  - vm_compute. repeat constructor.
  - vm_compute. reflexivity.
  - vm_compute. reflexivity.
  - vm_compute. discriminate.
  - vm_compute. discriminate.
  - reflexivity.
Defined.

End Runs.

(** * More worked runs *)

Section MoreRuns.

#[local] Existing Instance Fake.raster.
#[local] Existing Instance Fake.classifier.

Lemma wb_run_reachable frames (s : Whiteboard.GestureWhiteboard) :
  Whiteboard.reachable s -> Whiteboard.reachable (fst (Whiteboard.run frames s)).
Proof.
  revert s. induction frames as [|[lms [t now]] rest IH]; intros s Hs; [exact Hs|].
  cbn [Whiteboard.run].
  pose proof (Whiteboard.reachable_tick lms t now s Hs) as H1.
  destruct (Whiteboard.tick lms t now s) as [s1 out]. cbn [fst] in H1.
  specialize (IH s1 H1). destruct (Whiteboard.run rest s1). exact IH.
Qed.

Lemma wb_stroke_reachable : Whiteboard.reachable Fake.wb_stroke.
Proof. apply wb_run_reachable. apply Whiteboard.reachable_init. Qed.

Lemma wb_two_strokes_reachable : Whiteboard.reachable Fake.wb_two_strokes.
Proof. apply wb_run_reachable. exact wb_stroke_reachable. Qed.

(** *** The history *)

(** After sixty clears the deque is full and nothing can be redone. *)
Lemma history_never_overflows_witness :
  1 <= length (App.history Fake.sixty_clears) <= App.maxlen
  /\ length (App.history Fake.sixty_clears)
     + length (App.redo_stack Fake.sixty_clears) <= App.maxlen.
Proof.
  destruct (history_never_overflows Fake.sixty_clears (run_of_init_reachable 0 _))
    as (H1 & H2 & _).
  split; [exact H1|exact H2].
Defined.

(** Three commits, three undos. *)
Lemma undo_all_commits_witness :
  let cs : list (@Canvas Fake.raster) :=
    map (fun i => Fake.paint (fun _ => Fake.white) (Z.of_nat i, 0%Z) (0, 0, 255)%Z)
        (seq 0 3) in
  let s := fold_left (fun s c => commit c s) cs (Fake.app_init 0) in
  App.canvas (Nat.iter 3 (App.undo 0) s) = App.blank
  /\ App.history (Nat.iter 3 (App.undo 0) s) = [App.blank].
Proof.
  intros cs s.
  assert (Hcommitted : committed cs s).
  { apply (commits_committed [] cs). apply committed_init. }
  assert (H49 : length cs <= 49) by (vm_compute; lia).
  assert (H1 : 1 <= length cs) by (vm_compute; lia).
  destruct (@undo_all_commits_reaches_blank Fake.raster 0 cs s Hcommitted H49 H1)
    as (Hc & Hh & _).
  split; [exact Hc|exact Hh].
Defined.

(** The board of [Fake.erased_board] after one undo: [redo] then [undo]. *)
Lemma redo_then_undo_witness :
  let s := App.undo 6 Fake.erased_board in
  App.history (App.undo 8 (App.redo 7 s)) = App.history s
  /\ App.redo_stack (App.undo 8 (App.redo 7 s)) = App.redo_stack s.
Proof.
  intro s.
  assert (Hne : App.redo_stack s <> []) by (vm_compute; discriminate).
  assert (H1 : 1 <= length (App.history s)) by (vm_compute; lia).
  assert (H2 : length (App.history s) + length (App.redo_stack s) <= App.maxlen)
    by (vm_compute; lia).
  destruct (@redo_then_undo Fake.raster 7 8 s Hne H1 H2) as (Hh & Hr & _).
  split; [exact Hh|exact Hr].
Defined.

(** Forty-nine undos and forty-nine redos on the full deque. *)
Lemma undos_then_redos_witness :
  let s' := Nat.iter 49 (App.redo 2) (Nat.iter 49 (App.undo 1) Fake.sixty_clears) in
  App.history s' = App.history Fake.sixty_clears
  /\ App.redo_stack s' = App.redo_stack Fake.sixty_clears.
Proof.
  intro s'.
  assert (Hk1 : 1 <= 49) by lia.
  assert (Hk : 49 < length (App.history Fake.sixty_clears)) by (vm_compute; lia).
  assert (Hcap : length (App.history Fake.sixty_clears)
                 + length (App.redo_stack Fake.sixty_clears) <= App.maxlen)
    by (vm_compute; lia).
  destruct (@undos_then_redos_restore Fake.raster 1 2 49 Fake.sixty_clears
              Hk1 Hk Hcap) as (Hh & Hr & _).
  split; [exact Hh|exact Hr].
Defined.

(** *** The view transform *)

Lemma view_stays_in_range_witness :
  (1 <= App.zoom_factor Fake.zoomed_panned_out
   /\ App.zoom_factor Fake.zoomed_panned_out <= 3
   /\ - (2400 # 1) <= App.offset_x Fake.zoomed_panned_out
   /\ App.offset_x Fake.zoomed_panned_out <= 0)%Q.
Proof.
  destruct (view_stays_in_range Fake.zoomed_panned_out)
    as (H1 & H2 & H3 & H4 & _).
  { unfold Fake.zoomed_panned_out, Fake.zoomed_panned.
    apply run_reachable. apply run_of_init_reachable. }
  split; [exact H1|]. split; [exact H2|]. split; [exact H3|exact H4].
Defined.

(** Eleven presses of either zoom key on a fresh application. *)
Lemma zoom_saturates_witness :
  (App.zoom_factor (Nat.iter 11 (App.zoom 1 "in") (Fake.app_init 0)) == 3)%Q
  /\ (App.zoom_factor (Nat.iter 11 (App.zoom 1 "out") (Fake.app_init 0)) == 1)%Q.
Proof.
  assert (H1 : (1 <= App.zoom_factor (Fake.app_init 0))%Q)
    by (vm_compute; discriminate).
  assert (H3 : (App.zoom_factor (Fake.app_init 0) <= 3)%Q)
    by (vm_compute; discriminate).
  destruct (@zoom_saturates_at_both_ends Fake.raster 1 (Fake.app_init 0) H1 H3)
    as (_ & _ & Hin & Hout & _).
  split; [exact (Hin 11 (le_n 11))|exact (Hout 11 (le_n 11))].
Defined.

(** A pan motion at zoom factor 3.0. *)
Lemma pan_motion_is_clamped_witness :
  offsets_in_bounds (App.pan 0 0 Fake.zoomed_panned).
Proof.
  assert (Hp : App.pan_mode Fake.zoomed_panned = true) by (vm_compute; reflexivity).
  destruct (pan_motion_is_clamped 0 0 Fake.zoomed_panned (run_of_init_reachable 0 _) Hp)
    as [Hb _].
  exact Hb.
Defined.

Lemma shape_is_always_rectangle_witness :
  App.current_shape Fake.shape_anchored = "rectangle"
  /\ App.shape_index Fake.shape_anchored = 0.
Proof.
  destruct (shape_is_always_rectangle Fake.shape_anchored (600, 400)%Z 0%Z 0%Z
              (run_of_init_reachable 0 _)) as (H1 & H2 & _).
  split; [exact H1|exact H2].
Defined.

(** *** The landmark window *)

(** Five snapshots with a frame without a hand in between. *)
Lemma window_holds_newest_four_witness :
  let frames :=
    [ Fake.frame 1 0 Fake.centre Fake.centre Fake.no_key;
      Fake.frame 1 1 Fake.centre Fake.centre Fake.no_key;
      Fake.lost 1 Fake.no_key;
      Fake.frame 2 2 Fake.centre Fake.centre Fake.no_key;
      Fake.frame 2 3 Fake.centre Fake.centre Fake.no_key;
      Fake.frame 2 4 Fake.centre Fake.centre Fake.no_key ] in
  App.frame_buffer (Fake.app_run frames (Fake.app_init 0))
  = skipn 1 (snapshots frames).
Proof.
  intro frames.
  assert (Hk : Forall (fun inp => App.key inp <> App.ord "q") frames).
  { repeat (constructor; [vm_compute; discriminate|]). constructor. }
  assert (Hl : length (App.frame_buffer (Fake.app_init 0)) <= 4)
    by (vm_compute; lia).
  exact (window_holds_newest_four frames (Fake.app_init 0) Hk Hl).
Defined.

(** A class outside the table has confidence 0 under [Fake.classifier]. *)
Lemma low_confidence_only_buffers_witness :
  let lms := Fake.hand 12 Fake.centre Fake.centre in
  let f := map (fun lm => (lm_x lm, lm_y lm, lm_z lm)) lms in
  let c := App.clock (Fake.frame 2 12 Fake.centre Fake.centre Fake.no_key) in
  let w := Deque.append App.sequence_length (App.frame_buffer Fake.three_seen) f in
  App.recognise c lms Fake.three_seen
  = (App.set_frame_buffer w Fake.three_seen, [Invoke w]).
Proof.
  intros lms f c w.
  assert (Hp : process_landmarks lms = Some f) by reflexivity.
  assert (Hl : 3 <= length (App.frame_buffer Fake.three_seen))
    by (vm_compute; lia).
  assert (Hc : (nth (np_argmax (invoke w)) (invoke w) 0 <= 7 # 10)%Q)
    by (vm_compute; discriminate).
  exact (low_confidence_only_buffers c lms f Fake.three_seen Hp Hl Hc).
Defined.

(** *** The adapter *)

Lemma unknown_class_witness :
  let s' := App.set_last_gesture_time 10
              (App.set_last_gesture (Some "Unknown") (Fake.app_init 0)) in
  App.handle_gesture 10 10 Fake.stamp (Some 12) (Fake.app_init 0) = (s', []).
Proof.
  intro s'.
  assert (Hn : 12 <= 12) by lia.
  assert (Hc : (App.gesture_cooldown
                <= 10 - App.last_gesture_time (Fake.app_init 0))%Q)
    by (vm_compute; discriminate).
  assert (Hl : App.last_gesture (Fake.app_init 0) <> Some "Unknown")
    by (vm_compute; discriminate).
  destruct (@unknown_class_only_resets_the_debouncer Fake.raster
              10 10 Fake.stamp 12 (Fake.app_init 0) Hn Hc Hl) as [H _].
  exact H.
Defined.

Lemma held_pose_witness :
  let s1 := fst (App.handle_gesture 10 10 Fake.stamp (Some 3) (Fake.app_init 0)) in
  App.last_gesture s1 = Some (dict_get GESTURE_MAP (Some 3) "Unknown")
  /\ fold_left
       (fun s r => fst (App.handle_gesture (fst (fst r)) (snd (fst r)) (snd r)
                          (Some 3) s))
       [ (11%Q, 11%Q, Fake.stamp); (30%Q, 30%Q, Fake.stamp) ] s1
     = s1.
Proof.
  intro s1. subst s1.
  assert (Hc : (App.gesture_cooldown
                <= 10 - App.last_gesture_time (Fake.app_init 0))%Q)
    by (vm_compute; discriminate).
  assert (Hn : Some (dict_get GESTURE_MAP (Some 3) "Unknown")
               <> App.last_gesture (Fake.app_init 0))
    by (vm_compute; discriminate).
  destruct (@held_pose_is_dispatched_once Fake.raster 10 10 Fake.stamp (Some 3)
              [ (11%Q, 11%Q, Fake.stamp); (30%Q, 30%Q, Fake.stamp) ]
              (Fake.app_init 0) Hc Hn) as [H1 H2].
  split; [exact H1|exact H2].
Defined.

(** *** The loop *)

Lemma panning_needs_the_pan_gesture_witness :
  App.last_gesture Fake.stroke_then_pan = Some "pan"
  /\ App.pan_mode
       (fst (fst (App.tick (Fake.lost 3 Fake.no_key) Fake.stroke_then_pan)))
     = false.
Proof.
  destruct (panning_needs_the_pan_gesture Fake.stroke_then_pan) as [H1 H2].
  { unfold Fake.stroke_then_pan, Fake.stroke_begun.
    apply run_reachable. apply run_of_init_reachable. }
  assert (Hp : App.pan_mode Fake.stroke_then_pan = true)
    by (vm_compute; reflexivity).
  split; [exact (H1 Hp)|exact (H2 (Fake.lost 3 Fake.no_key) eq_refl)].
Defined.

(** Five frames of [write_start] in the first second. *)
Lemma no_gesture_in_the_first_second_witness :
  let frames := repeat (Fake.frame 0 0 Fake.centre Fake.centre Fake.no_key) 5 in
  App.last_gesture (Fake.app_run frames (Fake.app_init 0)) = None
  /\ App.drawing (Fake.app_run frames (Fake.app_init 0)) = false.
Proof.
  intro frames.
  assert (Hf : Forall (fun inp =>
                         (App.t_gesture (App.clock inp) - 0
                          < App.gesture_cooldown)%Q) frames).
  { repeat (constructor; [vm_compute; reflexivity|]). constructor. }
  destruct (no_gesture_in_the_first_second 0 frames Hf) as (H1 & H2 & _).
  split; [exact H1|exact H2].
Defined.

(** *** The simpler whiteboard *)

Lemma whiteboard_indices_witness :
  wb_inv Fake.wb_two_strokes.
Proof.
  destruct (whiteboard_indices_stay_in_range Fake.wb_two_strokes
              wb_two_strokes_reachable) as [H _].
  exact H.
Defined.

(** After two strokes, [undo] shows the first and [redo] the second. *)
Lemma whiteboard_undo_then_redo_witness :
  let s1 := fst (Whiteboard.handle_gesture 6 "undo" Fake.wb_two_strokes) in
  let s2 := fst (Whiteboard.handle_gesture 7 "redo" s1) in
  nth_error (Whiteboard.history Fake.wb_two_strokes) 0
    = Some (Whiteboard.canvas s1)
  /\ nth_error (Whiteboard.history Fake.wb_two_strokes) 1
    = Some (Whiteboard.canvas s2)
  /\ Whiteboard.history_index s2 = 1%Z.
Proof.
  intros s1 s2.
  destruct (whiteboard_undo_then_redo 6 7 Fake.wb_two_strokes
              wb_two_strokes_reachable) as [H _].
  assert (Hi : (0 < Whiteboard.history_index Fake.wb_two_strokes)%Z)
    by (vm_compute; reflexivity).
  assert (Ei : Whiteboard.history_index Fake.wb_two_strokes = 1%Z)
    by (vm_compute; reflexivity).
  destruct (H Hi) as (Ha & Hb & Hc & _).
  rewrite Ei in Ha, Hb, Hc.
  split; [exact Ha|]. split; [exact Hb|exact Hc].
Defined.

(** A third stroke begun after an undo: its end cuts the second off. *)
Lemma whiteboard_stroke_discards_redo_witness :
  let s := fst (Whiteboard.handle_gesture 7 "write_start"
                  (fst (Whiteboard.handle_gesture 6 "undo" Fake.wb_two_strokes))) in
  let s1 := fst (Whiteboard.handle_gesture 8 "write_stop" s) in
  Whiteboard.handle_gesture 9 "redo" s1 = (s1, []).
Proof.
  intros s s1.
  assert (Hd : Whiteboard.drawing s = true) by (vm_compute; reflexivity).
  destruct (@whiteboard_stroke_discards_redo Fake.raster 8 9 s Hd)
    as (_ & _ & H & _).
  exact H.
Defined.

(** *** The rule-based recogniser *)

(** All landmarks at one point: no finger is up, the pose is the fist. *)
Lemma gesture_message_witness :
  Integration.detect_gesture (Fake.hand 0 Fake.centre Fake.centre) = Some "clear"
  /\ (0 <= 600 <= 1200)%Z /\ (0 <= 400 <= 800)%Z.
Proof.
  assert (E : Integration.gesture_message (Fake.hand 0 Fake.centre Fake.centre)
              = Some ("clear", (600, 400)%Z, (9 # 10)%Q))
    by (vm_compute; reflexivity).
  assert (Hl : 21 <= length (Fake.hand 0 Fake.centre Fake.centre))
    by (vm_compute; lia).
  assert (Hx0 : (0 <= lm_x (landmark_at (Fake.hand 0 Fake.centre Fake.centre) 8))%Q)
    by (vm_compute; discriminate).
  assert (Hx1 : (lm_x (landmark_at (Fake.hand 0 Fake.centre Fake.centre) 8) <= 1)%Q)
    by (vm_compute; discriminate).
  assert (Hy0 : (0 <= lm_y (landmark_at (Fake.hand 0 Fake.centre Fake.centre) 8))%Q)
    by (vm_compute; discriminate).
  assert (Hy1 : (lm_y (landmark_at (Fake.hand 0 Fake.centre Fake.centre) 8) <= 1)%Q)
    by (vm_compute; discriminate).
  pose proof (gesture_message_is_on_the_canvas
                (Fake.hand 0 Fake.centre Fake.centre) Hl Hx0 Hx1 Hy0 Hy1) as H.
  rewrite E in H. destruct H as (Hg & _ & Hx & Hy & _).
  split; [exact Hg|]. split; [exact Hx|exact Hy].
Defined.

End MoreRuns.
